(** * pyaxel: a shallow embedding of [pyaxel/axel.py]

    The program is Python 2: [/] on two integers is floor division, [str]
    is a byte string, and [print] is the function from [__future__].

    The development has three layers.
    - [Py]: the Python built-ins and [os.path] functions the program calls.
    - [Fs], [Net]: the two collaborators of the program, a directory of
      regular files and the remote HTTP server.
    - the class [Axel]: its attributes as a record, its methods as
      computations in a state-and-exception monad over the object and the
      directory.

    Theorems follow the definitions. *)

From Stdlib Require Import ZArith Lia List String Ascii.
From Stdlib Require Import DecimalString DecimalN DecimalZ.
From Stdlib.Strings Require Import Byte.
From stdpp Require Import base list strings.

Local Open Scope string_scope.
Local Open Scope list_scope.

(* ===================================================================== *)
(** ** Python built-ins and [os.path] *)
(* ===================================================================== *)

Module Py.

(** The newline character and the one-character string holding it. *)
Definition nl_char : ascii := ascii_of_nat 10.
Definition nl : string := String nl_char "".

(** [str(z)] for an integer. *)
Definition str (z : Z) : string := NilEmpty.string_of_int (Z.to_int z).

Definition is_digit_char (c : ascii) : bool :=
  (48 <=? nat_of_ascii c)%nat && (nat_of_ascii c <=? 57)%nat.

Fixpoint all_chars (p : ascii → bool) (s : string) : bool :=
  match s with
  | EmptyString => true
  | String c s' => p c && all_chars p s'
  end.

Fixpoint any_char (p : ascii → bool) (s : string) : bool :=
  match s with
  | EmptyString => false
  | String c s' => p c || any_char p s'
  end.

(** [s.isdigit()]: true when [s] is not empty and holds decimal digits
    only. *)
Definition isdigit (s : string) : bool :=
  match s with
  | EmptyString => false
  | _ => all_chars is_digit_char s
  end.

(** [int(s)] on a string of decimal digits, the only strings the program
    passes to it ([ValueError], here [None], on the others). *)
Definition int (s : string) : option Z :=
  if isdigit s then Z.of_uint <$> NilEmpty.uint_of_string s else None.

(** [s.rfind(c)]: the index of the last occurrence of [c], or [-1]. *)
Fixpoint rfind (c : ascii) (s : string) : Z :=
  match s with
  | EmptyString => -1
  | String a s' =>
      let r := rfind c s' in
      if (0 <=? r)%Z then (1 + r)%Z
      else if Ascii.eqb a c then 0%Z else (-1)%Z
  end.

(** The slices [s[:n]] and [s[n:]] for [0 <= n]. *)
Fixpoint take (n : nat) (s : string) : string :=
  match n, s with
  | S n', String c s' => String c (take n' s')
  | _, _ => EmptyString
  end.

Fixpoint drop (n : nat) (s : string) : string :=
  match n, s with
  | S n', String _ s' => drop n' s'
  | _, _ => s
  end.

(** [s[i:j]] for [0 <= i <= j]. *)
Definition slice (i j : Z) (s : string) : string :=
  take (Z.to_nat (j - i)) (drop (Z.to_nat i) s).

(** [sep.join(l)]. *)
Fixpoint join (sep : string) (l : list string) : string :=
  match l with
  | [] => ""
  | [s] => s
  | s :: l' => s +:+ sep +:+ join sep l'
  end.

(** [enumerate(l)]. *)
Fixpoint enumerate_from {A} (i : nat) (l : list A) : list (nat * A) :=
  match l with
  | [] => []
  | x :: l' => (i, x) :: enumerate_from (S i) l'
  end.
Definition enumerate {A} (l : list A) : list (nat * A) := enumerate_from 0 l.

(** [xrange(n)]: empty when [n <= 0]. *)
Definition xrange (n : Z) : list Z := Z.of_nat <$> seq 0 (Z.to_nat n).

(** ['%03d' % i] for [0 <= i]: the decimal digits of [i], padded with
    zeros on the left to three characters. *)
Fixpoint zeros (n : nat) : string :=
  match n with
  | O => ""
  | S n' => String "0" (zeros n')
  end.
Definition fmt_03d (i : nat) : string :=
  let d := str (Z.of_nat i) in
  zeros (3 - String.length d) +:+ d.

(** [os.path.basename(p)] of [posixpath]: what follows the last slash. *)
Definition basename (p : string) : string :=
  drop (Z.to_nat (rfind "/" p + 1)) p.

(** [os.path.splitext(p)] of [posixpath] ([genericpath._splitext] with
    [sep = '/'], no [altsep], [extsep = '.']). The extension starts at
    the last dot, when that dot comes after the last slash and some
    character between the slash and the dot is not a dot (the loop that
    skips the leading dots of the file name); otherwise it is empty. *)
Definition splitext (p : string) : string * string :=
  let sepIndex := rfind "/" p in
  let dotIndex := rfind "." p in
  if (sepIndex <? dotIndex)%Z
     && any_char (λ c, negb (Ascii.eqb c ".")) (slice (sepIndex + 1) dotIndex p)
  then (take (Z.to_nat dotIndex) p, drop (Z.to_nat dotIndex) p)
  else (p, "").

(** [fnmatch.translate(pat)] followed by [re.compile]: the pattern as a
    sequence of items. [*] stands for [.*], [?] for [.] (the pattern is
    compiled with [re.DOTALL]), a bracket expression that is closed for a
    character class, and every other character, an opening bracket that is
    never closed included, for itself. *)
Inductive glob_item : Type :=
| Star
| AnyChar
| Lit (c : ascii)
| Class (negate : bool) (ranges : list (ascii * ascii)).

(** [s.find(']')]. *)
Fixpoint find_close (s : string) : option nat :=
  match s with
  | EmptyString => None
  | String c s' => if Ascii.eqb c "]" then Some O else S <$> find_close s'
  end.

(** The search of [translate] for the bracket that closes a class, from
    [s = pat[i:]] where [pat[i - 1]] is the opening bracket: [j - i] for
    the index [j] it stops at, or [None] when it runs off the pattern. A
    [!] right after the opening bracket, and a closing bracket that comes
    first, are stepped over. *)
Definition class_end (s : string) : option nat :=
  let j := match s with String "!" _ => 1%nat | _ => 0%nat end in
  let j := match drop j s with String "]" _ => S j | _ => j end in
  (λ m, (j + m)%nat) <$> find_close (drop j s).

(** The members of a class as [re] parses them from the characters
    between the brackets, each of which stands for itself ([translate]
    doubles the backslashes and escapes a leading [^]): [lo-hi] is a
    range, a dash that comes last is a dash, and a range whose end is
    below its start is an error of [re.compile] ([None]). *)
Fixpoint ranges_of (body : list ascii) : option (list (ascii * ascii)) :=
  match body with
  | [] => Some []
  | lo :: rest =>
      match rest with
      | "-"%char :: hi :: rest' =>
          if (nat_of_ascii hi <? nat_of_ascii lo)%nat then None
          else cons (lo, hi) <$> ranges_of rest'
      | _ => cons (lo, lo) <$> ranges_of rest
      end
  end.

(** The class for [stuff = pat[i:j]]: a leading [!] negates it. *)
Definition class_of (stuff : string) : option glob_item :=
  match stuff with
  | String "!" body => Class true <$> ranges_of (list_ascii_of_string body)
  | _ => Class false <$> ranges_of (list_ascii_of_string stuff)
  end.

(** The loop of [translate]; [skip] counts the characters of a class, its
    closing bracket included, that the loop jumps over ([i = j + 1]). *)
Fixpoint translate_from (skip : nat) (pat : string) : option (list glob_item) :=
  match pat with
  | EmptyString => Some []
  | String c rest =>
      match skip with
      | S skip' => translate_from skip' rest
      | O =>
          if Ascii.eqb c "*" then cons Star <$> translate_from 0 rest
          else if Ascii.eqb c "?" then cons AnyChar <$> translate_from 0 rest
          else if Ascii.eqb c "[" then
            match class_end rest with
            | None => cons (Lit c) <$> translate_from 0 rest
            | Some j =>
                match class_of (take j rest) with
                | None => None
                | Some cls => cons cls <$> translate_from (S j) rest
                end
            end
          else cons (Lit c) <$> translate_from 0 rest
      end
  end.

Definition translate (pat : string) : option (list glob_item) :=
  translate_from 0 pat.

Definition in_class (negate : bool) (ranges : list (ascii * ascii))
    (c : ascii) : bool :=
  xorb negate
    (existsb (λ r, (nat_of_ascii r.1 <=? nat_of_ascii c)%nat
                   && (nat_of_ascii c <=? nat_of_ascii r.2)%nat) ranges).

(** [re.match] of the translated pattern, which ends with [\Z]: the
    whole of [name] has to match. *)
Fixpoint re_match (items : list glob_item) (name : string) : bool :=
  match items with
  | [] => match name with EmptyString => true | _ => false end
  | Star :: items' =>
      (fix star (s : string) : bool :=
         re_match items' s
         || match s with
            | EmptyString => false
            | String _ s' => star s'
            end) name
  | AnyChar :: items' =>
      match name with
      | EmptyString => false
      | String _ name' => re_match items' name'
      end
  | Lit c :: items' =>
      match name with
      | EmptyString => false
      | String a name' => Ascii.eqb a c && re_match items' name'
      end
  | Class negate ranges :: items' =>
      match name with
      | EmptyString => false
      | String a name' => in_class negate ranges a && re_match items' name'
      end
  end.

(** [fnmatch.filter(names, pat)] of [posixpath]; [None] when [re.compile]
    rejects the pattern. *)
Definition fnmatch_filter (names : list string) (pat : string)
    : option (list string) :=
  (λ items, List.filter (re_match items) names) <$> translate pat.

(** The lines of a byte string as file iteration yields them: each line
    keeps its terminating newline, and a last line without one is a line
    too. *)
Definition is_newline (b : byte) : bool := Byte.eqb b x0a.

Fixpoint readlines (data : list byte) : list (list byte) :=
  match data with
  | [] => []
  | b :: rest =>
      if is_newline b then [b] :: readlines rest
      else match readlines rest with
           | [] => [[b]]
           | line :: lines => (b :: line) :: lines
           end
  end.

End Py.


(* ===================================================================== *)
(** ** The working directory *)
(* ===================================================================== *)

(** The working directory holds regular files only. It is a list of
    (name, contents) entries in the order in which the directory is
    enumerated: [glob] returns names in that order, which Python leaves
    unspecified, so the order is part of the state. A name is a file name
    of that directory; the program makes its names from
    [os.path.basename], which has no slash. The file system sets no limit
    on the length of a name or on space, and every file can be read and
    written. *)
Module Fs.

Definition t : Type := list (string * list byte).

Fixpoint read (name : string) (d : t) : option (list byte) :=
  match d with
  | [] => None
  | (n, c) :: d' => if String.eqb n name then Some c else read name d'
  end.

(** [os.path.isfile(name)]. *)
Definition isfile (name : string) (d : t) : bool :=
  match read name d with Some _ => true | None => false end.

(** Replace the contents of [name], or add the file at the end of the
    directory when it is new. *)
Fixpoint write (name : string) (c : list byte) (d : t) : t :=
  match d with
  | [] => [(name, c)]
  | (n, c0) :: d' =>
      if String.eqb n name then (n, c) :: d' else (n, c0) :: write name c d'
  end.

(** What a file opened with mode ['a'] does on [write(block)]. *)
Definition append (name : string) (block : list byte) (d : t) : t :=
  write name (default [] (read name d) ++ block) d.

Fixpoint remove (name : string) (d : t) : t :=
  match d with
  | [] => []
  | (n, c) :: d' =>
      if String.eqb n name then remove name d' else (n, c) :: remove name d'
  end.

Definition names (d : t) : list string := d.*1.

(** [glob.glob(pattern)] for a pattern without a directory part
    ([glob1(os.curdir, pattern)]): the names of the directory that match,
    in directory order. A name that starts with a dot is listed only when
    the pattern starts with one. [None] when [re.compile] rejects the
    pattern. *)
Definition hidden (name : string) : bool :=
  match name with String "." _ => true | _ => false end.

Definition glob (pattern : string) (d : t) : option (list string) :=
  Py.fnmatch_filter
    (List.filter (λ name, hidden pattern || negb (hidden name)) (names d))
    pattern.

(** The names under which a regular file of the working directory can be
    created or opened: not the empty name, not [.] or [..], which are
    directories, and no path (a slash leads out of the working directory)
    or name with a NUL character. *)
Definition plain (name : string) : bool :=
  negb (String.eqb name "" || String.eqb name "." || String.eqb name "..")
  && Py.all_chars (λ c, negb (Ascii.eqb c "/") && negb (Ascii.eqb c zero)) name.

End Fs.

(* ===================================================================== *)
(** ** The remote server *)
(* ===================================================================== *)

Module Net.

(** The [Content-Length] header of a response as [int(...)] sees it. *)
Inductive header : Type :=
| Absent                      (* no such header *)
| Malformed                   (* a value [int] rejects *)
| Value (n : Z).

(** [requests.head(url)]: it raises, or returns a response. *)
Inductive head_response : Type :=
| HeadFails
| HeadOk (content_length : header).

(** [requests.get(url, headers={'Range': ...}, stream=True)] followed by
    [iter_content(4096)]: the request raises, or the body arrives as a
    sequence of blocks after which the stream ends or, when [broken],
    raises. *)
Inductive get_response : Type :=
| GetFails
| Stream (blocks : list (list byte)) (broken : bool).

Record remote : Type := Remote {
  head : string → head_response;
  get : string → Z * Z → get_response
}.

(** The requests the program has sent. *)
Inductive request : Type :=
| HEAD (url : string)
| GET (url : string) (range : Z * Z).

Definition is_get (r : request) : bool :=
  match r with GET _ _ => true | HEAD _ => false end.

(** A server that holds [data] under every URL and honours byte ranges as
    HTTP defines them: [bytes=a-b] with [0 <= a <= b] yields the bytes at
    offsets [a] to [min b (len - 1)], in blocks of at most 4096 bytes (any
    other range is answered here with an empty body). *)
Fixpoint blocks_of (fuel bs : nat) (data : list byte) : list (list byte) :=
  match fuel, data with
  | O, _ | _, [] => []
  | S fuel', _ => firstn bs data :: blocks_of fuel' bs (skipn bs data)
  end.

Definition range_bytes (data : list byte) (range : Z * Z) : list byte :=
  let '(a, b) := range in
  firstn (Z.to_nat (b - a + 1)) (skipn (Z.to_nat a) data).

Definition serving (data : list byte) : remote :=
  {| head := λ _, HeadOk (Value (Z.of_nat (length data)));
     get := λ _ range,
       let body := range_bytes data range in
       Stream (blocks_of (length body) 4096 body) false |}.

End Net.

(* ===================================================================== *)
(** ** The state of a run and the monad of the methods *)
(* ===================================================================== *)

Local Open Scope Z_scope.

(** The attributes of an [Axel] object that the modelled methods use
    ([speed], [start] and [total_time] only feed the final report). *)
Record axel : Type := Axel {
  count : Z;
  url : string;
  content_length : Z;
  startcount : list Z;
  filename : option string;
  chunk_size : Z;
  chunks : list (option (Z * Z));     (* a tuple, or [None] after a resume *)
  files : list string
}.

(** [Axel(url, count)]. *)
Definition init (u : string) (n : Z) : axel :=
  {| count := n; url := u; content_length := 0; startcount := [];
     filename := None; chunk_size := 0; chunks := []; files := [] |}.

(** What a run can observe and change outside the object. *)
Record world : Type := World {
  dir : Fs.t;                         (* the working directory *)
  stdin : list byte;
  stdout : list string;               (* one entry per [print] *)
  sent : list Net.request             (* requests, oldest first *)
}.

(** The state of a run: the object, the world, and the list [bytecount]
    that [fetch] creates and shares with the tasks it spawns. *)
Record state : Type := State {
  self : axel;
  os : world;
  bytecount : list Z
}.

Inductive exn : Type :=
| ZeroDivisionError | ValueError | IndexError | TypeError
| IOError | OSError | ConnectionError
| ReError.                            (* [re.error], from [re.compile] *)

(** How a computation ends: it returns, it calls [sys.exit(code)], an
    exception escapes, or it never ends. [Hang] is also what a loop of the
    model answers when it runs out of steps, which the theorems on
    [get_file_info] exclude. *)
Inductive outcome (A : Type) : Type :=
| Ret (a : A)
| Exit (code : Z)
| Raise (e : exn)
| Hang.
Arguments Ret {A} a.
Arguments Exit {A} code.
Arguments Raise {A} e.
Arguments Hang {A}.

Definition M (A : Type) : Type := state → outcome A * state.

Definition ret {A} (a : A) : M A := λ s, (Ret a, s).
Definition bind {A B} (m : M A) (k : A → M B) : M B :=
  λ s, match m s with
       | (Ret a, s') => k a s'
       | (Exit c, s') => (Exit c, s')
       | (Raise e, s') => (Raise e, s')
       | (Hang, s') => (Hang, s')
       end.
Definition sys_exit {A} (code : Z) : M A := λ s, (Exit code, s).
Definition raise {A} (e : exn) : M A := λ s, (Raise e, s).
Definition hang {A} : M A := λ s, (Hang, s).

#[global] Instance M_ret : MRet M := @ret.
#[global] Instance M_bind : MBind M := λ A B k m, bind m k.

Definition get_self : M axel := λ s, (Ret (self s), s).
Definition get_dir : M Fs.t := λ s, (Ret (dir (os s)), s).
Definition modify_self (f : axel → axel) : M unit :=
  λ s, (Ret tt, {| self := f (self s); os := os s; bytecount := bytecount s |}).
Definition modify_os (f : world → world) : M unit :=
  λ s, (Ret tt, {| self := self s; os := f (os s); bytecount := bytecount s |}).
Definition modify_bytecount (f : list Z → list Z) : M unit :=
  λ s, (Ret tt, {| self := self s; os := os s; bytecount := f (bytecount s) |}).
Definition modify_dir (f : Fs.t → Fs.t) : M unit :=
  modify_os (λ w, {| dir := f (dir w); stdin := stdin w;
                     stdout := stdout w; sent := sent w |}).

(** [print(line)]. *)
Definition print (line : string) : M unit :=
  modify_os (λ w, {| dir := dir w; stdin := stdin w;
                     stdout := stdout w ++ [line]; sent := sent w |}).

Definition send (r : Net.request) : M unit :=
  modify_os (λ w, {| dir := dir w; stdin := stdin w;
                     stdout := stdout w; sent := sent w ++ [r] |}).

(** Attribute assignments. *)
Definition set_content_length (v : Z) (a : axel) : axel :=
  {| count := count a; url := url a; content_length := v;
     startcount := startcount a; filename := filename a;
     chunk_size := chunk_size a; chunks := chunks a; files := files a |}.
Definition set_chunk_size (v : Z) (a : axel) : axel :=
  {| count := count a; url := url a; content_length := content_length a;
     startcount := startcount a; filename := filename a;
     chunk_size := v; chunks := chunks a; files := files a |}.
Definition set_chunks (v : list (option (Z * Z))) (a : axel) : axel :=
  {| count := count a; url := url a; content_length := content_length a;
     startcount := startcount a; filename := filename a;
     chunk_size := chunk_size a; chunks := v; files := files a |}.
Definition set_filename (v : option string) (a : axel) : axel :=
  {| count := count a; url := url a; content_length := content_length a;
     startcount := startcount a; filename := v;
     chunk_size := chunk_size a; chunks := chunks a; files := files a |}.
Definition set_startcount (v : list Z) (a : axel) : axel :=
  {| count := count a; url := url a; content_length := content_length a;
     startcount := v; filename := filename a;
     chunk_size := chunk_size a; chunks := chunks a; files := files a |}.
Definition set_files (v : list string) (a : axel) : axel :=
  {| count := count a; url := url a; content_length := content_length a;
     startcount := startcount a; filename := filename a;
     chunk_size := chunk_size a; chunks := chunks a; files := v |}.

(** [for x in l: body(x)], and the same loop threading local variables. *)
Fixpoint for_each {A} (l : list A) (body : A → M unit) : M unit :=
  match l with
  | [] => ret tt
  | x :: l' => body x ;; for_each l' body
  end.

Fixpoint for_fold {A V} (l : list A) (body : V → A → M V) (v : V) : M V :=
  match l with
  | [] => ret v
  | x :: l' => v' ← body v x; for_fold l' body v'
  end.

(** ['%s' % name] for an attribute that may still be [None]. *)
Definition str_of (name : option string) : string := default "None" name.

(* ===================================================================== *)
(** ** The methods of [Axel] *)
(* ===================================================================== *)

Section Methods.

Variable net : Net.remote.

(** [self.filename] where a string is required. *)
Definition the_filename : M string :=
  a ← get_self;
  match filename a with
  | Some name => mret name
  | None => raise TypeError
  end.

(** The candidate that follows a taken [name]: the two branches of the
    [while os.path.isfile(self.filename)] loop. *)
Definition next_filename (name : string) : option string :=
  let '(prefix, ext) := Py.splitext name in
  if Py.isdigit (Py.drop 1 ext) then
    newext ← Py.int (Py.drop 1 ext);
    Some (prefix +:+ "." +:+ Py.str (newext + 1))
  else Some (name +:+ ".0").

Fixpoint pick_filename (fuel : nat) : M unit :=
  name ← the_filename;
  d ← get_dir;
  if Fs.isfile name d then
    match fuel with
    | O => hang
    | S fuel' =>
        match next_filename name with
        | Some name' =>
            modify_self (set_filename (Some name'));; pick_filename fuel'
        | None => raise ValueError
        end
    end
  else mret tt.

Definition get_file_info : M unit :=
  a ← get_self;
  send (Net.HEAD (url a));;
  r ← match Net.head net (url a) with
      | Net.HeadFails => raise ConnectionError
      | Net.HeadOk h => mret h
      end;
  len ← match r with
        | Net.Absent => mret 0
        | Net.Malformed => raise ValueError
        | Net.Value n => mret n
        end;
  modify_self (set_content_length len);;
  (if count a =? 0 then raise ZeroDivisionError else mret tt);;
  modify_self (set_chunk_size (len / count a));;
  for_each (Py.xrange (count a)) (λ i,
    a ← get_self;
    let boundary :=
      if i =? count a - 1 then content_length a
      else (i + 1) * chunk_size a - 1 in
    modify_self (set_chunks (chunks a ++ [Some (i * chunk_size a, boundary)])));;
  modify_self (set_filename (Some (Py.basename (url a))));;
  d ← get_dir;
  pick_filename (3 + length d).       (* steps enough: [first_free_exists] *)

(** [self.chunks[i][k]]. *)
Definition chunk_at (i : nat) : M (Z * Z) :=
  a ← get_self;
  match chunks a !! i with
  | None => raise IndexError
  | Some None => raise TypeError
  | Some (Some c) => mret c
  end.

(** [os.path.getsize(f)]. *)
Definition getsize (f : string) : M Z :=
  d ← get_dir;
  match Fs.read f d with
  | Some data => mret (Z.of_nat (length data))
  | None => raise OSError
  end.

(** [glob.glob(pattern)]. *)
Definition glob_glob (pattern : string) : M (list string) :=
  d ← get_dir;
  match Fs.glob pattern d with
  | Some globs => mret globs
  | None => raise ReError
  end.

Definition listing (globs : list string) : string :=
  "    " +:+ Py.join (Py.nl +:+ "    ") globs.

(** The body of the loop of [resume_check]; [sizes] and [new_chunks] are
    its local variables. *)
Definition resume_step (globs : list string)
    (locals : list Z * list (option (Z * Z))) (item : nat * string)
    : M (list Z * list (option (Z * Z))) :=
  let '(sizes, new_chunks) := locals in
  let '(i, f) := item in
  size ← getsize f;
  let sizes := sizes ++ [size] in
  a ← get_self;
  if size =? chunk_size a then
    modify_self (set_startcount (startcount a ++ [size]));;
    mret (sizes, new_chunks ++ [None])
  else
    c ← chunk_at i;
    if negb (size =? c.2) && (size <? chunk_size a) then
      let new_chunk := (c.1 + size, (Z.of_nat i + 1) * chunk_size a - 1) in
      modify_self (set_startcount (startcount a ++ [size]));;
      mret (sizes, new_chunks ++ [Some new_chunk])
    else
      print (Py.str size +:+ " < " +:+ Py.str (c.2 - c.1));;
      print "partial files already exist, and do not match the size range";;
      print (listing globs);;
      sys_exit 1.

Definition resume_check : M unit :=
  a ← get_self;
  globs ← glob_glob (str_of (filename a) +:+ ".part*");
  if Z.of_nat (length globs) =? count a then
    '(_, new_chunks) ← for_fold (Py.enumerate globs) (resume_step globs) ([], []);
    modify_self (set_chunks new_chunks);;
    print ("partial files already exist and match count ("
           +:+ Py.str (count a)
           +:+ "). There is the posibility of creating a non working file. "
           +:+ "Please check hashes after download completion" +:+ Py.nl)
  else if bool_decide (globs ≠ []) then
    print ("partial files already exist, and do not match the count ("
           +:+ Py.str (count a) +:+ ") specified:");;
    print (listing globs);;
    print (Py.nl +:+ "Try setting --count "
           +:+ Py.str (Z.of_nat (length globs)));;
    sys_exit 1
  else mret tt.

Definition print_start : M unit :=
  a ← get_self;
  print ("Initializing download: " +:+ url a);;
  print ("File size: " +:+ Py.str (content_length a) +:+ " bytes");;
  print ("Output file: " +:+ str_of (filename a));;
  if bool_decide (startcount a ≠ []) then print ("Resuming download" +:+ Py.nl)
  else print ("Starting download" +:+ Py.nl).

(** The loop of [getter] over [r.iter_content(4096)]. *)
Fixpoint write_blocks (name : string) (blocks : list (list byte))
    (broken : bool) : M unit :=
  match blocks with
  | [] => if broken then raise ConnectionError else mret tt
  | [] :: _ => mret tt                                   (* [break] *)
  | block :: rest =>
      modify_bytecount (λ l, l ++ [Z.of_nat (length block)]);;
      modify_dir (Fs.append name block);;
      write_blocks name rest broken
  end.

Definition getter (name : string) (chunk : Z * Z) : M unit :=
  a ← get_self;
  send (Net.GET (url a) chunk);;
  match Net.get net (url a) chunk with
  | Net.GetFails => raise ConnectionError
  | Net.Stream blocks broken =>
      modify_dir (Fs.append name []);;       (* [open(name, 'a')] *)
      write_blocks name blocks broken
  end.

(** [Pool(size)] of gevent refuses a negative size. *)
Definition new_pool (size : Z) : M unit :=
  if size <? 0 then raise ValueError else mret tt.

(** [Pool.spawn(task)] followed, after the loop, by [Pool.join()]. Each
    task appends to a part file of its own and to [bytecount], so the
    tasks are run one after the other, in spawn order. An exception that
    ends a task stays in its greenlet: [join] is called without
    [raise_error] and returns once every task has ended. A pool of size 0
    never has a free slot: [spawn] waits for ever. *)
Definition spawn (size : Z) (task : M unit) : M unit :=
  if size =? 0 then hang else λ s, (Ret tt, (task s).2).

Definition part_name (name : option string) (i : nat) : string :=
  str_of name +:+ ".part" +:+ Py.fmt_03d i.

(** [print_progress] runs in a pool of its own and draws the progress bar;
    it changes neither the object nor the directory and is left out. *)
Definition fetch : M unit :=
  a ← get_self;
  (if content_length a =? 0 then get_file_info;; resume_check
   else mret tt);;
  modify_bytecount (λ _, []);;
  a ← get_self;
  let size := count a in
  new_pool size;;
  for_each (Py.enumerate (chunks a)) (λ '(i, chunk),
    a ← get_self;
    let name := part_name (filename a) i in
    modify_self (set_files (files a ++ [name]));;
    match chunk with
    | None => mret tt                                    (* [continue] *)
    | Some c => spawn size (getter name c)
    end);;
  print "".

(** [fileinput.input(files)] reads standard input for the name ['-'] and
    when [files] is empty. *)
Definition input_of (f : string) : M (list byte) :=
  if String.eqb f "-" then λ s, (Ret (stdin (os s)), s)
  else
    d ← get_dir;
    match Fs.read f d with
    | Some data => mret data
    | None => raise IOError
    end.

(** [open(name, 'w')]: the file is created, or emptied when it is there.
    The empty name and the directories [.] and [..] cannot be opened
    ([IOError]), a name with a NUL character is refused ([TypeError]). *)
Definition open_w (name : string) : M unit :=
  if Py.any_char (λ c, Ascii.eqb c zero) name then raise TypeError
  else if String.eqb name "" || String.eqb name "." || String.eqb name ".."
  then raise IOError
  else modify_dir (Fs.write name []).

Definition stitch : M unit :=
  a ← get_self;
  out ← the_filename;
  open_w out;;
  for_each (match files a with [] => ["-"] | fs => fs end) (λ f,
    data ← input_of f;
    for_each (Py.readlines data) (λ block,
      modify_dir (Fs.append out block)));;
  for_each (files a) (λ f,
    d ← get_dir;
    if Fs.isfile f d then modify_dir (Fs.remove f)
    else raise OSError).

Definition fetch_n_stitch : M unit := fetch;; stitch.

End Methods.

(** [main()] for the command line [url -c n], in a given world. *)
Definition main (net : Net.remote) (u : string) (n : Z) (w : world)
    : outcome unit * state :=
  fetch_n_stitch net {| self := init u n; os := w; bytecount := [] |}.

(* ===================================================================== *)
(** ** Vocabulary of the statements *)
(* ===================================================================== *)

(** The [k]-th candidate for the output file name, counted from [name]. *)
Fixpoint candidate (k : nat) (name : string) : option string :=
  match k with
  | O => Some name
  | S k' => next_filename name ≫= candidate k'
  end.

(** [name'] is the first candidate from [name] on, the [k]-th, that is not
    the name of a file of [d]. *)
Definition first_free (d : Fs.t) (name : string) (k : nat) (name' : string)
    : Prop :=
  candidate k name = Some name'
  ∧ Fs.isfile name' d = false
  ∧ ∀ j c, (j < k)%nat → candidate j name = Some c → Fs.isfile c d = true.

Definition with_filename (name : string) (s : state) : state :=
  {| self := set_filename (Some name) (self s);
     os := os s; bytecount := bytecount s |}.

(** The state in which [main] starts. *)
Definition start (u : string) (n : Z) (w : world) : state :=
  {| self := init u n; os := w; bytecount := [] |}.

(** The content length [get_file_info] reads off a header. *)
Definition length_of (h : Net.header) : Z :=
  match h with Net.Value n => n | _ => 0 end.

(** The segment that the loop of [get_file_info] appends for index [i]. *)
Definition planned_chunk (L N : Z) (i : Z) : Z * Z :=
  (i * (L / N), if i =? N - 1 then L else (i + 1) * (L / N) - 1).

Definition plan (L N : Z) : list (Z * Z) :=
  planned_chunk L N <$> Py.xrange N.

(** The object once [get_file_info] has returned. *)
Definition planned (a : axel) (L : Z) (name : string) : axel :=
  {| count := count a; url := url a; content_length := L;
     startcount := startcount a; filename := Some name;
     chunk_size := L / count a;
     chunks := chunks a ++ (Some <$> plan L (count a));
     files := files a |}.

Definition sending (r : Net.request) (w : world) : world :=
  {| dir := dir w; stdin := stdin w; stdout := stdout w;
     sent := sent w ++ [r] |}.

(** The full byte length of a segment of a resource of [L] bytes: the
    number of offsets of [0 .. L - 1] inside the inclusive range [c], which
    is what an HTTP server sends for it. *)
Definition full_length (L : Z) (c : Z * Z) : Z :=
  Z.max 0 (Z.min c.2 (L - 1) - c.1 + 1).

(** The part files of [name] for the segments [0 .. n - 1], by index. *)
Definition part_names (name : string) (n : Z) : list string :=
  part_name (Some name) <$> seq 0 (Z.to_nat n).

(** What the loop of [resume_check] leaves alone. *)
Definition same_plan (s s' : state) : Prop :=
  dir (os s') = dir (os s)
  ∧ sent (os s') = sent (os s)
  ∧ chunks (self s') = chunks (self s)
  ∧ chunk_size (self s') = chunk_size (self s).

(** The part file [data], at the place of segment [c], falls in the last
    branch of the loop of [resume_check]. *)
Definition mismatch (cs : Z) (c : Z * Z) (data : list byte) : Prop :=
  Z.of_nat (length data) ≠ cs
  ∧ negb (Z.of_nat (length data) =? c.2) && (Z.of_nat (length data) <? cs)
    = false.

(** What the loop of [resume_check] over [globs], entered at index [j] in
    state [s], has done when it ends with [r]. *)
Definition reconciled (s : state) (globs : list string) (j : nat)
    {V} (r : outcome V * state) : Prop :=
  same_plan s r.2
  ∧ ((∃ v, r.1 = Ret v) ∨ r.1 = Exit 1)
  ∧ ∀ i f data c,
      globs !! i = Some f →
      Fs.read f (dir (os s)) = Some data →
      chunks (self s) !! (j + i)%nat = Some (Some c) →
      mismatch (chunk_size (self s)) c data →
      r.1 = Exit 1.

Definition with_dir (d : Fs.t) (s : state) : state :=
  {| self := self s;
     os := {| dir := d; stdin := stdin (os s); stdout := stdout (os s);
              sent := sent (os s) |};
     bytecount := bytecount s |}.

(** What a segment fetcher that writes the part file [name] leaves alone. *)
Definition only_writes (name : string) (s s' : state) : Prop :=
  self s' = self s
  ∧ stdin (os s') = stdin (os s)
  ∧ stdout (os s') = stdout (os s)
  ∧ ∀ g, g ≠ name → Fs.read g (dir (os s')) = Fs.read g (dir (os s)).

(** The ranged requests for the segments of a plan that are not skipped. *)
Definition requests_of (u : string) (l : list (option (Z * Z)))
    : list Net.request :=
  Net.GET u <$> omap id l.

(** What [resume_check] leaves alone in every case. *)
Definition same_names (s s' : state) : Prop :=
  files (self s') = files (self s)
  ∧ filename (self s') = filename (self s)
  ∧ url (self s') = url (self s)
  ∧ count (self s') = count (self s)
  ∧ dir (os s') = dir (os s)
  ∧ sent (os s') = sent (os s).

(** The blocks of a stream that [getter] writes: those before the first
    empty block, at which it leaves its loop. *)
Fixpoint before_empty (blocks : list (list byte)) : list (list byte) :=
  match blocks with
  | [] => []
  | [] :: _ => []
  | block :: rest => block :: before_empty rest
  end.

Fixpoint has_empty (blocks : list (list byte)) : bool :=
  match blocks with
  | [] => false
  | [] :: _ => true
  | _ :: rest => has_empty rest
  end.

(** [sum(bytecount)]. *)
Definition total (l : list Z) : Z := foldr Z.add 0 l.

(** What a segment fetcher appends to its part file for the range [c], if
    it gets to open the file at all. *)
Definition received (net : Net.remote) (u : string) (c : Z * Z)
    : option (list byte) :=
  match Net.get net u c with
  | Net.GetFails => None
  | Net.Stream blocks _ => Some (concat (before_empty blocks))
  end.

(** The contents of a part file after the fetch of its segment, from its
    contents [old] before ([None]: no such file). *)
Definition fetched (net : Net.remote) (u : string)
    (chunk : option (Z * Z)) (old : option (list byte)) : option (list byte) :=
  match chunk with
  | None => old
  | Some c =>
      match received net u c with
      | None => old
      | Some bytes => Some (default [] old ++ bytes)
      end
  end.

(** A server that reports the length of the resource [data] and answers
    every request for a byte range that the resource can satisfy
    ([bytes=a-b] with [0 <= a <= b] and [a] below the length) with the
    bytes of the range, in blocks of any size. Nothing is assumed of its
    answers to other requests. *)
Definition serves (net : Net.remote) (u : string) (data : list byte) : Prop :=
  Net.head net u = Net.HeadOk (Net.Value (Z.of_nat (length data)))
  ∧ ∀ c, 0 <= c.1 <= c.2 → c.1 < Z.of_nat (length data) →
         received net u c = Some (Net.range_bytes data c).

(** The plan entry that [resume_check] writes for a part file of [size]
    bytes at position [i] that it accepts. *)
Definition resumed (cs : Z) (i : nat) (c : Z * Z) (size : Z)
    : option (Z * Z) :=
  if size =? cs then None
  else Some (c.1 + size, (Z.of_nat i + 1) * cs - 1).

(** The state after [lines] have been printed. *)
Definition printing (lines : list string) (s : state) : state :=
  {| self := self s;
     os := {| dir := dir (os s); stdin := stdin (os s);
              stdout := stdout (os s) ++ lines; sent := sent (os s) |};
     bytecount := bytecount s |}.

(** A path whose file name (what follows the last slash) has a character
    that is not a dot: [splitext] splits such a path at a dot put after
    it. *)
Definition has_stem (p : string) : bool :=
  Py.any_char (λ c, negb (Ascii.eqb c "."))
    (Py.drop (Z.to_nat (Py.rfind "/" p + 1)) p).

Definition lacks (c : ascii) (s : string) : bool :=
  Py.all_chars (λ a, negb (Ascii.eqb a c)) s.

(** A response that makes the segment fetcher raise: the request fails, or
    the stream breaks after its blocks. *)
Definition fetch_failed (r : Net.get_response) : Prop :=
  r = Net.GetFails
  ∨ ∃ blocks, r = Net.Stream blocks true ∧ Forall (λ b, b ≠ []) blocks.

(** The reading of the specification under which a failed segment fetch
    stops the run before the Stitcher: the run does not return normally and
    the output file is not there. *)
Definition failed_fetch_halts_run : Prop :=
  ∀ net u n w c,
    Net.GET u c ∈ sent (os (main net u n w).2) →
    fetch_failed (Net.get net u c) →
    (∀ v, (main net u n w).1 ≠ Ret v)
    ∧ ∀ out, filename (self (main net u n w).2) = Some out →
             Fs.isfile out (dir (os (main net u n w).2)) = false.

(** The reading of the specification under which a metadata response
    without a content length stops the run before any plan, file or
    fetch. *)
Definition missing_length_aborts_run : Prop :=
  ∀ net u n w,
    Net.head net u = Net.HeadOk Net.Absent →
    (∀ v, (main net u n w).1 ≠ Ret v)
    ∧ chunks (self (main net u n w).2) = []
    ∧ dir (os (main net u n w).2) = dir w
    ∧ List.filter Net.is_get (sent (os (main net u n w).2))
      = List.filter Net.is_get (sent w).

(** The reading of the specification under which the plan after the
    reconciliation depends on the set of part files only, not on the order
    in which the directory lists them. *)
Definition resume_ignores_listing_order : Prop :=
  ∀ (s : state) (d1 d2 : Fs.t),
    d1 ≡ₚ d2 →
    chunks (self (resume_check (with_dir d1 s)).2)
    = chunks (self (resume_check (with_dir d2 s)).2).

(* ===================================================================== *)
(** ** Example inputs *)
(* ===================================================================== *)

(** A resource of ten bytes, the digits [0] to [9]. *)
Definition ten : list byte := [x30; x31; x32; x33; x34; x35; x36; x37; x38; x39].

Definition in_dir (d : Fs.t) : world :=
  {| dir := d; stdin := []; stdout := []; sent := [] |}.

(** Part files of [f.bin] for [ten] in three segments, each of the full
    length of its segment: 3, 3 and 4 bytes. *)
Definition full_parts : Fs.t :=
  [("f.bin.part000", [x30; x31; x32]);
   ("f.bin.part001", [x33; x34; x35]);
   ("f.bin.part002", [x36; x37; x38; x39])].

(** The same with two bytes of the last segment only. *)
Definition short_last_part : Fs.t :=
  [("f.bin.part000", [x30; x31; x32]);
   ("f.bin.part001", [x33; x34; x35]);
   ("f.bin.part002", [x36; x37])].

(** Part files of [f.bin] for [ten] in two segments: four of the five bytes
    of the first segment, and the second segment in full. *)
Definition short_first_part : Fs.t :=
  [("f.bin.part000", [x30; x31; x32; x33]);
   ("f.bin.part001", [x35; x36; x37; x38; x39])].

(** The same two files, listed the other way round. *)
Definition short_first_part_in_reverse : Fs.t :=
  [("f.bin.part001", [x35; x36; x37; x38; x39]);
   ("f.bin.part000", [x30; x31; x32; x33])].

(** Part files of [f.bin] for [ten] in two segments, the first in full and
    two bytes of the second, as a directory that lists them by index and as
    one that lists them the other way round. *)
Definition listed_by_index : Fs.t :=
  [("f.bin.part000", [x30; x31; x32; x33; x34]);
   ("f.bin.part001", [x35; x36])].

Definition listed_in_reverse : Fs.t :=
  [("f.bin.part001", [x35; x36]);
   ("f.bin.part000", [x30; x31; x32; x33; x34])].

(** Five part files of [f.bin], left by a run with count 5. *)
Definition five_parts : Fs.t :=
  [("f.bin.part000", [x30; x31]); ("f.bin.part001", [x32; x33]);
   ("f.bin.part002", [x34; x35]); ("f.bin.part003", [x36; x37]);
   ("f.bin.part004", [x38; x39])].

(** A directory in which [file.txt] and [file.txt.0] are taken. *)
Definition taken_names : Fs.t := [("file.txt", [x61]); ("file.txt.0", [x62])].

(** Three part files of 5, 7 and 3 bytes, and an object about to stitch
    them into [out.bin]. *)
Definition three_parts : Fs.t :=
  [("out.bin.part001", [x61; x62; x63; x64; x65; x66; x67]);
   ("out.bin.part002", [x78; x79; x7a]);
   ("out.bin.part000", [x30; x31; x32; x33; x34])].

Definition about_to_stitch : state :=
  {| self := {| count := 3; url := "http://h/out.bin"; content_length := 15;
                startcount := []; filename := Some "out.bin";
                chunk_size := 5;
                chunks := [Some (0, 4); Some (5, 9); Some (10, 15)];
                files := ["out.bin.part000"; "out.bin.part001";
                          "out.bin.part002"] |};
     os := in_dir three_parts;
     bytecount := [] |}.

(** A server of [ten] whose stream for the range that starts at offset 5
    breaks after one byte. *)
Definition breaking : Net.remote :=
  {| Net.head := Net.head (Net.serving ten);
     Net.get := λ u range,
       if range.1 =? 5 then Net.Stream [[x35]] true
       else Net.get (Net.serving ten) u range |}.

(** A server that reports no content length and sends empty bodies. *)
Definition silent : Net.remote :=
  {| Net.head := λ _, Net.HeadOk Net.Absent;
     Net.get := λ _ _, Net.Stream [] false |}.

(** A server that cannot be reached. *)
Definition unreachable : Net.remote :=
  {| Net.head := λ _, Net.HeadFails;
     Net.get := λ _ _, Net.GetFails |}.

(** A server of [ten] that refuses the ranged request that starts at
    offset 5. *)
Definition refusing : Net.remote :=
  {| Net.head := Net.head (Net.serving ten);
     Net.get := λ u range,
       if range.1 =? 5 then Net.GetFails
       else Net.get (Net.serving ten) u range |}.

(** The object once [ten] has been planned in two segments, in a directory
    that holds the first segment in full and two bytes of the second. *)
Definition planned_in_two : state :=
  {| self := planned (init "http://h/f.bin" 2) 10 "f.bin";
     os := in_dir listed_by_index;
     bytecount := [] |}.

(** An object about to stitch three part files, the second of which is
    not there. *)
Definition lacking_a_part : state :=
  with_dir [("out.bin.part002", [x78; x79; x7a]);
            ("out.bin.part000", [x30; x31; x32; x33; x34])]
    about_to_stitch.

(* ===================================================================== *)
(** ** Running the methods *)
(* ===================================================================== *)

(** [mrun] unfolds the monad and the primitive actions and projects the
    records they build; it leaves the methods and the loops folded. *)
Ltac mrun :=
  cbv beta iota zeta delta
    [mbind M_bind bind mret M_ret ret get_self get_dir the_filename
     modify_self modify_os modify_dir modify_bytecount print send
     sys_exit raise hang
     set_content_length set_chunk_size set_chunks set_filename
     set_startcount set_files with_filename];
  cbn [self os bytecount dir stdin stdout sent
       count url content_length startcount filename chunk_size chunks files
       fst snd].

(* ===================================================================== *)
(** ** Facts about the Python layer *)
(* ===================================================================== *)

Module PyFacts.
Import Py.

Lemma append_nil s : "" +:+ s = s.
Proof. reflexivity. Qed.

Lemma append_cons a s1 s2 : String a s1 +:+ s2 = String a (s1 +:+ s2).
Proof. reflexivity. Qed.

Lemma rfind_bounds c s : -1 <= rfind c s < Z.of_nat (String.length s).
Proof.
  induction s as [|a s IH]; simpl; [lia|].
  destruct (0 <=? rfind c s) eqn:E; [apply Z.leb_le in E; lia|].
  destruct (Ascii.eqb a c); lia.
Qed.

Lemma rfind_lacks c s : lacks c s = true → rfind c s = -1.
Proof.
  induction s as [|a s IH]; simpl; [done|].
  intros [Ha Hs]%andb_true_iff. rewrite (IH Hs). simpl.
  apply negb_true_iff in Ha. by rewrite Ha.
Qed.

Lemma rfind_app_r c s1 s2 :
  rfind c s2 = -1 → rfind c (s1 +:+ s2) = rfind c s1.
Proof.
  intros H2. induction s1 as [|a s1 IH].
  - by rewrite append_nil, H2.
  - rewrite append_cons. simpl. by rewrite IH.
Qed.

Lemma rfind_app_l c s1 s2 :
  0 <= rfind c s2 →
  rfind c (s1 +:+ s2) = Z.of_nat (String.length s1) + rfind c s2.
Proof.
  intros H2. induction s1 as [|a s1 IH].
  - rewrite append_nil. simpl. lia.
  - rewrite append_cons.
    cbn [rfind String.length]. rewrite IH.
    destruct (0 <=? _) eqn:E; [lia|]. apply Z.leb_gt in E. lia.
Qed.

Lemma take_app s1 s2 : take (String.length s1) (s1 +:+ s2) = s1.
Proof.
  induction s1 as [|a s1 IH].
  - by destruct s2.
  - rewrite append_cons. simpl. by rewrite IH.
Qed.

Lemma drop_app s1 s2 : drop (String.length s1) (s1 +:+ s2) = s2.
Proof.
  induction s1 as [|a s1 IH]; [done|].
  by rewrite append_cons.
Qed.

Lemma drop_app_le n s1 s2 :
  (n <= String.length s1)%nat → drop n (s1 +:+ s2) = drop n s1 +:+ s2.
Proof.
  revert s1. induction n as [|n IH]; intros s1 Hn.
  - by destruct s1.
  - destruct s1 as [|a s1]; [simpl in Hn; lia|].
    rewrite append_cons. simpl in *. apply IH. lia.
Qed.

Lemma length_drop n s : String.length (drop n s) = (String.length s - n)%nat.
Proof.
  revert s. induction n as [|n IH]; intros [|a s]; simpl; auto with lia.
Qed.

Lemma take_all n s : (String.length s <= n)%nat → take n s = s.
Proof.
  revert s. induction n as [|n IH]; intros [|a s]; simpl; intros; try done; try lia.
  rewrite IH; [done|lia].
Qed.

Lemma take_drop_app n s1 s2 :
  (n <= String.length s1)%nat →
  take (String.length s1 - n) (drop n (s1 +:+ s2)) = drop n s1.
Proof.
  intros Hn. rewrite drop_app_le by done.
  rewrite <- (length_drop n s1). apply take_app.
Qed.

Lemma any_char_app p s1 s2 :
  any_char p (s1 +:+ s2) = any_char p s1 || any_char p s2.
Proof.
  induction s1 as [|a s1 IH]; [done|].
  rewrite append_cons. simpl. rewrite IH. by rewrite orb_assoc.
Qed.

Lemma all_chars_app p s1 s2 :
  all_chars p (s1 +:+ s2) = all_chars p s1 && all_chars p s2.
Proof.
  induction s1 as [|a s1 IH]; [done|].
  rewrite append_cons. simpl. rewrite IH. by rewrite andb_assoc.
Qed.

Lemma all_chars_impl (p q : ascii → bool) s :
  (∀ c, p c = true → q c = true) →
  all_chars p s = true → all_chars q s = true.
Proof.
  intros Hpq. induction s as [|a s IH]; simpl; [done|].
  intros [Ha Hs]%andb_true_iff. rewrite (Hpq _ Ha). by apply IH.
Qed.

Lemma digit_not c a : is_digit_char a = false → is_digit_char c = true →
  negb (Ascii.eqb c a) = true.
Proof.
  intros Ha Hc. apply negb_true_iff, Ascii.eqb_neq. congruence.
Qed.

(** *** Decimal numerals *)

Lemma digits_of_uint d : all_chars is_digit_char (NilEmpty.string_of_uint d) = true.
Proof. induction d; simpl; auto. Qed.

Lemma uint_of_digits s :
  all_chars is_digit_char s = true → is_Some (NilEmpty.uint_of_string s).
Proof.
  induction s as [|a s IH]; simpl; [by eexists|].
  intros [Ha Hs]%andb_true_iff. destruct (IH Hs) as [d ->].
  destruct a as [[] [] [] [] [] [] [] []]; try discriminate Ha; by eexists.
Qed.

Lemma str_nonneg m :
  0 <= m → ∃ d, str m = NilEmpty.string_of_uint d ∧ Z.of_uint d = m ∧ str m ≠ "".
Proof.
  intros Hm. unfold str. pose proof (DecimalZ.of_to m) as Hof.
  destruct m as [|p|p]; [| |lia].
  - exists (Decimal.D0 Decimal.Nil). by repeat split.
  - exists (Pos.to_uint p). simpl in *. repeat split; [done|].
    destruct (Pos.to_uint p) eqn:E; simpl; done.
Qed.

Lemma isdigit_str m : 0 <= m → isdigit (str m) = true.
Proof.
  intros (d & Hd & _ & Hne)%str_nonneg. unfold isdigit.
  destruct (str m) eqn:E; [done|]. rewrite Hd. apply digits_of_uint.
Qed.

Lemma int_str m : 0 <= m → int (str m) = Some m.
Proof.
  intros Hm. unfold int. rewrite (isdigit_str m Hm).
  destruct (str_nonneg m Hm) as (d & Hd & Hof & _).
  by rewrite Hd, NilEmpty.usu, <- Hof.
Qed.

Lemma int_isdigit s : isdigit s = true → ∃ m, int s = Some m ∧ 0 <= m.
Proof.
  intros Hs. unfold int. rewrite Hs.
  assert (all_chars is_digit_char s = true) as Hall by by destruct s.
  destruct (uint_of_digits s Hall) as [d ->]. simpl. eexists; split; [done|].
  unfold Z.of_uint. lia.
Qed.

Lemma str_inj m n : 0 <= m → 0 <= n → str m = str n → m = n.
Proof.
  intros Hm Hn E. apply int_str in Hm, Hn. rewrite E in Hm. congruence.
Qed.

Lemma str_lacks c m : is_digit_char c = false → 0 <= m → lacks c (str m) = true.
Proof.
  intros Hc (d & -> & _)%str_nonneg. unfold lacks.
  eapply all_chars_impl; [|apply digits_of_uint].
  intros a Ha. by apply digit_not.
Qed.

(** *** [splitext] *)

Lemma rfind_take c k s :
  rfind c s < Z.of_nat k → rfind c (take k s) = rfind c s.
Proof.
  revert k. induction s as [|a s IH]; intros k Hk; [by destruct k|].
  destruct k as [|k]; simpl in *.
  - destruct (0 <=? rfind c s) eqn:E; [apply Z.leb_le in E; lia|].
    destruct (Ascii.eqb a c); [lia|done].
  - rewrite IH; [done|].
    destruct (0 <=? rfind c s) eqn:E; [lia|]. apply Z.leb_gt in E. lia.
Qed.

Lemma take_nil n : take n "" = "".
Proof. by destruct n. Qed.

Lemma drop_nil n : drop n "" = "".
Proof. by destruct n. Qed.

Lemma take_drop_comm i j s : take (j - i) (drop i s) = drop i (take j s).
Proof.
  revert j s. induction i as [|i IH]; intros j s.
  - by rewrite Nat.sub_0_r.
  - destruct s as [|a s]; [by rewrite take_nil; simpl; rewrite take_nil|].
    destruct j as [|j]; simpl; [done|]. apply IH.
Qed.

Lemma take_drop n s : take n s +:+ drop n s = s.
Proof.
  revert s. induction n as [|n IH]; intros [|a s]; simpl; try done.
  by rewrite append_cons, IH.
Qed.

Lemma rfind_dot_ext c e : lacks c e = true → rfind c (String c e) = 0.
Proof. intros He. simpl. by rewrite (rfind_lacks c e He), Ascii.eqb_refl. Qed.

Lemma rfind_sep_ext e : lacks "/" e = true → rfind "/" (String "." e) = -1.
Proof. intros He. simpl. by rewrite (rfind_lacks "/" e He). Qed.

(** The condition under which [splitext] splits [p.e] at its last dot. *)
Lemma splitext_app p e :
  lacks "." e = true → lacks "/" e = true →
  splitext (p +:+ "." +:+ e)
  = if has_stem p then (p, "." +:+ e) else (p +:+ "." +:+ e, "").
Proof.
  intros Hdot Hsep. unfold splitext, has_stem.
  change ("." +:+ e) with (String "." e).
  rewrite (rfind_app_r "/") by by apply rfind_sep_ext.
  rewrite (rfind_app_l "." p (String "." e))
    by (rewrite rfind_dot_ext; [lia|done]).
  rewrite rfind_dot_ext by done.
  pose proof (rfind_bounds "/" p) as Hb.
  replace (rfind "/" p <? Z.of_nat (String.length p) + 0) with true
    by (symmetry; apply Z.ltb_lt; lia).
  unfold slice.
  replace (Z.to_nat (Z.of_nat (String.length p) + 0 - (rfind "/" p + 1)))
    with (String.length p - Z.to_nat (rfind "/" p + 1))%nat by lia.
  rewrite take_drop_app by lia. simpl.
  replace (Z.to_nat (Z.of_nat (String.length p) + 0)) with (String.length p) by lia.
  by rewrite take_app, drop_app.
Qed.

(** A non-empty extension comes with a prefix that has a stem. *)
Lemma splitext_ext name p ext :
  splitext name = (p, ext) → ext ≠ "" → has_stem p = true ∧ name = p +:+ ext.
Proof.
  unfold splitext, has_stem, slice. intros Hsplit Hext.
  destruct (_ && _) eqn:Hc; [|by simplify_eq]. simplify_eq.
  apply andb_true_iff in Hc as [Hlt%Z.ltb_lt Hany].
  pose proof (rfind_bounds "/" name). pose proof (rfind_bounds "." name).
  split; [|by rewrite take_drop].
  rewrite rfind_take by lia. rewrite <- take_drop_comm.
  by replace (Z.to_nat (rfind "." name) - Z.to_nat (rfind "/" name + 1))%nat
    with (Z.to_nat (rfind "." name - (rfind "/" name + 1))) by lia.
Qed.

Lemma has_stem_app p e :
  lacks "/" e = true →
  has_stem (p +:+ "." +:+ e)
  = has_stem p || any_char (λ c, negb (Ascii.eqb c ".")) e.
Proof.
  intros Hsep. unfold has_stem. change ("." +:+ e) with (String "." e).
  rewrite (rfind_app_r "/") by by apply rfind_sep_ext.
  pose proof (rfind_bounds "/" p).
  rewrite drop_app_le by lia. by rewrite any_char_app.
Qed.

End PyFacts.

(* ===================================================================== *)
(** ** The output file name *)
(* ===================================================================== *)

Module FilenameFacts.
Import Py PyFacts.

Lemma next_filename_total name : is_Some (next_filename name).
Proof.
  unfold next_filename. destruct (splitext name) as [p ext].
  destruct (isdigit (drop 1 ext)) eqn:E; [|by eexists].
  destruct (int_isdigit _ E) as (m & -> & _). by eexists.
Qed.

Lemma next_filename_numbered p m :
  has_stem p = true → 0 <= m →
  next_filename (p +:+ "." +:+ str m) = Some (p +:+ "." +:+ str (m + 1)).
Proof.
  intros Hp Hm. unfold next_filename.
  rewrite splitext_app, Hp by by apply str_lacks.
  change (drop 1 ("." +:+ str m)) with (str m).
  by rewrite isdigit_str, int_str.
Qed.

Lemma candidate_numbered k p m :
  has_stem p = true → 0 <= m →
  candidate k (p +:+ "." +:+ str m)
  = Some (p +:+ "." +:+ str (m + Z.of_nat k)).
Proof.
  intros Hp. revert m. induction k as [|k IH]; intros m Hm.
  - simpl. by rewrite Z.add_0_r.
  - cbn [candidate]. rewrite next_filename_numbered by done. simpl.
    rewrite IH by lia.
    by replace (m + 1 + Z.of_nat k) with (m + Z.of_nat (S k)) by lia.
Qed.

Lemma candidate_add i j name :
  candidate (i + j) name = candidate i name ≫= candidate j.
Proof.
  revert name. induction i as [|i IH]; intros name; [done|].
  cbn [candidate Nat.add]. destruct (next_filename name); [apply IH|done].
Qed.

Lemma candidate_total k name : is_Some (candidate k name).
Proof.
  revert name. induction k as [|k IH]; intros name; [by eexists|].
  simpl. destruct (next_filename_total name) as [n ->]. apply IH.
Qed.

(** After one or two steps the candidates are numbered: they have the shape
    [p.m] with a prefix [p] that [splitext] gives back. *)
Lemma numbered_soon name :
  ∃ i p m, (1 <= i <= 2)%nat ∧ has_stem p = true ∧ 0 <= m
           ∧ candidate i name = Some (p +:+ "." +:+ str m).
Proof.
  destruct (splitext name) as [p ext] eqn:Hsplit.
  destruct (isdigit (drop 1 ext)) eqn:Hdig.
  - destruct (int_isdigit _ Hdig) as (m & Hint & Hm).
    assert (ext ≠ "") as Hext by (by intros ->).
    destruct (splitext_ext _ _ _ Hsplit Hext) as [Hp _].
    exists 1%nat, p, (m + 1). repeat split; [lia|lia|done|lia|].
    simpl. unfold next_filename. by rewrite Hsplit, Hdig, Hint.
  - assert (next_filename name = Some (name +:+ "." +:+ str 0)) as Hnext.
    { unfold next_filename. by rewrite Hsplit, Hdig. }
    destruct (has_stem name) eqn:Hstem.
    + exists 1%nat, name, 0. repeat split; [lia|lia|done|lia|].
      simpl. by rewrite Hnext.
    + exists 2%nat, (name +:+ "." +:+ str 0), 0.
      repeat split; [lia|lia| |lia|].
      * rewrite has_stem_app by done. by rewrite orb_true_r.
      * cbn [candidate]. rewrite Hnext. simpl.
        unfold next_filename. rewrite splitext_app, Hstem by done.
        done.
Qed.

End FilenameFacts.

(* ===================================================================== *)
(** ** Facts about the directory *)
(* ===================================================================== *)

Module FsFacts.

Lemma read_write_eq name c d : Fs.read name (Fs.write name c d) = Some c.
Proof.
  induction d as [|[n c0] d IH]; simpl.
  - by rewrite String.eqb_refl.
  - destruct (String.eqb n name) eqn:E; simpl; by rewrite E.
Qed.

Lemma read_write_ne name name' c d :
  name ≠ name' → Fs.read name' (Fs.write name c d) = Fs.read name' d.
Proof.
  intros Hne. induction d as [|[n c0] d IH]; simpl.
  - by apply String.eqb_neq in Hne as ->.
  - destruct (String.eqb n name) eqn:E; simpl; [|by rewrite IH].
    apply String.eqb_eq in E as ->.
    by apply String.eqb_neq in Hne as ->.
Qed.

Lemma read_append_eq name block d :
  Fs.read name (Fs.append name block d)
  = Some (default [] (Fs.read name d) ++ block).
Proof. apply read_write_eq. Qed.

Lemma read_append_ne name name' block d :
  name ≠ name' → Fs.read name' (Fs.append name block d) = Fs.read name' d.
Proof. apply read_write_ne. Qed.

Lemma read_remove_eq name d : Fs.read name (Fs.remove name d) = None.
Proof.
  induction d as [|[n c] d IH]; simpl; [done|].
  destruct (String.eqb n name) eqn:E; simpl; by rewrite ?E.
Qed.

Lemma read_remove_ne name name' d :
  name ≠ name' → Fs.read name' (Fs.remove name d) = Fs.read name' d.
Proof.
  intros Hne. induction d as [|[n c] d IH]; simpl; [done|].
  destruct (String.eqb n name) eqn:E; simpl; [|by rewrite IH].
  apply String.eqb_eq in E as ->. by apply String.eqb_neq in Hne as ->.
Qed.

Lemma isfile_elem name d : Fs.isfile name d = true ↔ name ∈ Fs.names d.
Proof.
  unfold Fs.isfile, Fs.names. induction d as [|[n c] d IH]; simpl.
  - split; [done|]. by intros ?%elem_of_nil.
  - rewrite elem_of_cons. destruct (String.eqb n name) eqn:E.
    + apply String.eqb_eq in E. split; [by left|done].
    + apply String.eqb_neq in E. rewrite IH.
      split; [by right|]. by intros [?|?].
Qed.

(** A directory cannot hold every name of an injective sequence: one of
    the first [length d + 1] is free. *)
Lemma free_name (f : nat → string) d :
  (∀ i j, f i = f j → i = j) →
  ∃ k, (k <= length d)%nat ∧ Fs.isfile (f k) d = false.
Proof.
  intros Hinj.
  destruct (decide (Exists (λ k, Fs.isfile (f k) d = false)
                      (seq 0 (S (length d))))) as [Hex|Hall].
  - apply Exists_exists in Hex as (k & Hk%elem_of_seq & Hfree).
    exists k. split; [lia|done].
  - exfalso. apply not_Exists_Forall in Hall; [|solve_decision].
    assert (f <$> seq 0 (S (length d)) ⊆+ Fs.names d) as Hsub.
    { apply NoDup_submseteq.
      - apply NoDup_fmap_2_strong; [|apply NoDup_seq].
        intros i j _ _. apply Hinj.
      - intros name (k & -> & Hk)%list_elem_of_fmap.
        apply isfile_elem. rewrite Forall_forall in Hall.
        specialize (Hall k Hk). simpl in Hall.
        by destruct (Fs.isfile (f k) d). }
    apply submseteq_length in Hsub.
    rewrite length_fmap, length_seq in Hsub.
    unfold Fs.names in Hsub. rewrite length_fmap in Hsub. lia.
Qed.

End FsFacts.

Module PickFacts.
Import Py PyFacts FilenameFacts FsFacts.

Lemma with_filename_id s name :
  filename (self s) = Some name → with_filename name s = s.
Proof. destruct s as [[] ? ?]. simpl. by intros ->. Qed.

Lemma pick_filename_found fuel s name :
  filename (self s) = Some name →
  Fs.isfile name (dir (os s)) = false →
  pick_filename fuel s = (Ret tt, s).
Proof.
  intros Hname Hfree.
  destruct fuel; cbn [pick_filename]; mrun; rewrite Hname; mrun;
    by rewrite Hfree.
Qed.

Lemma pick_filename_taken fuel s name name' :
  filename (self s) = Some name →
  Fs.isfile name (dir (os s)) = true →
  next_filename name = Some name' →
  pick_filename (S fuel) s = pick_filename fuel (with_filename name' s).
Proof.
  intros Hname Htaken Hnext. cbn [pick_filename]. mrun.
  rewrite Hname. mrun. by rewrite Htaken, Hnext.
Qed.

Lemma pick_filename_first_free k :
  ∀ fuel s name name',
    filename (self s) = Some name →
    first_free (dir (os s)) name k name' →
    (k <= fuel)%nat →
    pick_filename fuel s = (Ret tt, with_filename name' s).
Proof.
  induction k as [|k IH]; intros fuel s name name' Hname (Hk & Hfree & Hbefore) Hfuel.
  - simpl in Hk. simplify_eq.
    rewrite (pick_filename_found _ _ _ Hname Hfree).
    by rewrite with_filename_id.
  - destruct fuel as [|fuel]; [lia|].
    cbn [candidate] in Hk.
    destruct (next_filename name) as [name1|] eqn:Hnext; [|done].
    simpl in Hk.
    rewrite (pick_filename_taken _ _ name name1); [|done| |done].
    + rewrite (IH fuel (with_filename name1 s) name1 name'); [done|done| |lia].
      split; [done|]. split; [done|].
      intros j c Hj Hc. apply (Hbefore (S j)); [lia|].
      cbn [candidate]. by rewrite Hnext.
    + apply (Hbefore 0%nat); [lia|done].
Qed.

(** The least free candidate below a bound, when there is a free one. *)
Lemma first_free_least d k :
  ∀ name c,
    candidate k name = Some c → Fs.isfile c d = false →
    ∃ k' name', (k' <= k)%nat ∧ first_free d name k' name'.
Proof.
  induction k as [|k IH]; intros name c Hk Hfree.
  - exists 0%nat, name. simpl in Hk. simplify_eq.
    split; [lia|]. split; [done|]. split; [done|]. intros; lia.
  - destruct (Fs.isfile name d) eqn:Hname.
    + cbn [candidate] in Hk.
      destruct (next_filename name) as [name1|] eqn:Hnext; [|done].
      destruct (IH name1 c Hk Hfree) as (k' & name' & Hle & Hc' & Hfree' & Hbefore).
      exists (S k'), name'. split; [lia|]. split; [|split].
      * cbn [candidate]. by rewrite Hnext.
      * done.
      * intros [|j] c' Hj Hc''; [by simpl in Hc''; simplify_eq|].
        cbn [candidate] in Hc''. rewrite Hnext in Hc''.
        apply (Hbefore j); [lia|done].
    + exists 0%nat, name.
      split; [lia|]. split; [done|]. split; [done|]. intros; lia.
Qed.

(** The loop always finds a name, within [length d + 2] steps. *)
Lemma first_free_exists d name :
  ∃ k name', (k <= length d + 2)%nat ∧ first_free d name k name'.
Proof.
  destruct (numbered_soon name) as (i & p & m & Hi & Hp & Hm & Hcand).
  destruct (free_name (λ j, p +:+ "." +:+ str (m + Z.of_nat j)) d)
    as (j & Hj & Hfree).
  { intros a b Hab. apply (inj (String.app p)) in Hab.
    apply (inj (String.app ".")) in Hab.
    apply str_inj in Hab; lia. }
  destruct (first_free_least d (i + j) name
              (p +:+ "." +:+ str (m + Z.of_nat j))) as (k & name' & Hk & Hff).
  - rewrite candidate_add, Hcand. simpl. by apply candidate_numbered.
  - done.
  - exists k, name'. split; [lia|done].
Qed.

End PickFacts.

(* ===================================================================== *)
(** ** The Range Planner: [get_file_info] *)
(* ===================================================================== *)

Module PlanFacts.
Import PickFacts.

Lemma plan_loop (l : list Z) :
  ∀ s,
    for_each l (λ i,
      a ← get_self;
      let boundary :=
        if i =? count a - 1 then content_length a
        else (i + 1) * chunk_size a - 1 in
      modify_self
        (set_chunks (chunks a ++ [Some (i * chunk_size a, boundary)]))) s
    = (Ret tt,
       {| self :=
            set_chunks
              (chunks (self s)
               ++ ((λ i, Some (i * chunk_size (self s),
                               if i =? count (self s) - 1
                               then content_length (self s)
                               else (i + 1) * chunk_size (self s) - 1))
                   <$> l))
              (self s);
          os := os s; bytecount := bytecount s |}).
Proof.
  induction l as [|i l IH]; intros [a w bc].
  - cbn [for_each fmap list_fmap]. mrun. rewrite app_nil_r. by destruct a.
  - cbn [for_each]. mrun. rewrite IH. mrun.
    by rewrite <- app_assoc.
Qed.

(** [get_file_info] returns whenever the metadata request is answered with
    a well-formed header and the count is not zero: the loop that picks
    the file name never runs out of steps. *)
Lemma get_file_info_run net s h :
  Net.head net (url (self s)) = Net.HeadOk h →
  h ≠ Net.Malformed →
  count (self s) ≠ 0 →
  ∃ k name,
    first_free (dir (os s)) (Py.basename (url (self s))) k name
    ∧ get_file_info net s
      = (Ret tt,
         {| self := planned (self s) (length_of h) name;
            os := sending (Net.HEAD (url (self s))) (os s);
            bytecount := bytecount s |}).
Proof.
  destruct s as [a w bc]. cbn [self os bytecount]. intros Hhead Hh Hn.
  destruct (first_free_exists (dir w) (Py.basename (url a)))
    as (k & name & Hk & Hff).
  exists k, name. split; [done|].
  unfold get_file_info. mrun. rewrite Hhead.
  destruct h as [| |v]; [|done|]; mrun;
    (destruct (count a =? 0) eqn:E; [apply Z.eqb_eq in E; done|]);
    mrun; rewrite plan_loop; mrun;
    (erewrite pick_filename_first_free; [|by mrun|by mrun|by mrun; lia]);
    mrun; unfold planned, sending, plan, planned_chunk; cbn [length_of];
    by rewrite <- list_fmap_compose.
Qed.

Lemma plan_length L N : length (plan L N) = Z.to_nat N.
Proof. unfold plan, Py.xrange. by rewrite !length_fmap, length_seq. Qed.

Lemma plan_lookup L N i :
  0 <= i < N → plan L N !! Z.to_nat i = Some (planned_chunk L N i).
Proof.
  intros Hi. unfold plan, Py.xrange. rewrite !list_lookup_fmap.
  rewrite lookup_seq_lt by lia. simpl. by rewrite Z2Nat.id by lia.
Qed.

Lemma planned_inner L N i :
  0 <= i < N - 1 →
  planned_chunk L N i = (i * (L / N), (i + 1) * (L / N) - 1).
Proof.
  intros Hi. unfold planned_chunk.
  by destruct (Z.eqb_spec i (N - 1)); [lia|].
Qed.

Lemma planned_last L N :
  planned_chunk L N (N - 1) = ((N - 1) * (L / N), L).
Proof. unfold planned_chunk. by rewrite Z.eqb_refl. Qed.

End PlanFacts.

(** C1 (the code departs from the claim). For a content length [L >= 0] and
    a count [N >= 1] the Range Planner returns with [chunk_size = L / N]
    (floor division) and exactly [N] segments; segment [i < N - 1] is
    [(i * chunk_size, (i + 1) * chunk_size - 1)], as claimed; but the last
    segment is [((N - 1) * chunk_size, L)]: its recorded end is [L], one
    past the [L - 1] of the claim, so that the recorded ranges cover
    [0 .. L] and not [0 .. L - 1]. *)
Theorem C1_planner_last_segment_ends_at_L net u n w L :
  Net.head net u = Net.HeadOk (Net.Value L) →
  0 <= L → 1 <= n →
  ∃ s',
    get_file_info net (start u n w) = (Ret tt, s')
    ∧ content_length (self s') = L
    ∧ chunk_size (self s') = L / n
    ∧ length (chunks (self s')) = Z.to_nat n
    ∧ (∀ i, 0 <= i < n - 1 →
         chunks (self s') !! Z.to_nat i
         = Some (Some (i * (L / n), (i + 1) * (L / n) - 1)))
    ∧ chunks (self s') !! Z.to_nat (n - 1) = Some (Some ((n - 1) * (L / n), L))
    ∧ L ≠ L - 1.
Proof.
  intros Hhead HL Hn.
  destruct (PlanFacts.get_file_info_run net (start u n w) (Net.Value L))
    as (k & name & _ & ->); [done|done|unfold start; simpl; lia|].
  eexists. split; [done|]. unfold start, planned. simpl.
  repeat split.
  - by rewrite length_fmap, PlanFacts.plan_length.
  - intros i Hi. rewrite list_lookup_fmap, PlanFacts.plan_lookup by lia.
    simpl. by rewrite PlanFacts.planned_inner.
  - rewrite list_lookup_fmap, PlanFacts.plan_lookup by lia.
    simpl. by rewrite PlanFacts.planned_last.
  - lia.
Qed.

(* ===================================================================== *)
(** ** The Resume Reconciler: [resume_check] *)
(* ===================================================================== *)

Module ResumeFacts.

Lemma first_free_unique d name k1 k2 n1 n2 :
  first_free d name k1 n1 → first_free d name k2 n2 → k1 = k2 ∧ n1 = n2.
Proof.
  intros (Hc1 & Hf1 & Hb1) (Hc2 & Hf2 & Hb2).
  destruct (Nat.lt_trichotomy k1 k2) as [Hlt|[->|Hlt]].
  - specialize (Hb2 k1 n1 Hlt Hc1). congruence.
  - split; congruence.
  - specialize (Hb1 k2 n2 Hlt Hc2). congruence.
Qed.

(** One turn of the loop, by the three branches of its [if]. *)
Lemma resume_step_run globs sizes new_chunks i f s data c :
  Fs.read f (dir (os s)) = Some data →
  chunks (self s) !! i = Some (Some c) →
  let size := Z.of_nat (length data) in
  ∃ s',
    same_plan s s'
    ∧ resume_step globs (sizes, new_chunks) (i, f) s
      = if size =? chunk_size (self s) then
          (Ret (sizes ++ [size], new_chunks ++ [None]), s')
        else if negb (size =? c.2) && (size <? chunk_size (self s)) then
          (Ret (sizes ++ [size],
                new_chunks
                ++ [Some (c.1 + size,
                          (Z.of_nat i + 1) * chunk_size (self s) - 1)]),
           s')
        else (Exit 1, s').
Proof.
  intros Hread Hchunk size. unfold resume_step, getsize, chunk_at.
  mrun. rewrite Hread. mrun. fold size.
  destruct (size =? chunk_size (self s)); mrun.
  { eexists; split; [|reflexivity]. by unfold same_plan. }
  rewrite Hchunk.
  destruct (negb (size =? c.2) && (size <? chunk_size (self s))); mrun;
    (eexists; split; [|reflexivity]); by unfold same_plan.
Qed.

Lemma same_plan_trans s1 s2 s3 :
  same_plan s1 s2 → same_plan s2 s3 → same_plan s1 s3.
Proof. unfold same_plan. intros (?&?&?&?) (?&?&?&?). repeat split; congruence. Qed.

Lemma for_fold_cons {A V} (x : A) l (body : V → A → M V) v s :
  for_fold (x :: l) body v s
  = match body v x s with
    | (Ret v', s') => for_fold l body v' s'
    | (Exit c, s') => (Exit c, s')
    | (Raise e, s') => (Raise e, s')
    | (Hang, s') => (Hang, s')
    end.
Proof. reflexivity. Qed.

Lemma reconciled_cons s s1 f globs j {V} (r : outcome V * state) :
  same_plan s s1 →
  reconciled s1 globs (S j) r →
  (∀ data c, Fs.read f (dir (os s)) = Some data →
             chunks (self s) !! j = Some (Some c) →
             ¬ mismatch (chunk_size (self s)) c data) →
  reconciled s (f :: globs) j r.
Proof.
  intros Hsame (Hs & Hout & Hexit) Hhead.
  split; [by eapply same_plan_trans|]. split; [done|].
  destruct Hsame as (Hdir & _ & Hch & Hcs).
  intros [|i] f' data c Hf' Hread Hc Hmis.
  - injection Hf' as <-. rewrite Nat.add_0_r in Hc.
    by destruct (Hhead data c).
  - apply (Hexit i f' data c); rewrite ?Hdir, ?Hch, ?Hcs; try done.
    by replace (S j + i)%nat with (j + S i)%nat by lia.
Qed.

(** The loop ends by returning or by [sys.exit(1)], it changes neither
    the plan nor the directory, and it exits when some part file falls in
    the last branch. *)
Lemma resume_loop_run globs0 globs :
  ∀ j acc s,
    Forall (λ f, is_Some (Fs.read f (dir (os s)))) globs →
    (∀ i, (i < length globs)%nat →
          ∃ c, chunks (self s) !! (j + i)%nat = Some (Some c)) →
    reconciled s globs j
      (for_fold (Py.enumerate_from j globs) (resume_step globs0) acc s).
Proof.
  induction globs as [|f globs IH]; intros j [sizes new_chunks] s Hfiles Hchunks.
  - split; [done|]. split; [by left; eexists|]. by intros [].
  - apply Forall_cons in Hfiles as [[data Hdata] Hfiles].
    destruct (Hchunks 0%nat) as [c Hc]; [simpl; lia|].
    rewrite Nat.add_0_r in Hc.
    destruct (resume_step_run globs0 sizes new_chunks j f s data c Hdata Hc)
      as (s1 & Hsame & Hstep).
    cbn [Py.enumerate_from]. rewrite for_fold_cons, Hstep. cbv zeta.
    pose proof Hsame as (Hdir & _ & Hch & _).
    assert (∀ v, reconciled s1 globs (S j)
                   (for_fold (Py.enumerate_from (S j) globs)
                      (resume_step globs0) v s1)) as Hrest.
    { intros v. apply IH; [by rewrite Hdir|].
      intros i Hi. rewrite Hch.
      destruct (Hchunks (S i)) as [c' Hc']; [simpl; lia|].
      exists c'. by rewrite <- Hc', Nat.add_succ_r. }
    destruct (Z.eqb_spec (Z.of_nat (length data)) (chunk_size (self s)))
      as [Heq|Hne].
    { eapply reconciled_cons; [done|apply Hrest|].
      intros data' c' ?? [Hne' _]. congruence. }
    destruct (negb _ && _) eqn:Hbr.
    { eapply reconciled_cons; [done|apply Hrest|].
      intros data' c' ?? [_ Hbr']. congruence. }
    split; [done|]. split; [by right|done].
Qed.

Lemma glob_read pattern d globs f :
  Fs.glob pattern d = Some globs → f ∈ globs → is_Some (Fs.read f d).
Proof.
  unfold Fs.glob, Py.fnmatch_filter.
  destruct (Py.translate pattern) as [items|]; [|done]. intros [= <-].
  rewrite list_elem_of_In, !filter_In, <- list_elem_of_In.
  intros [[Hf%FsFacts.isfile_elem _] _]. unfold Fs.isfile in Hf.
  by destruct (Fs.read f d).
Qed.

Lemma glob_glob_run pattern s globs :
  Fs.glob pattern (dir (os s)) = Some globs →
  glob_glob pattern s = (Ret globs, s).
Proof. intros Hglob. unfold glob_glob. mrun. by rewrite Hglob. Qed.

(** The branch of [resume_check] for a count that does not match. *)
Lemma resume_check_count_mismatch s name globs :
  filename (self s) = Some name →
  Fs.glob (name +:+ ".part*") (dir (os s)) = Some globs →
  globs ≠ [] →
  Z.of_nat (length globs) ≠ count (self s) →
  resume_check s
  = (Exit 1,
     {| self := self s;
        os := {| dir := dir (os s); stdin := stdin (os s);
                 stdout :=
                   stdout (os s)
                   ++ ["partial files already exist, and do not match the count ("
                       +:+ Py.str (count (self s)) +:+ ") specified:";
                       listing globs;
                       Py.nl +:+ "Try setting --count "
                       +:+ Py.str (Z.of_nat (length globs))];
                 sent := sent (os s) |};
        bytecount := bytecount s |}).
Proof.
  intros Hname Hglob Hne Hlen. unfold resume_check, glob_glob. mrun.
  rewrite Hname. change (str_of (Some name)) with name. rewrite Hglob. mrun.
  destruct (Z.eqb_spec (Z.of_nat (length globs)) (count (self s))); [done|].
  rewrite bool_decide_true by done. mrun.
  by rewrite <- !app_assoc.
Qed.

(** The branch for a matching count, when some part file is rejected. *)
Lemma resume_check_mismatch s name globs i f data c :
  filename (self s) = Some name →
  Fs.glob (name +:+ ".part*") (dir (os s)) = Some globs →
  Z.of_nat (length globs) = count (self s) →
  (∀ j, (j < length globs)%nat → ∃ c', chunks (self s) !! j = Some (Some c')) →
  globs !! i = Some f →
  Fs.read f (dir (os s)) = Some data →
  chunks (self s) !! i = Some (Some c) →
  mismatch (chunk_size (self s)) c data →
  ∃ s', resume_check s = (Exit 1, s') ∧ same_plan s s'.
Proof.
  intros Hname Hglob Hlen Hchunks Hi Hread Hc Hmis.
  unfold resume_check, glob_glob.
  mrun. rewrite Hname. change (str_of (Some name)) with name.
  rewrite Hglob. mrun. rewrite Hlen, Z.eqb_refl.
  destruct (resume_loop_run globs globs 0 ([], []) s) as (Hsame & _ & Hexit).
  - apply Forall_forall. intros f' Hf'. by eapply glob_read.
  - done.
  - specialize (Hexit i f data c Hi Hread Hc Hmis).
    unfold Py.enumerate.
    destruct (for_fold _ _ _ s) as [o s']. simpl in Hexit, Hsame. subst o.
    by exists s'.
Qed.

Lemma fetch_n_stitch_exit net s s1 s2 code :
  content_length (self s) = 0 →
  get_file_info net s = (Ret tt, s1) →
  resume_check s1 = (Exit code, s2) →
  fetch_n_stitch net s = (Exit code, s2).
Proof.
  intros Hlen Hinfo Hresume. unfold fetch_n_stitch, fetch. mrun.
  by rewrite Hlen, Z.eqb_refl, Hinfo, Hresume.
Qed.

End ResumeFacts.

(** C6. When the number of files that [glob] lists for the part pattern of
    the output file name is neither zero nor the count [n], the run ends with
    [sys.exit(1)]: it has printed the count it found ([Try setting --count
    <found>]), the directory is what it was (no part file written or
    deleted, no output file created), and no ranged request has been sent.
    The output name is the one the planner picks: the first free
    candidate. *)
Theorem C6_count_mismatch_aborts net u n w h k name globs :
  Net.head net u = Net.HeadOk h →
  h ≠ Net.Malformed →
  n ≠ 0 →
  first_free (dir w) (Py.basename u) k name →
  Fs.glob (name +:+ ".part*") (dir w) = Some globs →
  globs ≠ [] →
  Z.of_nat (length globs) ≠ n →
  ∃ s',
    main net u n w = (Exit 1, s')
    ∧ dir (os s') = dir w
    ∧ stdout (os s')
      = stdout w
        ++ ["partial files already exist, and do not match the count ("
            +:+ Py.str n +:+ ") specified:";
            listing globs;
            Py.nl +:+ "Try setting --count " +:+ Py.str (Z.of_nat (length globs))]
    ∧ List.filter Net.is_get (sent (os s')) = List.filter Net.is_get (sent w).
Proof.
  intros Hhead Hh Hn Hff Hglob Hglobs Hlen.
  destruct (PlanFacts.get_file_info_run net (start u n w) h)
    as (k' & name' & Hff' & Hinfo); [done..|].
  destruct (ResumeFacts.first_free_unique _ _ _ _ _ _ Hff Hff') as [<- <-].
  eexists. split.
  - unfold main. eapply ResumeFacts.fetch_n_stitch_exit; [done|apply Hinfo|].
    by apply (ResumeFacts.resume_check_count_mismatch _ name globs).
  - cbn. split; [done|]. split; [done|].
    rewrite List.filter_app. simpl. by rewrite app_nil_r.
Qed.

Module SegmentFacts.

Lemma chunk_size_bounds L n : 0 <= L → 1 <= n → 0 <= L / n ∧ n * (L / n) <= L.
Proof.
  intros HL Hn. split; [apply Z.div_pos; lia|apply Z.mul_div_le; lia].
Qed.

(** The full length of an inner segment is the chunk size, that of the
    last segment is what remains. *)
Lemma full_length_inner L n i :
  0 <= L → 1 <= n → 0 <= i < n - 1 →
  full_length L (planned_chunk L n i) = L / n.
Proof.
  intros HL Hn Hi. rewrite PlanFacts.planned_inner by done.
  destruct (chunk_size_bounds L n HL Hn) as [Hcs Hle].
  unfold full_length. cbn [fst snd]. nia.
Qed.

Lemma full_length_last L n :
  0 <= L → 1 <= n →
  full_length L (planned_chunk L n (n - 1)) = L - (n - 1) * (L / n).
Proof.
  intros HL Hn. rewrite PlanFacts.planned_last.
  destruct (chunk_size_bounds L n HL Hn) as [Hcs Hle].
  unfold full_length. cbn [fst snd]. nia.
Qed.

(** The full length of a segment is what a server that honours byte
    ranges sends for its recorded range. *)
Lemma full_length_served data c :
  0 <= c.1 →
  Z.of_nat (length (Net.range_bytes data c))
  = full_length (Z.of_nat (length data)) c.
Proof.
  destruct c as [a b]. cbn [fst]. intros Ha.
  unfold Net.range_bytes, full_length. cbn [fst snd].
  rewrite length_take, length_drop. lia.
Qed.

Lemma part_names_lookup name n i :
  (i < Z.to_nat n)%nat →
  part_names name n !! i = Some (part_name (Some name) i).
Proof.
  intros Hi. unfold part_names.
  by rewrite list_lookup_fmap, lookup_seq_lt.
Qed.

Lemma part_names_length name n : length (part_names name n) = Z.to_nat n.
Proof. unfold part_names. by rewrite length_fmap, length_seq. Qed.

End SegmentFacts.

Module EndOffsetFacts.

(** With all [n] part files present and listed by index, let the part
    file of segment [i] have a size that is strictly less than the full
    length of the segment and equal to the end offset recorded for it
    ([chunks[i][1]]). Then the reconciler does not mark the segment as
    partially fetched: it takes the last branch, the run ends with
    [sys.exit(1)], the plan is still the planner's, the directory is what it
    was and no ranged request has been sent. *)
Lemma size_equal_to_end_offset_aborts net u n w L k name i data :
  Net.head net u = Net.HeadOk (Net.Value L) →
  0 <= L → 1 <= n →
  first_free (dir w) (Py.basename u) k name →
  Fs.glob (name +:+ ".part*") (dir w) = Some (part_names name n) →
  (i < Z.to_nat n)%nat →
  Fs.read (part_name (Some name) i) (dir w) = Some data →
  Z.of_nat (length data) < full_length L (planned_chunk L n (Z.of_nat i)) →
  Z.of_nat (length data) = (planned_chunk L n (Z.of_nat i)).2 →
  ∃ s',
    main net u n w = (Exit 1, s')
    ∧ chunks (self s') = Some <$> plan L n
    ∧ dir (os s') = dir w
    ∧ List.filter Net.is_get (sent (os s')) = List.filter Net.is_get (sent w).
Proof.
  intros Hhead HL Hn Hff Hglob Hi Hread Hlt Hend.
  destruct (PlanFacts.get_file_info_run net (start u n w) (Net.Value L))
    as (k' & name' & Hff' & Hinfo); [done|done|unfold start; simpl; lia|].
  destruct (ResumeFacts.first_free_unique _ _ _ _ _ _ Hff Hff') as [<- <-].
  set (s1 := {| self := planned (self (start u n w)) (length_of (Net.Value L)) name;
                os := sending (Net.HEAD (url (self (start u n w)))) (os (start u n w));
                bytecount := bytecount (start u n w) |}) in *.
  destruct (SegmentFacts.chunk_size_bounds L n HL Hn) as [Hcs Hle].
  destruct (ResumeFacts.resume_check_mismatch s1 name (part_names name n) i
              (part_name (Some name) i) data
              (planned_chunk L n (Z.of_nat i)))
    as (s' & Hexit & Hdir & Hsent & Hch & _); subst s1;
    unfold start, sending, planned in *;
    cbn [self os bytecount dir sent filename chunks chunk_size count
         init length_of app] in *.
  - done.
  - done.
  - rewrite SegmentFacts.part_names_length. lia.
  - rewrite SegmentFacts.part_names_length. intros j Hj.
    exists (planned_chunk L n (Z.of_nat j)).
    rewrite list_lookup_fmap.
    rewrite <- (Nat2Z.id j) at 1. by rewrite PlanFacts.plan_lookup by lia.
  - by apply SegmentFacts.part_names_lookup.
  - done.
  - rewrite list_lookup_fmap.
    rewrite <- (Nat2Z.id i) at 1. by rewrite PlanFacts.plan_lookup by lia.
  - destruct (decide (Z.of_nat i = n - 1)) as [Hlast|Hinner].
    + rewrite Hlast, SegmentFacts.full_length_last in Hlt by done.
      rewrite Hlast, PlanFacts.planned_last in Hend. simpl in Hend. nia.
    + rewrite SegmentFacts.full_length_inner in Hlt by lia.
      split; [lia|]. by rewrite Hend, Z.eqb_refl.
  - exists s'. split.
    + unfold main. by eapply ResumeFacts.fetch_n_stitch_exit.
    + rewrite Hch, Hdir, Hsent. split; [done|]. split; [done|].
      rewrite List.filter_app. simpl. by rewrite app_nil_r.
Qed.

End EndOffsetFacts.

(* ===================================================================== *)
(** ** Loops and what they preserve *)
(* ===================================================================== *)

Module RunFacts.

Lemma bind_run {A B} (m : M A) (k : A → M B) s :
  (m ≫= k) s
  = match m s with
    | (Ret a, s') => k a s'
    | (Exit c, s') => (Exit c, s')
    | (Raise e, s') => (Raise e, s')
    | (Hang, s') => (Hang, s')
    end.
Proof. reflexivity. Qed.

Lemma for_each_cons {A} (x : A) l (body : A → M unit) s :
  for_each (x :: l) body s
  = match body x s with
    | (Ret _, s') => for_each l body s'
    | (Exit c, s') => (Exit c, s')
    | (Raise e, s') => (Raise e, s')
    | (Hang, s') => (Hang, s')
    end.
Proof. reflexivity. Qed.

Lemma for_each_cons_ret {A} (x : A) l (body : A → M unit) s s1 r :
  body x s = (Ret tt, s1) → for_each l body s1 = r →
  for_each (x :: l) body s = r.
Proof. intros Hx Hl. by rewrite for_each_cons, Hx. Qed.

Lemma bind_ret_eq {A B} (m : M A) (k : A → M B) s a s' r :
  m s = (Ret a, s') → k a s' = r → (m ≫= k) s = r.
Proof. intros Hm Hk. by rewrite bind_run, Hm. Qed.

Lemma get_dir_run s : get_dir s = (Ret (dir (os s)), s).
Proof. reflexivity. Qed.

Lemma get_self_run s : get_self s = (Ret (self s), s).
Proof. reflexivity. Qed.

Lemma the_filename_run s name :
  filename (self s) = Some name → the_filename s = (Ret name, s).
Proof. intros Hname. unfold the_filename. mrun. by rewrite Hname. Qed.

Lemma modify_self_run f s :
  modify_self f s
  = (Ret tt, {| self := f (self s); os := os s; bytecount := bytecount s |}).
Proof. reflexivity. Qed.

Lemma modify_dir_run f s :
  modify_dir f s = (Ret tt, with_dir (f (dir (os s))) s).
Proof. reflexivity. Qed.

(** A property of the state that every action of a sequence keeps,
    however the action ends, holds when the sequence ends. *)
Lemma bind_keeps (P : state → Prop) {A B} (m : M A) (k : A → M B) s :
  P (m s).2 → (∀ a s', P s' → P (k a s').2) → P ((m ≫= k) s).2.
Proof.
  intros Hm Hk. rewrite bind_run. destruct (m s) as [[a|c|e|] s']; auto.
Qed.

Lemma for_each_keeps (P : state → Prop) {A} (l : list A) (body : A → M unit) :
  (∀ x s, x ∈ l → P s → P (body x s).2) →
  ∀ s, P s → P (for_each l body s).2.
Proof.
  induction l as [|x l IH]; intros Hbody s Hs; [done|].
  rewrite for_each_cons.
  pose proof (Hbody x s (list_elem_of_here _ _) Hs) as Hx.
  destruct (body x s) as [[[]|c|e|] s']; try done.
  apply IH; [|done]. intros y s'' Hy. apply Hbody. by right.
Qed.

End RunFacts.

(* ===================================================================== *)
(** ** The Stitcher: [stitch] *)
(* ===================================================================== *)

Module StitchFacts.
Import FsFacts RunFacts.

Lemma readlines_concat data : concat (Py.readlines data) = data.
Proof.
  induction data as [|b data IH]; [done|]. simpl.
  destruct (Py.is_newline b); simpl; [by rewrite IH|].
  destruct (Py.readlines data) as [|line lines]; simpl in *;
    by rewrite <- IH.
Qed.

Lemma with_dir_id s : with_dir (dir (os s)) s = s.
Proof. by destruct s as [? [] ?]. Qed.

Lemma with_dir_twice d1 d2 s : with_dir d2 (with_dir d1 s) = with_dir d2 s.
Proof. reflexivity. Qed.

(** Writing the blocks of one input to the output, one by one. *)
Lemma copy_blocks out blocks :
  ∀ s acc,
    Fs.read out (dir (os s)) = Some acc →
    ∃ d',
      for_each blocks (λ block, modify_dir (Fs.append out block)) s
      = (Ret tt, with_dir d' s)
      ∧ Fs.read out d' = Some (acc ++ concat blocks)
      ∧ ∀ g, g ≠ out → Fs.read g d' = Fs.read g (dir (os s)).
Proof.
  induction blocks as [|block blocks IH]; intros s acc Hout.
  - exists (dir (os s)). by rewrite with_dir_id, app_nil_r.
  - rewrite for_each_cons, modify_dir_run.
    destruct (IH (with_dir (Fs.append out block (dir (os s))) s)
                (acc ++ block))
      as (d' & Hrun & Hout' & Hother).
    { cbn. by rewrite read_append_eq, Hout. }
    exists d'. rewrite Hrun. split; [done|]. split.
    + by rewrite Hout', <- app_assoc.
    + intros g Hg. rewrite Hother by done. cbn.
      by rewrite read_append_ne.
Qed.

(** A plain name can be opened for writing. *)
Lemma open_w_plain out s :
  Fs.plain out = true →
  open_w out s = (Ret tt, with_dir (Fs.write out [] (dir (os s))) s).
Proof.
  unfold Fs.plain, open_w. intros [Hname Hchars]%andb_true_iff.
  assert (Py.any_char (λ c, Ascii.eqb c zero) out = false) as ->.
  { clear Hname. induction out as [|c out IH]; [done|].
    cbn in Hchars |- *.
    apply andb_true_iff in Hchars as [[_ Hc]%andb_true_iff Hrest].
    apply negb_true_iff in Hc. by rewrite Hc, IH. }
  apply negb_true_iff in Hname. by rewrite Hname.
Qed.

Lemma input_of_run f s data :
  f ≠ "-" → Fs.read f (dir (os s)) = Some data →
  input_of f s = (Ret data, s).
Proof.
  intros Hf Hread. unfold input_of.
  destruct (String.eqb_spec f "-") as [->|_]; [done|].
  mrun. by rewrite Hread.
Qed.

(** The loop over [fileinput.input(files)]. *)
Lemma copy_files out fs :
  ∀ contents s acc,
    out ∉ fs → "-" ∉ fs →
    Forall2 (λ f c, Fs.read f (dir (os s)) = Some c) fs contents →
    Fs.read out (dir (os s)) = Some acc →
    ∃ d',
      for_each fs (λ f,
        data ← input_of f;
        for_each (Py.readlines data) (λ block,
          modify_dir (Fs.append out block))) s
      = (Ret tt, with_dir d' s)
      ∧ Fs.read out d' = Some (acc ++ concat contents)
      ∧ ∀ g, g ≠ out → Fs.read g d' = Fs.read g (dir (os s)).
Proof.
  induction fs as [|f fs IH]; intros contents s acc Hout Hdash Hall Hacc.
  - apply Forall2_nil_inv_l in Hall as ->. exists (dir (os s)).
    by rewrite with_dir_id, app_nil_r.
  - apply Forall2_cons_inv_l in Hall as (c & contents' & Hc & Hall & ->).
    apply not_elem_of_cons in Hout as [Hne Hout].
    apply not_elem_of_cons in Hdash as [Hnd Hdash].
    rewrite for_each_cons, bind_run, (input_of_run f s c) by done.
    destruct (copy_blocks out (Py.readlines c) s acc Hacc)
      as (d1 & -> & Hout1 & Hother1).
    rewrite readlines_concat in Hout1.
    destruct (IH contents' (with_dir d1 s) (acc ++ c))
      as (d' & Hrun & Hout' & Hother); [done|done| |done|].
    { apply Forall2_same_length_lookup. split; [by eapply Forall2_length|].
      intros i g cg Hg Hcg. cbn. rewrite Hother1.
      - exact (Forall2_lookup_lr _ fs contents' i g cg Hall Hg Hcg).
      - intros ->. apply Hout. by eapply list_elem_of_lookup_2. }
    exists d'. rewrite Hrun. split; [done|]. split.
    + cbn [concat]. by rewrite Hout', <- app_assoc.
    + intros g Hg. rewrite Hother by done. cbn. by apply Hother1.
Qed.

(** The loop over [os.unlink]. *)
Lemma unlink_files fs :
  ∀ s,
    NoDup fs →
    Forall (λ f, is_Some (Fs.read f (dir (os s)))) fs →
    ∃ d',
      for_each fs (λ f,
        d ← get_dir;
        if Fs.isfile f d then modify_dir (Fs.remove f)
        else raise OSError) s
      = (Ret tt, with_dir d' s)
      ∧ (∀ f, f ∈ fs → Fs.read f d' = None)
      ∧ ∀ g, g ∉ fs → Fs.read g d' = Fs.read g (dir (os s)).
Proof.
  induction fs as [|f fs IH]; intros s Hnodup Hall.
  - exists (dir (os s)). rewrite with_dir_id. split; [done|].
    split; [|done]. by intros f ?%elem_of_nil.
  - apply NoDup_cons in Hnodup as [Hf Hnodup].
    apply Forall_cons in Hall as [[c Hc] Hall].
    rewrite for_each_cons, bind_run, get_dir_run.
    unfold Fs.isfile at 1. rewrite Hc, modify_dir_run.
    destruct (IH (with_dir (Fs.remove f (dir (os s))) s))
      as (d' & Hrun & Hgone & Hother); [done| |].
    { apply Forall_forall. intros g Hg. cbn.
      rewrite read_remove_ne by (by intros ->).
      by apply (proj1 (Forall_forall _ _) Hall). }
    exists d'. rewrite Hrun. split; [done|]. split.
    + intros g [->|Hg]%elem_of_cons; [|by apply Hgone].
      rewrite Hother by done. cbn. apply read_remove_eq.
    + intros g [Hne Hg]%not_elem_of_cons. rewrite Hother by done. cbn.
      by rewrite read_remove_ne.
Qed.

(** [stitch] on part files that are all there. *)
Lemma stitch_run s out contents :
  filename (self s) = Some out →
  Fs.plain out = true →
  files (self s) ≠ [] →
  NoDup (files (self s)) →
  out ∉ files (self s) →
  "-" ∉ files (self s) →
  Forall2 (λ f c, Fs.read f (dir (os s)) = Some c) (files (self s)) contents →
  ∃ d',
    stitch s = (Ret tt, with_dir d' s)
    ∧ Fs.read out d' = Some (concat contents)
    ∧ (∀ f, f ∈ files (self s) → Fs.read f d' = None)
    ∧ ∀ g, g ∉ files (self s) → g ≠ out →
           Fs.read g d' = Fs.read g (dir (os s)).
Proof.
  intros Hname Hplain Hne Hnodup Hout Hdash Hall.
  unfold stitch.
  rewrite bind_run, get_self_run, bind_run, (the_filename_run s out) by done.
  rewrite bind_run, (open_w_plain out s) by done. rewrite bind_run.
  assert (match files (self s) with [] => ["-"] | f :: fs => f :: fs end
          = files (self s)) as -> by by destruct (files (self s)).
  destruct (copy_files out (files (self s)) contents
              (with_dir (Fs.write out [] (dir (os s))) s) [])
    as (d1 & -> & Hout1 & Hother1); [done|done| |by cbn; rewrite read_write_eq|].
  { apply Forall2_same_length_lookup. split; [by eapply Forall2_length|].
    intros i g c Hg Hc. cbn. rewrite read_write_ne.
    - exact (Forall2_lookup_lr _ _ _ i g c Hall Hg Hc).
    - intros ->. apply Hout. by eapply list_elem_of_lookup_2. }
  assert (∀ g, g ∈ files (self s) → g ≠ out) as Hneq by (by intros g ? ->).
  destruct (unlink_files (files (self s))
              (with_dir d1 (with_dir (Fs.write out [] (dir (os s))) s)))
    as (d' & Hrun & Hgone & Hother); [done| |].
  { apply Forall_forall. intros g Hg. cbn.
    rewrite Hother1 by auto. cbn. rewrite read_write_ne by (by intros ->; eapply Hneq).
    apply list_elem_of_lookup_1 in Hg as [i Hi].
    destruct (Forall2_lookup_l _ _ _ i g Hall Hi) as (c & _ & ->). by eexists. }
  exists d'. cbn in Hrun. rewrite Hrun. split; [done|]. split; [|split].
  - rewrite Hother by done. cbn. by rewrite Hout1.
  - done.
  - intros g Hg Hgo. rewrite Hother by done. cbn.
    rewrite Hother1 by done. cbn. by rewrite read_write_ne.
Qed.

End StitchFacts.

(* ===================================================================== *)
(** ** The Segment Fetcher and the Fetch Pool: [getter], [fetch] *)
(* ===================================================================== *)

Module FetchFacts.
Import FsFacts RunFacts.

Lemma write_blocks_run name blocks broken :
  ∀ s,
    only_writes name s (write_blocks name blocks broken s).2
    ∧ sent (os (write_blocks name blocks broken s).2) = sent (os s).
Proof.
  induction blocks as [|block blocks IH]; intros s.
  - simpl. destruct broken; by repeat split.
  - destruct block as [|b block]; [by repeat split|].
    cbn [write_blocks]. mrun.
    set (s1 := {| self := _; os := _; bytecount := _ |}).
    destruct (IH s1) as [(Hself & Hin & Hout & Hread) Hsent].
    destruct (write_blocks name blocks broken s1) as [[[]|c|e|] s2];
      cbn [snd] in *; (split; [|by rewrite Hsent]);
      (split; [by rewrite Hself|]); (split; [by rewrite Hin|]);
      (split; [by rewrite Hout|]);
      intros g Hg; rewrite Hread by done; cbn;
      by rewrite read_append_ne.
Qed.

(** A segment fetcher, however it ends, has sent its one request and has
    touched its own part file only. *)
Lemma getter_run net name chunk s :
  only_writes name s (getter net name chunk s).2
  ∧ sent (os (getter net name chunk s).2)
    = sent (os s) ++ [Net.GET (url (self s)) chunk].
Proof.
  unfold getter. mrun.
  destruct (Net.get net (url (self s)) chunk) as [|blocks broken].
  - by repeat split.
  - mrun. set (s1 := {| self := _; os := _; bytecount := _ |}).
    destruct (write_blocks_run name blocks broken s1)
      as [(Hself & Hin & Hout & Hread) Hsent].
    destruct (write_blocks name blocks broken s1) as [[[]|c|e|] s2];
      cbn [snd] in *; (split; [|by rewrite Hsent]);
      (split; [by rewrite Hself|]); (split; [by rewrite Hin|]);
      (split; [by rewrite Hout|]);
      intros g Hg; rewrite Hread by done; cbn;
      by rewrite read_append_ne.
Qed.

(** The loop of [fetch]: it returns whatever the fetchers do, names one
    part file per segment, by index, and sends one request per segment
    that is not skipped. *)
Lemma fetch_loop_run net size l :
  size ≠ 0 →
  ∀ i s,
    ∃ s',
      for_each (Py.enumerate_from i l) (λ '(i, chunk),
        a ← get_self;
        let name := part_name (filename a) i in
        modify_self (set_files (files a ++ [name]));;
        match chunk with
        | None => mret tt
        | Some c => spawn size (getter net name c)
        end) s
      = (Ret tt, s')
      ∧ self s'
        = set_files
            (files (self s)
             ++ (part_name (filename (self s)) <$> seq i (length l)))
            (self s)
      ∧ stdin (os s') = stdin (os s)
      ∧ stdout (os s') = stdout (os s)
      ∧ sent (os s') = sent (os s) ++ requests_of (url (self s)) l
      ∧ ∀ g, g ∉ (part_name (filename (self s)) <$> seq i (length l)) →
             Fs.read g (dir (os s')) = Fs.read g (dir (os s)).
Proof.
  intros Hsize. induction l as [|chunk l IH]; intros i s.
  - exists s. cbn. rewrite !app_nil_r. by destruct s as [[] ? ?].
  - set (name := part_name (filename (self s)) i).
    set (s0 := {| self := set_files (files (self s) ++ [name]) (self s);
                  os := os s; bytecount := bytecount s |}).
    assert (∃ s1,
      (a ← get_self;
       modify_self (set_files (files a ++ [part_name (filename a) i]));;
       match chunk with
       | None => mret tt
       | Some c => spawn size (getter net (part_name (filename a) i) c)
       end) s = (Ret tt, s1)
      ∧ only_writes name s0 s1
      ∧ sent (os s1) = sent (os s) ++ requests_of (url (self s)) [chunk])
      as (s1 & Hstep & (Hself & Hin & Hout & Hread) & Hsent).
    { rewrite bind_run, get_self_run, bind_run, modify_self_run.
      fold name s0. destruct chunk as [c|].
      - unfold spawn. destruct (Z.eqb_spec size 0) as [|_]; [done|].
        eexists. split; [done|].
        destruct (getter_run net name c s0) as [Hw Hs]. split; [done|].
        by rewrite Hs.
      - exists s0. split; [done|]. split; [by repeat split|].
        cbn. by rewrite app_nil_r. }
    destruct (IH (S i) s1)
      as (s' & Hrun & Hself' & Hin' & Hout' & Hsent' & Hread').
    rewrite Hself in Hself', Hsent', Hread'. cbn in Hself', Hsent', Hread'.
    exists s'. split; [|split; [|split; [|split; [|split]]]].
    + cbn [Py.enumerate_from].
      eapply for_each_cons_ret; [exact Hstep|exact Hrun].
    + rewrite Hself'. cbn. by rewrite <- app_assoc.
    + by rewrite Hin', Hin.
    + by rewrite Hout', Hout.
    + rewrite Hsent', Hsent, <- app_assoc. f_equal.
      unfold requests_of. by destruct chunk.
    + intros g Hg. cbn in Hg. apply not_elem_of_cons in Hg as [Hne Hg].
      rewrite Hread' by done. by rewrite Hread.
Qed.

(** [fetch] returns once the planning has returned. *)
Lemma fetch_run net s s1 :
  (if content_length (self s) =? 0 then get_file_info net;; resume_check
   else mret tt) s = (Ret tt, s1) →
  0 < count (self s1) →
  let names :=
    part_name (filename (self s1)) <$> seq 0 (length (chunks (self s1))) in
  ∃ s2,
    fetch net s = (Ret tt, s2)
    ∧ self s2 = set_files (files (self s1) ++ names) (self s1)
    ∧ stdin (os s2) = stdin (os s1)
    ∧ stdout (os s2) = stdout (os s1) ++ [""]
    ∧ sent (os s2)
      = sent (os s1) ++ requests_of (url (self s1)) (chunks (self s1))
    ∧ ∀ g, g ∉ names → Fs.read g (dir (os s2)) = Fs.read g (dir (os s1)).
Proof.
  intros Hplan Hcount names.
  destruct (fetch_loop_run net (count (self s1)) (chunks (self s1))
              ltac:(lia) 0
              {| self := self s1; os := os s1; bytecount := [] |})
    as (s' & Hrun & Hself & Hin & Hout & Hsent & Hread).
  cbn [self os] in Hself, Hin, Hout, Hsent, Hread.
  eexists. split.
  - unfold fetch.
    eapply bind_ret_eq; [apply get_self_run|].
    eapply bind_ret_eq; [exact Hplan|].
    eapply bind_ret_eq; [reflexivity|].
    eapply bind_ret_eq; [apply get_self_run|].
    cbv zeta. cbn [self].
    eapply bind_ret_eq.
    { unfold new_pool. by destruct (Z.ltb_spec (count (self s1)) 0); [lia|]. }
    eapply bind_ret_eq; [exact Hrun|].
    reflexivity.
  - cbn. by rewrite Hself, Hin, Hout, Hsent.
Qed.

(** A fresh run: no file matches the part pattern. *)
Lemma resume_check_fresh s :
  Fs.glob (str_of (filename (self s)) +:+ ".part*") (dir (os s)) = Some [] →
  count (self s) ≠ 0 →
  resume_check s = (Ret tt, s).
Proof.
  intros Hglob Hn. unfold resume_check, glob_glob. mrun. rewrite Hglob. mrun.
  cbn [length]. destruct (Z.eqb_spec (Z.of_nat 0) (count (self s))); [done|].
  by rewrite bool_decide_false by naive_solver.
Qed.

End FetchFacts.

(* ===================================================================== *)
(** ** Part file names *)
(* ===================================================================== *)

Module NameFacts.
Import Py PyFacts.

Lemma length_app s1 s2 :
  String.length (s1 +:+ s2) = (String.length s1 + String.length s2)%nat.
Proof.
  induction s1 as [|a s1 IH]; [done|].
  rewrite append_cons. simpl. by rewrite IH.
Qed.

Lemma part_name_longer name i :
  (String.length name + 5 <= String.length (part_name (Some name) i))%nat.
Proof.
  unfold part_name. cbn [str_of default]. rewrite !length_app.
  change (String.length ".part") with 5%nat. unfold id. lia.
Qed.

Lemma part_name_ne name i : part_name (Some name) i ≠ name.
Proof.
  intros H. pose proof (part_name_longer name i) as Hlen.
  rewrite H in Hlen. lia.
Qed.

Lemma part_name_not_dash name i : part_name (Some name) i ≠ "-".
Proof.
  intros H. pose proof (part_name_longer name i) as Hlen.
  rewrite H in Hlen. simpl in Hlen. lia.
Qed.

(** Zeros on the left do not change the value of a numeral. *)
Lemma value_zeros k s d :
  NilEmpty.uint_of_string s = Some d →
  Z.of_uint <$> NilEmpty.uint_of_string (zeros k +:+ s) = Some (Z.of_uint d).
Proof.
  intros Hs. induction k as [|k IH]; cbn [zeros].
  - by rewrite append_nil, Hs.
  - rewrite append_cons. cbn [NilEmpty.uint_of_string].
    destruct (NilEmpty.uint_of_string (zeros k +:+ s)) as [d'|]; [|done].
    simpl in *. by change (Z.of_uint (Decimal.D0 d')) with (Z.of_uint d').
Qed.

Lemma fmt_03d_inj i j : fmt_03d i = fmt_03d j → i = j.
Proof.
  intros H.
  assert (∀ m, Z.of_uint <$> NilEmpty.uint_of_string (fmt_03d m)
               = Some (Z.of_nat m)) as Hval.
  { intros m. unfold fmt_03d.
    destruct (str_nonneg (Z.of_nat m)) as (d & Hd & Hof & _); [lia|].
    rewrite Hd. erewrite value_zeros; [|apply NilEmpty.usu]. by rewrite Hof. }
  pose proof (Hval i) as Hi. rewrite H, Hval in Hi. simplify_eq. lia.
Qed.

Lemma part_name_inj name i j : part_name name i = part_name name j → i = j.
Proof.
  unfold part_name. intros H.
  apply (inj (String.app _)) in H. apply (inj (String.app _)) in H.
  by apply fmt_03d_inj.
Qed.

(** The part files of a plan have pairwise different names, none of which
    is the output name or the name that stands for standard input. *)
Lemma part_names_NoDup name i n : NoDup (part_name name <$> seq i n).
Proof.
  apply NoDup_fmap_2_strong; [|apply NoDup_seq].
  intros a b _ _. apply part_name_inj.
Qed.

Lemma part_names_fresh name i n g :
  g ∈ part_name (Some name) <$> seq i n → g ≠ name ∧ g ≠ "-".
Proof.
  intros (k & -> & _)%list_elem_of_fmap.
  split; [apply part_name_ne|apply part_name_not_dash].
Qed.

End NameFacts.

(* ===================================================================== *)
(** ** What planning and stitching keep *)
(* ===================================================================== *)

Module KeepFacts.
Import FsFacts RunFacts.

Lemma for_fold_keeps (P : state → Prop) {A V} (l : list A)
    (body : V → A → M V) :
  (∀ v x s, P s → P (body v x s).2) →
  ∀ v s, P s → P (for_fold l body v s).2.
Proof.
  intros Hbody. induction l as [|x l IH]; intros v s Hs; [done|].
  rewrite ResumeFacts.for_fold_cons.
  pose proof (Hbody v x s Hs) as Hx.
  destruct (body v x s) as [[v'|c|e|] s']; try done. by apply IH.
Qed.

Lemma same_names_refl s : same_names s s.
Proof. by repeat split. Qed.

Lemma same_names_trans s1 s2 s3 :
  same_names s1 s2 → same_names s2 s3 → same_names s1 s3.
Proof.
  unfold same_names. intros (?&?&?&?&?&?) (?&?&?&?&?&?).
  repeat split; congruence.
Qed.

Lemma resume_step_keeps globs acc item s :
  same_names s (resume_step globs acc item s).2.
Proof.
  destruct acc as [sizes new_chunks], item as [i f].
  unfold resume_step, getsize, chunk_at. mrun.
  destruct (Fs.read f (dir (os s))) as [data|]; mrun; [|by repeat split].
  destruct (_ =? _); mrun; [by repeat split|].
  destruct (chunks (self s) !! i) as [[c|]|]; mrun; try by repeat split.
  destruct (negb _ && _); mrun; by repeat split.
Qed.

Lemma resume_check_keeps s : same_names s (resume_check s).2.
Proof.
  unfold resume_check, glob_glob. mrun.
  destruct (Fs.glob _ _) as [globs|]; mrun; [|by repeat split].
  destruct (_ =? _).
  - pose proof (for_fold_keeps (same_names s) (Py.enumerate globs)
                  (resume_step globs)) as Hloop.
    specialize (Hloop (λ v x s' Hs', same_names_trans _ _ _ Hs'
                                        (resume_step_keeps globs v x s'))
                      ([], []) s (same_names_refl s)).
    destruct (for_fold _ _ _ s) as [[[sizes new_chunks]|c|e|] s'];
      cbn [snd] in *; done.
  - destruct (bool_decide _); by repeat split.
Qed.

(** [get_file_info] returns only after a metadata response with a
    well-formed header, for a count that is not zero. *)
Lemma get_file_info_returns net s s' :
  get_file_info net s = (Ret tt, s') →
  ∃ h, Net.head net (url (self s)) = Net.HeadOk h
       ∧ h ≠ Net.Malformed ∧ count (self s) ≠ 0.
Proof.
  unfold get_file_info. mrun.
  destruct (Net.head net (url (self s))) as [|h]; mrun; [done|].
  intros Hrun. exists h. split; [done|].
  destruct h as [| |v]; mrun; try done;
    (split; [done|]); intros Hn; revert Hrun; mrun;
    by rewrite Hn.
Qed.

(** [get_file_info] always ends: the loop that picks the file name has
    steps enough. *)
Lemma get_file_info_ends net s : (get_file_info net s).1 ≠ Hang.
Proof.
  destruct (Net.head net (url (self s))) as [|h] eqn:Hhead.
  { unfold get_file_info. mrun. by rewrite Hhead. }
  destruct (decide (count (self s) = 0)) as [Hn|Hn].
  { unfold get_file_info. mrun. rewrite Hhead.
    destruct h; mrun; by rewrite ?Hn. }
  assert (h = Net.Malformed ∨ h ≠ Net.Malformed) as [->|Hh]
    by (destruct h; [by right|by left|by right]).
  { unfold get_file_info. mrun. by rewrite Hhead. }
  by destruct (PlanFacts.get_file_info_run net s h Hhead Hh Hn)
    as (k & name & _ & ->).
Qed.

Lemma input_of_state f s : (input_of f s).2 = s.
Proof.
  unfold input_of. destruct (String.eqb f "-"); [done|]. mrun.
  by destruct (Fs.read f (dir (os s))).
Qed.

(** Once [stitch] has opened the output file, the file stays, however
    [stitch] ends. *)
Lemma stitch_keeps_output s out :
  filename (self s) = Some out →
  Fs.plain out = true →
  out ∉ files (self s) →
  Fs.isfile out (dir (os (stitch s).2)) = true.
Proof.
  intros Hname Hplain Hout. unfold stitch.
  rewrite bind_run, get_self_run, bind_run, (the_filename_run s out) by done.
  rewrite bind_run, (StitchFacts.open_w_plain out s) by done.
  set (P := λ s' : state, Fs.isfile out (dir (os s')) = true).
  apply (bind_keeps P).
  - apply (for_each_keeps P).
    + intros f s' _ Hs'. apply (bind_keeps P).
      * by rewrite input_of_state.
      * intros data s'' Hs''. apply (for_each_keeps P); [|done].
        intros block s3 _ _. unfold P, Fs.isfile. cbn.
        by rewrite read_append_eq.
    + unfold P, Fs.isfile. cbn. by rewrite read_write_eq.
  - intros _ s' Hs'. apply (for_each_keeps P); [|done].
    intros f s'' Hf Hs''. rewrite bind_run, get_dir_run.
    destruct (Fs.isfile f (dir (os s''))); [|done].
    unfold P, Fs.isfile in *. cbn.
    rewrite read_remove_ne; [done|]. by intros ->.
Qed.

End KeepFacts.

(* ===================================================================== *)
(** ** The claims about stitching, fetching and naming *)
(* ===================================================================== *)

(** C7. Let the list [files] of the object hold the names of part files that
    exist, each once, in ascending segment-index order (the order in which
    [fetch] appends them, whatever the order in which the fetches ended),
    and let the output name be one under which a file can be created in the
    working directory. Then [stitch] returns, the output file holds exactly
    the contents of the part files concatenated in that order, and every
    part file is gone. *)
Theorem C7_stitch_concatenates_in_order s out contents :
  filename (self s) = Some out →
  Fs.plain out = true →
  files (self s) ≠ [] →
  NoDup (files (self s)) →
  out ∉ files (self s) →
  "-" ∉ files (self s) →
  Forall2 (λ f c, Fs.read f (dir (os s)) = Some c) (files (self s)) contents →
  ∃ s',
    stitch s = (Ret tt, s')
    ∧ self s' = self s
    ∧ Fs.read out (dir (os s')) = Some (concat contents)
    ∧ length (concat contents) = sum_list (length <$> contents)
    ∧ ∀ f, f ∈ files (self s) → Fs.isfile f (dir (os s')) = false.
Proof.
  intros Hname Hplain Hne Hnodup Hout Hdash Hall.
  destruct (StitchFacts.stitch_run s out contents) as (d' & Hrun & Hread & Hgone & _);
    [done..|].
  exists (with_dir d' s). split; [done|]. split; [done|]. split; [done|].
  split.
  - clear. induction contents as [|c contents IH]; [done|].
    simpl. by rewrite length_app, IH.
  - intros f Hf. unfold Fs.isfile. cbn. by rewrite (Hgone f Hf).
Qed.

(** C5 (as the code has it). A metadata response without a content length
    does not stop the run: the length is read as 0 and the Range Planner
    builds its [n] segments with chunk size 0, [(0, -1)] for every segment
    but the last and [(0, 0)] for the last; in a directory in which [glob]
    lists no file for the part pattern of the output name, [fetch] then
    sends one ranged request per segment and returns. *)
Theorem C5_missing_length_is_read_as_zero net u n w k name :
  Net.head net u = Net.HeadOk Net.Absent →
  1 <= n →
  first_free (dir w) (Py.basename u) k name →
  Fs.glob (name +:+ ".part*") (dir w) = Some [] →
  ∃ s2,
    fetch net (start u n w) = (Ret tt, s2)
    ∧ content_length (self s2) = 0
    ∧ chunk_size (self s2) = 0
    ∧ length (chunks (self s2)) = Z.to_nat n
    ∧ (∀ i, 0 <= i < n - 1 →
         chunks (self s2) !! Z.to_nat i = Some (Some (0, -1)))
    ∧ chunks (self s2) !! Z.to_nat (n - 1) = Some (Some (0, 0))
    ∧ sent (os s2) = sent w ++ Net.HEAD u :: (Net.GET u <$> plan 0 n).
Proof.
  intros Hhead Hn Hff Hglob.
  destruct (PlanFacts.get_file_info_run net (start u n w) Net.Absent)
    as (k' & name' & Hff' & Hinfo); [done|done|unfold start; simpl; lia|].
  destruct (ResumeFacts.first_free_unique _ _ _ _ _ _ Hff Hff') as [<- <-].
  set (s1 := {| self := planned (self (start u n w)) (length_of Net.Absent) name;
                os := sending (Net.HEAD (url (self (start u n w))))
                        (os (start u n w));
                bytecount := bytecount (start u n w) |}) in *.
  assert (resume_check s1 = (Ret tt, s1)) as Hresume.
  { apply FetchFacts.resume_check_fresh; [done|]. unfold s1, start. simpl. lia. }
  destruct (FetchFacts.fetch_run net (start u n w) s1)
    as (s2 & Hfetch & Hself & _ & _ & Hsent & _).
  { change (content_length (self (start u n w)) =? 0) with true.
    cbv iota. by rewrite RunFacts.bind_run, Hinfo. }
  { unfold s1, start. simpl. lia. }
  exists s2. split; [done|]. rewrite Hself, Hsent.
  unfold s1, start, planned, sending. cbn.
  assert (0 / n = 0) as Hdiv by by apply Z.div_0_l; lia.
  split; [done|]. split; [done|].
  split; [by rewrite length_fmap, PlanFacts.plan_length|].
  split; [|split].
  - intros i Hi. rewrite list_lookup_fmap, PlanFacts.plan_lookup by lia.
    simpl. rewrite PlanFacts.planned_inner by done. rewrite Hdiv.
    do 3 f_equal; lia.
  - rewrite list_lookup_fmap, PlanFacts.plan_lookup by lia.
    simpl. rewrite PlanFacts.planned_last, Hdiv. do 3 f_equal. lia.
  - rewrite <- app_assoc. do 2 f_equal. unfold requests_of. f_equal.
    generalize (plan 0 n). intros l. induction l as [|c l IH]; [done|].
    cbn. by rewrite IH.
Qed.

(** C8. The planner returns with an output name that no file has: the first
    free one among the candidates [name], [next name], ... counted from the
    basename of the URL, where the candidate after a name with a purely
    numeric extension [.m] is the same prefix with [.m+1] and the candidate
    after any other name is the name with [.0] appended. For the basename
    [file.txt]: when [file.txt] exists and [file.txt.0] does not, the name
    is [file.txt.0]; when both exist and [file.txt.1] does not, it is
    [file.txt.1]. *)
Theorem C8_output_name_is_first_free_candidate net s h :
  Net.head net (url (self s)) = Net.HeadOk h →
  h ≠ Net.Malformed →
  count (self s) ≠ 0 →
  ∃ k name s',
    get_file_info net s = (Ret tt, s')
    ∧ filename (self s') = Some name
    ∧ dir (os s') = dir (os s)
    ∧ first_free (dir (os s)) (Py.basename (url (self s))) k name
    ∧ (∀ p m, has_stem p = true → 0 <= m →
         next_filename (p +:+ "." +:+ Py.str m)
         = Some (p +:+ "." +:+ Py.str (m + 1)))
    ∧ (∀ c prefix ext,
         Py.splitext c = (prefix, ext) → Py.isdigit (Py.drop 1 ext) = false →
         next_filename c = Some (c +:+ ".0"))
    ∧ (Py.basename (url (self s)) = "file.txt" →
       Fs.isfile "file.txt" (dir (os s)) = true →
       Fs.isfile "file.txt.0" (dir (os s)) = false →
       name = "file.txt.0")
    ∧ (Py.basename (url (self s)) = "file.txt" →
       Fs.isfile "file.txt" (dir (os s)) = true →
       Fs.isfile "file.txt.0" (dir (os s)) = true →
       Fs.isfile "file.txt.1" (dir (os s)) = false →
       name = "file.txt.1").
Proof.
  intros Hhead Hh Hn.
  destruct (PlanFacts.get_file_info_run net s h Hhead Hh Hn)
    as (k & name & Hff & Hinfo).
  exists k, name. eexists. split; [exact Hinfo|].
  split; [done|]. split; [done|]. split; [done|].
  split; [apply FilenameFacts.next_filename_numbered|].
  split.
  { intros c prefix ext Hsplit Hdig. unfold next_filename.
    by rewrite Hsplit, Hdig. }
  split.
  - intros Hbase Htaken Hfree. rewrite Hbase in Hff.
    assert (first_free (dir (os s)) "file.txt" 1 "file.txt.0") as Hone.
    { split; [done|]. split; [done|].
      intros [|j] c Hj Hc; [|lia]. by injection Hc as <-. }
    by destruct (ResumeFacts.first_free_unique _ _ _ _ _ _ Hff Hone).
  - intros Hbase Htaken Htaken0 Hfree. rewrite Hbase in Hff.
    assert (first_free (dir (os s)) "file.txt" 2 "file.txt.1") as Htwo.
    { split; [done|]. split; [done|].
      intros [|[|j]] c Hj Hc; [| |lia]; by injection Hc as <-. }
    by destruct (ResumeFacts.first_free_unique _ _ _ _ _ _ Hff Htwo).
Qed.

(* ===================================================================== *)
(** ** Runs on the example inputs *)
(* ===================================================================== *)

(** C3 (the code departs from the claim). The resource has 10 bytes and the
    count is 3, so the chunk size is 3 and the last segment holds 4 bytes.
    All three part files are there, each of the full length of its segment.
    The reconciler compares the size of the last one with the chunk size as
    well: it marks no segment at all and the run ends with [sys.exit(1)],
    where the claim has every segment complete and nothing to fetch. *)
Theorem C3_full_parts_with_remainder_are_rejected :
  let r := main (Net.serving ten) "http://h/f.bin" 3 (in_dir full_parts) in
  Forall2 (λ entry c, Z.of_nat (length entry.2) = full_length 10 c)
    full_parts (plan 10 3)
  ∧ r.1 = Exit 1
  ∧ chunks (self r.2) = [Some (0, 2); Some (3, 5); Some (6, 10)]
  ∧ dir (os r.2) = full_parts
  ∧ Fs.isfile "f.bin" (dir (os r.2)) = false.
Proof.
  cbv zeta. split; [by repeat constructor|]. by vm_compute.
Qed.

(** C4 (the code departs from the claim), on two inputs. First, 10 bytes
    in 3 segments with 2 of the 4 bytes of the last segment on disk: the
    reconciler plans the range [(8, 8)] for it, not [(8, 9)], and after the
    fetch the part file holds 3 bytes, not 4. Second, 10 bytes in 2 segments
    with 4 of the 5 bytes of the first segment on disk: the size equals the
    recorded end offset of the segment, which is not marked as partially
    fetched; the run ends with [sys.exit(1)]. *)
Theorem C4_partial_parts_are_not_resumed_to_full_length :
  let r := fetch (Net.serving ten) (start "http://h/f.bin" 3 (in_dir short_last_part)) in
  let r' := main (Net.serving ten) "http://h/f.bin" 2 (in_dir short_first_part) in
  full_length 10 (6, 10) = 4
  ∧ r.1 = Ret tt
  ∧ chunks (self r.2) = [None; None; Some (8, 8)]
  ∧ List.filter Net.is_get (sent (os r.2)) = [Net.GET "http://h/f.bin" (8, 8)]
  ∧ Fs.read "f.bin.part002" (dir (os r.2)) = Some [x36; x37; x38]
  ∧ full_length 10 (0, 4) = 5
  ∧ r'.1 = Exit 1
  ∧ chunks (self r'.2) = [Some (0, 4); Some (5, 10)]
  ∧ List.filter Net.is_get (sent (os r'.2)) = [].
Proof. by vm_compute. Qed.

(** C9 (the code departs from the claim). The same two part files, listed
    by index and listed the other way round, give two different plans: the
    reconciler applies the size of the file at position [i] of the listing
    to segment [i]. Listed in reverse, the 2 bytes of [part001] are taken
    for segment 0 and the run appends the range [(2, 4)] to the complete
    [part000]. *)
Theorem C9_plan_follows_the_listing_order :
  let r := main (Net.serving ten) "http://h/f.bin" 2 (in_dir listed_by_index) in
  let r' := main (Net.serving ten) "http://h/f.bin" 2 (in_dir listed_in_reverse) in
  listed_by_index ≡ₚ listed_in_reverse
  ∧ chunks (self r.2) = [None; Some (7, 9)]
  ∧ Fs.read "f.bin" (dir (os r.2)) = Some ten
  ∧ chunks (self r'.2) = [Some (2, 4); None]
  ∧ List.filter Net.is_get (sent (os r'.2)) = [Net.GET "http://h/f.bin" (2, 4)]
  ∧ Fs.read "f.bin" (dir (os r'.2))
    = Some [x30; x31; x32; x33; x34; x32; x33; x34; x35; x36].
Proof.
  cbv zeta. split; [apply perm_swap|]. by vm_compute.
Qed.

(** C10 (the code departs from the claim). The part file of segment 0
    holds 4 of the 5 bytes of the segment, and 4 is the end offset recorded
    for segment 0. Listed by index, the run ends with [sys.exit(1)] before
    any fetch, as the claim has it. Listed after the part file of segment
    1, the same file is compared with the end offset of segment 1: the run
    does not exit, it plans the range [(9, 9)] for segment 1, appends that
    byte to the complete [part001], and stitches an output that is not the
    resource. *)
Theorem C10_end_offset_abort_follows_the_listing :
  let r := main (Net.serving ten) "http://h/f.bin" 2 (in_dir short_first_part) in
  let r' := main (Net.serving ten) "http://h/f.bin" 2
              (in_dir short_first_part_in_reverse) in
  short_first_part ≡ₚ short_first_part_in_reverse
  ∧ Fs.read "f.bin.part000" short_first_part_in_reverse
    = Some [x30; x31; x32; x33]
  ∧ Z.of_nat (length [x30; x31; x32; x33]) = (planned_chunk 10 2 0).2
  ∧ Z.of_nat (length [x30; x31; x32; x33])
    < full_length 10 (planned_chunk 10 2 0)
  ∧ r.1 = Exit 1
  ∧ List.filter Net.is_get (sent (os r.2)) = []
  ∧ r'.1 = Ret tt
  ∧ chunks (self r'.2) = [None; Some (9, 9)]
  ∧ List.filter Net.is_get (sent (os r'.2)) = [Net.GET "http://h/f.bin" (9, 9)]
  ∧ Fs.read "f.bin" (dir (os r'.2))
    = Some [x30; x31; x32; x33; x35; x36; x37; x38; x39; x39].
Proof.
  cbv zeta. split; [apply perm_swap|]. by vm_compute.
Qed.

(** C2, the claim as written fails: the stream of segment 1 breaks after
    one byte, yet the run returns normally, the Stitcher has written the
    six bytes it found to the output file and has deleted both part
    files. *)
Lemma C2_failed_fetch_is_stitched :
  let r := main breaking "http://h/f.bin" 2 (in_dir []) in
  Net.get breaking "http://h/f.bin" (5, 10) = Net.Stream [[x35]] true
  ∧ List.filter Net.is_get (sent (os r.2))
    = [Net.GET "http://h/f.bin" (0, 4); Net.GET "http://h/f.bin" (5, 10)]
  ∧ r.1 = Ret tt
  ∧ Fs.read "f.bin" (dir (os r.2)) = Some [x30; x31; x32; x33; x34; x35]
  ∧ Fs.isfile "f.bin.part000" (dir (os r.2)) = false
  ∧ Fs.isfile "f.bin.part001" (dir (os r.2)) = false
  ∧ ¬ failed_fetch_halts_run.
Proof.
  cbv zeta. do 6 (split; [by vm_compute|]).
  intros Hclaim.
  destruct (Hclaim breaking "http://h/f.bin" 2 (in_dir []) (5, 10)) as [Hret _].
  - apply list_elem_of_In. vm_compute. tauto.
  - right. exists [[x35]]. split; [done|]. by repeat constructor.
  - by apply (Hret tt).
Qed.

(** C5, the claim as written fails: the response has no content length,
    yet the run returns normally after a plan of two segments, two ranged
    requests and an (empty) output file. *)
Lemma C5_missing_length_run_goes_on :
  let r := main silent "http://h/f.bin" 2 (in_dir []) in
  Net.head silent "http://h/f.bin" = Net.HeadOk Net.Absent
  ∧ r.1 = Ret tt
  ∧ chunks (self r.2) = [Some (0, -1); Some (0, 0)]
  ∧ List.filter Net.is_get (sent (os r.2))
    = [Net.GET "http://h/f.bin" (0, -1); Net.GET "http://h/f.bin" (0, 0)]
  ∧ Fs.read "f.bin" (dir (os r.2)) = Some []
  ∧ ¬ missing_length_aborts_run.
Proof.
  cbv zeta. do 5 (split; [by vm_compute|]).
  intros Hclaim.
  destruct (Hclaim silent "http://h/f.bin" 2 (in_dir [])) as [Hret _]; [done|].
  by apply (Hret tt).
Qed.

(** The plan after the reconciliation depends on the listing order. *)
Lemma resume_depends_on_listing_order : ¬ resume_ignores_listing_order.
Proof.
  intros Hclaim.
  specialize (Hclaim
    (get_file_info (Net.serving ten) (start "http://h/f.bin" 2 (in_dir []))).2
    listed_by_index listed_in_reverse (perm_swap _ _ _)).
  by vm_compute in Hclaim.
Qed.

(* ===================================================================== *)
(** ** The theorems at concrete inputs *)
(* ===================================================================== *)

(** The candidate [name] itself is free in [d]. *)
Lemma first_free_at_once d name :
  Fs.isfile name d = false → first_free d name 0 name.
Proof. intros Hfree. split; [done|]. split; [done|]. intros; lia. Defined.

(** Ten bytes in three segments: the last segment is recorded as
    [(6, 10)]. *)
Lemma C1_planner_at_ten_bytes_in_three :
  (Net.head (Net.serving ten) "http://h/f.bin" = Net.HeadOk (Net.Value 10)
   ∧ 0 <= 10 ∧ 1 <= 3)
  ∧ ∃ s',
      get_file_info (Net.serving ten) (start "http://h/f.bin" 3 (in_dir []))
      = (Ret tt, s')
      ∧ content_length (self s') = 10
      ∧ chunk_size (self s') = 10 / 3
      ∧ length (chunks (self s')) = Z.to_nat 3
      ∧ (∀ i, 0 <= i < 3 - 1 →
           chunks (self s') !! Z.to_nat i
           = Some (Some (i * (10 / 3), (i + 1) * (10 / 3) - 1)))
      ∧ chunks (self s') !! Z.to_nat (3 - 1)
        = Some (Some ((3 - 1) * (10 / 3), 10))
      ∧ 10 ≠ 10 - 1.
Proof.
  split; [split; [reflexivity|lia]|].
  apply (C1_planner_last_segment_ends_at_L (Net.serving ten) "http://h/f.bin"
           3 (in_dir []) 10); [reflexivity|lia|lia].
Defined.

(** No content length, count 2, an empty directory. *)
Lemma C5_missing_length_at_count_two :
  (Net.head silent "http://h/f.bin" = Net.HeadOk Net.Absent
   ∧ 1 <= 2
   ∧ first_free (dir (in_dir [])) (Py.basename "http://h/f.bin") 0 "f.bin"
   ∧ Fs.glob ("f.bin" +:+ ".part*") (dir (in_dir [])) = Some [])
  ∧ ∃ s2,
      fetch silent (start "http://h/f.bin" 2 (in_dir [])) = (Ret tt, s2)
      ∧ content_length (self s2) = 0
      ∧ chunks (self s2) !! 0%nat = Some (Some (0, -1))
      ∧ chunks (self s2) !! 1%nat = Some (Some (0, 0))
      ∧ sent (os s2)
        = [Net.HEAD "http://h/f.bin"; Net.GET "http://h/f.bin" (0, -1);
           Net.GET "http://h/f.bin" (0, 0)].
Proof.
  assert (first_free (dir (in_dir [])) (Py.basename "http://h/f.bin") 0 "f.bin")
    as Hff by (apply (first_free_at_once [] "f.bin"); reflexivity).
  split; [split; [reflexivity|split; [lia|split; [exact Hff|reflexivity]]]|].
  destruct (C5_missing_length_is_read_as_zero silent "http://h/f.bin" 2
              (in_dir []) 0 "f.bin")
    as (s2 & Hfetch & Hlen & _ & _ & Hinner & Hlast & Hsent);
    [reflexivity|lia|exact Hff|reflexivity|].
  exists s2. split; [exact Hfetch|]. split; [exact Hlen|].
  split; [apply (Hinner 0); lia|]. split; [exact Hlast|exact Hsent].
Defined.

(** Five part files found for a count of eight. *)
Lemma C6_five_parts_for_count_eight :
  (Net.head (Net.serving ten) "http://h/f.bin" = Net.HeadOk (Net.Value 10)
   ∧ Net.Value 10 ≠ Net.Malformed
   ∧ 8 ≠ 0
   ∧ first_free (dir (in_dir five_parts)) (Py.basename "http://h/f.bin") 0 "f.bin"
   ∧ Fs.glob ("f.bin" +:+ ".part*") (dir (in_dir five_parts))
     = Some ["f.bin.part000"; "f.bin.part001"; "f.bin.part002";
             "f.bin.part003"; "f.bin.part004"]
   ∧ ["f.bin.part000"; "f.bin.part001"; "f.bin.part002";
      "f.bin.part003"; "f.bin.part004"] ≠ []
   ∧ Z.of_nat (length ["f.bin.part000"; "f.bin.part001"; "f.bin.part002";
                       "f.bin.part003"; "f.bin.part004"])
     ≠ 8)
  ∧ ∃ s',
      main (Net.serving ten) "http://h/f.bin" 8 (in_dir five_parts) = (Exit 1, s')
      ∧ dir (os s') = five_parts
      ∧ last (stdout (os s')) = Some (Py.nl +:+ "Try setting --count 5")
      ∧ List.filter Net.is_get (sent (os s')) = [].
Proof.
  assert (first_free (dir (in_dir five_parts)) (Py.basename "http://h/f.bin")
            0 "f.bin")
    as Hff by (apply (first_free_at_once five_parts "f.bin"); reflexivity).
  split.
  { split; [reflexivity|]. split; [discriminate|]. split; [lia|].
    split; [exact Hff|]. split; [reflexivity|].
    split; [discriminate|vm_compute; discriminate]. }
  destruct (C6_count_mismatch_aborts (Net.serving ten) "http://h/f.bin" 8
              (in_dir five_parts) (Net.Value 10) 0 "f.bin"
              ["f.bin.part000"; "f.bin.part001"; "f.bin.part002";
               "f.bin.part003"; "f.bin.part004"])
    as (s' & Hmain & Hdir & Hout & Hsent);
    [reflexivity|discriminate|lia|exact Hff|reflexivity|discriminate
    |vm_compute; discriminate|].
  exists s'. split; [exact Hmain|]. split; [exact Hdir|].
  split; [rewrite Hout; reflexivity|exact Hsent].
Defined.

(** Parts of 5, 7 and 3 bytes, in a directory that lists them out of
    order: the output has the 15 bytes of part 0, part 1 and part 2. *)
Lemma C7_stitch_of_5_7_3 :
  (filename (self about_to_stitch) = Some "out.bin"
   ∧ Fs.plain "out.bin" = true
   ∧ files (self about_to_stitch) ≠ []
   ∧ NoDup (files (self about_to_stitch))
   ∧ ("out.bin" ∉ files (self about_to_stitch))
   ∧ ("-" ∉ files (self about_to_stitch))
   ∧ Forall2 (λ f c, Fs.read f (dir (os about_to_stitch)) = Some c)
       (files (self about_to_stitch))
       [[x30; x31; x32; x33; x34]; [x61; x62; x63; x64; x65; x66; x67];
        [x78; x79; x7a]])
  ∧ ∃ s',
      stitch about_to_stitch = (Ret tt, s')
      ∧ Fs.read "out.bin" (dir (os s'))
        = Some [x30; x31; x32; x33; x34; x61; x62; x63; x64; x65; x66; x67;
                x78; x79; x7a]
      ∧ length [x30; x31; x32; x33; x34; x61; x62; x63; x64; x65; x66; x67;
                x78; x79; x7a] = 15%nat
      ∧ Fs.isfile "out.bin.part000" (dir (os s')) = false
      ∧ Fs.isfile "out.bin.part001" (dir (os s')) = false
      ∧ Fs.isfile "out.bin.part002" (dir (os s')) = false.
Proof.
  assert (NoDup (files (self about_to_stitch))) as Hnodup
    by compute_done.
  assert ("out.bin" ∉ files (self about_to_stitch)) as Hout
    by compute_done.
  assert ("-" ∉ files (self about_to_stitch)) as Hdash
    by compute_done.
  assert (Forall2 (λ f c, Fs.read f (dir (os about_to_stitch)) = Some c)
            (files (self about_to_stitch))
            [[x30; x31; x32; x33; x34]; [x61; x62; x63; x64; x65; x66; x67];
             [x78; x79; x7a]]) as Hall
    by (repeat constructor).
  split.
  { split; [reflexivity|]. split; [reflexivity|]. split; [discriminate|].
    split; [exact Hnodup|].
    split; [exact Hout|]. split; [exact Hdash|exact Hall]. }
  destruct (C7_stitch_concatenates_in_order about_to_stitch "out.bin" _
              eq_refl eq_refl ltac:(discriminate) Hnodup Hout Hdash Hall)
    as (s' & Hrun & _ & Hread & _ & Hgone).
  exists s'. split; [exact Hrun|]. split; [exact Hread|].
  split; [reflexivity|].
  split; [|split]; apply Hgone; apply list_elem_of_In; simpl; tauto.
Defined.

(** [file.txt] and [file.txt.0] are taken: the name is [file.txt.1]. *)
Lemma C8_name_after_two_taken :
  (Net.head (Net.serving ten)
     (url (self (start "http://example.com/file.txt" 3 (in_dir taken_names))))
   = Net.HeadOk (Net.Value 10)
   ∧ Net.Value 10 ≠ Net.Malformed
   ∧ count (self (start "http://example.com/file.txt" 3 (in_dir taken_names)))
     ≠ 0)
  ∧ ∃ s',
      get_file_info (Net.serving ten)
        (start "http://example.com/file.txt" 3 (in_dir taken_names))
      = (Ret tt, s')
      ∧ filename (self s') = Some "file.txt.1"
      ∧ dir (os s') = taken_names.
Proof.
  split; [split; [reflexivity|split; [discriminate|discriminate]]|].
  destruct (C8_output_name_is_first_free_candidate (Net.serving ten)
              (start "http://example.com/file.txt" 3 (in_dir taken_names))
              (Net.Value 10))
    as (k & name & s' & Hrun & Hname & Hdir & _ & _ & _ & _ & Htwo);
    [reflexivity|discriminate|discriminate|].
  exists s'. split; [exact Hrun|].
  rewrite (Htwo eq_refl eq_refl eq_refl eq_refl) in Hname.
  split; [exact Hname|exact Hdir].
Defined.

(* ===================================================================== *)
(** ** Resuming complete part files when the count divides the length *)
(* ===================================================================== *)

Module CompleteFacts.
Import FsFacts RunFacts.

(** The loop of [resume_check] over part files that all have the chunk
    size. *)
Lemma resume_loop_complete globs0 globs :
  ∀ j sizes new_chunks s,
    Forall (λ f, ∃ data, Fs.read f (dir (os s)) = Some data
                         ∧ Z.of_nat (length data) = chunk_size (self s)) globs →
    for_fold (Py.enumerate_from j globs) (resume_step globs0)
      (sizes, new_chunks) s
    = (Ret (sizes ++ replicate (length globs) (chunk_size (self s)),
            new_chunks ++ replicate (length globs) None),
       {| self :=
            set_startcount
              (startcount (self s)
               ++ replicate (length globs) (chunk_size (self s)))
              (self s);
          os := os s; bytecount := bytecount s |}).
Proof.
  induction globs as [|f globs IH]; intros j sizes new_chunks s Hall.
  - cbn. rewrite !app_nil_r. by destruct s as [[] ? ?].
  - apply Forall_cons in Hall as [(data & Hread & Hlen) Hall].
    cbn [Py.enumerate_from]. rewrite ResumeFacts.for_fold_cons.
    assert (resume_step globs0 (sizes, new_chunks) (j, f) s
            = (Ret (sizes ++ [chunk_size (self s)], new_chunks ++ [None]),
               {| self := set_startcount
                            (startcount (self s) ++ [chunk_size (self s)])
                            (self s);
                  os := os s; bytecount := bytecount s |})) as ->.
    { unfold resume_step, getsize. mrun. rewrite Hread. mrun.
      by rewrite Hlen, Z.eqb_refl. }
    rewrite IH by done. cbn. by rewrite <- !app_assoc.
Qed.

(** The loop of [fetch] over a plan in which every segment is skipped. *)
Lemma fetch_loop_skips net size m :
  ∀ i s,
    for_each (Py.enumerate_from i (replicate m None)) (λ '(i, chunk),
      a ← get_self;
      let name := part_name (filename a) i in
      modify_self (set_files (files a ++ [name]));;
      match chunk with
      | None => mret tt
      | Some c => spawn size (getter net name c)
      end) s
    = (Ret tt,
       {| self :=
            set_files
              (files (self s) ++ (part_name (filename (self s)) <$> seq i m))
              (self s);
          os := os s; bytecount := bytecount s |}).
Proof.
  induction m as [|m IH]; intros i s.
  - cbn. rewrite app_nil_r. by destruct s as [[] ? ?].
  - cbn [replicate Py.enumerate_from].
    eapply for_each_cons_ret; [reflexivity|].
    rewrite IH. cbn. by rewrite <- app_assoc.
Qed.

(** When the count divides the length every segment, the last one too, has
    the chunk size as its full length. *)
Lemma full_length_divisible L n i :
  0 <= L → 1 <= n → L `mod` n = 0 → 0 <= i < n →
  full_length L (planned_chunk L n i) = L / n.
Proof.
  intros HL Hn Hmod Hi.
  destruct (decide (i = n - 1)) as [->|Hne].
  - rewrite SegmentFacts.full_length_last by done.
    pose proof (Z.div_mod L n ltac:(lia)). nia.
  - apply SegmentFacts.full_length_inner; lia.
Qed.

Lemma resume_check_complete s name globs :
  filename (self s) = Some name →
  Fs.glob (name +:+ ".part*") (dir (os s)) = Some globs →
  Z.of_nat (length globs) = count (self s) →
  Forall (λ f, ∃ data, Fs.read f (dir (os s)) = Some data
                       ∧ Z.of_nat (length data) = chunk_size (self s)) globs →
  ∃ s',
    resume_check s = (Ret tt, s')
    ∧ chunks (self s') = replicate (length globs) None
    ∧ startcount (self s')
      = startcount (self s) ++ replicate (length globs) (chunk_size (self s))
    ∧ same_names s s'.
Proof.
  intros Hname Hglob Hlen Hall. unfold resume_check, glob_glob. mrun.
  rewrite Hname. change (str_of (Some name)) with name. rewrite Hglob. mrun.
  rewrite Hlen, Z.eqb_refl. unfold Py.enumerate.
  rewrite resume_loop_complete by done. mrun.
  eexists. split; [done|]. by repeat split.
Qed.

Lemma length_concat_uniform (contents : list (list byte)) m :
  Forall (λ c, length c = m) contents →
  length (concat contents) = (length contents * m)%nat.
Proof.
  induction 1 as [|c contents Hc _ IH]; [done|].
  cbn. rewrite length_app, IH. lia.
Qed.

(** With a count that divides the content length, a run over part files
    that all have their full length marks every segment complete, records
    every size, sends no ranged request and stitches a file of the content
    length. *)
Lemma full_parts_resume_when_count_divides net u n w L k name contents :
  Net.head net u = Net.HeadOk (Net.Value L) →
  0 <= L → 1 <= n → L `mod` n = 0 →
  first_free (dir w) (Py.basename u) k name →
  Fs.plain name = true →
  Fs.glob (name +:+ ".part*") (dir w) = Some (part_names name n) →
  Forall2 (λ i c,
      Fs.read (part_name (Some name) i) (dir w) = Some c
      ∧ Z.of_nat (length c) = full_length L (planned_chunk L n (Z.of_nat i)))
    (seq 0 (Z.to_nat n)) contents →
  ∃ s',
    main net u n w = (Ret tt, s')
    ∧ chunks (self s') = replicate (Z.to_nat n) None
    ∧ startcount (self s') = replicate (Z.to_nat n) (L / n)
    ∧ List.filter Net.is_get (sent (os s')) = List.filter Net.is_get (sent w)
    ∧ Fs.read name (dir (os s')) = Some (concat contents)
    ∧ Z.of_nat (length (concat contents)) = L.
Proof.
  intros Hhead HL Hn Hmod Hff Hplain Hglob Hparts.
  destruct (PlanFacts.get_file_info_run net (start u n w) (Net.Value L))
    as (k' & name' & Hff' & Hinfo); [done|done|unfold start; simpl; lia|].
  destruct (ResumeFacts.first_free_unique _ _ _ _ _ _ Hff Hff') as [<- <-].
  set (s0 := {| self := planned (self (start u n w)) (length_of (Net.Value L)) name;
                os := sending (Net.HEAD (url (self (start u n w))))
                        (os (start u n w));
                bytecount := bytecount (start u n w) |}) in *.
  assert (Forall2 (λ f c, Fs.read f (dir w) = Some c
                          ∧ Z.of_nat (length c) = L / n)
            (part_names name n) contents) as Hfiles.
  { unfold part_names. apply Forall2_fmap_l.
    apply Forall2_same_length_lookup. split; [by eapply Forall2_length|].
    intros i j c Hj Hc.
    pose proof (Forall2_lookup_lr _ _ _ i j c Hparts Hj Hc) as [Hread Hlen].
    apply lookup_seq in Hj as [-> Hi]. split; [done|].
    rewrite Hlen. apply full_length_divisible; lia. }
  destruct (resume_check_complete s0 name (part_names name n))
    as (s1 & Hresume & Hch & Hsc & Hkeep).
  - done.
  - done.
  - unfold s0, start, sending, planned.
    cbn [self os dir count init]. cbv zeta.
    rewrite SegmentFacts.part_names_length. lia.
  - unfold s0, start, sending, planned.
    cbn [self os dir count init chunk_size length_of]. cbv zeta.
    apply Forall_forall.
    intros f Hf. apply list_elem_of_lookup_1 in Hf as [i Hi].
    destruct (Forall2_lookup_l _ _ _ i f Hfiles Hi) as (c & _ & Hread & Hlen).
    by exists c.
  - destruct Hkeep as (Hfs & Hname & Hurl & Hcount & Hdir & Hsent).
    unfold s0, start, sending, planned
      in Hch, Hsc, Hfs, Hname, Hurl, Hcount, Hdir, Hsent.
    cbn [self os dir sent count init chunk_size length_of files filename url
         startcount app]
      in Hch, Hsc, Hfs, Hname, Hurl, Hcount, Hdir, Hsent.
    rewrite SegmentFacts.part_names_length in Hch, Hsc.
    set (s2 := {| self := set_files (part_names name n) (self s1);
                  os := {| dir := dir (os s1); stdin := stdin (os s1);
                           stdout := stdout (os s1) ++ [""];
                           sent := sent (os s1) |};
                  bytecount := [] |}).
    assert (fetch net (start u n w) = (Ret tt, s2)) as Hfetch.
    { unfold fetch.
      eapply bind_ret_eq; [apply get_self_run|].
      eapply bind_ret_eq.
      { change (content_length (self (start u n w)) =? 0) with true. cbv iota.
        eapply bind_ret_eq; [exact Hinfo|exact Hresume]. }
      eapply bind_ret_eq; [reflexivity|].
      eapply bind_ret_eq; [apply get_self_run|].
      cbv zeta. cbn [self].
      eapply bind_ret_eq.
      { unfold new_pool. rewrite Hcount.
        by destruct (Z.ltb_spec n 0); [lia|]. }
      rewrite Hch. unfold Py.enumerate.
      eapply bind_ret_eq; [apply fetch_loop_skips|].
      cbn. unfold s2, part_names. by rewrite Hfs, Hname. }
    destruct (StitchFacts.stitch_run s2 name contents)
      as (d' & Hstitch & Hout & _ & _).
    + done.
    + done.
    + cbn. unfold part_names.
      destruct (Z.to_nat n) eqn:E; [lia|done].
    + cbn. apply NameFacts.part_names_NoDup.
    + cbn. intros Hin. by destruct (NameFacts.part_names_fresh _ _ _ _ Hin).
    + cbn. intros Hin. by destruct (NameFacts.part_names_fresh _ _ _ _ Hin).
    + cbn. rewrite Hdir. eapply Forall2_impl; [exact Hfiles|].
      by intros f c [? _].
    + exists (with_dir d' s2). split.
      { change (main net u n w) with ((fetch net;; stitch) (start u n w)).
        by rewrite bind_run, Hfetch. }
      cbn. rewrite Hch, Hsc, Hsent. cbn.
      split; [done|]. split; [done|].
      split; [by rewrite List.filter_app; simpl; rewrite app_nil_r|].
      split; [done|].
      rewrite (length_concat_uniform contents (Z.to_nat (L / n))).
      * rewrite <- (Forall2_length _ _ _ Hfiles), SegmentFacts.part_names_length.
        pose proof (Z.div_mod L n ltac:(lia)).
        assert (0 <= L / n) by (apply Z.div_pos; lia). nia.
      * eapply Forall2_Forall_r; [exact Hfiles|].
        apply Forall_forall. intros f _ c [_ Hlen]. lia.
Qed.

End CompleteFacts.

(* ===================================================================== *)
(** ** What a segment fetcher delivers *)
(* ===================================================================== *)

Module GetterFacts.
Import FsFacts RunFacts.

Lemma total_app l1 l2 : total (l1 ++ l2) = total l1 + total l2.
Proof.
  unfold total. induction l1 as [|x l1 IH]; simpl; [done|]. rewrite IH. lia.
Qed.

Lemma total_cons x l : total (x :: l) = x + total l.
Proof. reflexivity. Qed.

Lemma total_lengths (blocks : list (list byte)) :
  total ((λ b, Z.of_nat (length b)) <$> blocks)
  = Z.of_nat (length (concat blocks)).
Proof.
  induction blocks as [|b blocks IH]; [done|].
  rewrite fmap_cons, total_cons, IH. cbn [concat]. rewrite length_app. lia.
Qed.

Lemma write_blocks_delivered name blocks broken :
  ∀ s content,
    Fs.read name (dir (os s)) = Some content →
    ∃ d',
      write_blocks name blocks broken s
      = (if broken && negb (has_empty blocks) then Raise ConnectionError
         else Ret tt,
         {| self := self s;
            os := {| dir := d'; stdin := stdin (os s);
                     stdout := stdout (os s); sent := sent (os s) |};
            bytecount :=
              bytecount s
              ++ ((λ b, Z.of_nat (length b)) <$> before_empty blocks) |})
      ∧ Fs.read name d' = Some (content ++ concat (before_empty blocks))
      ∧ ∀ g, g ≠ name → Fs.read g d' = Fs.read g (dir (os s)).
Proof.
  induction blocks as [|block blocks IH]; intros s content Hread.
  - exists (dir (os s)). cbn. rewrite !app_nil_r, andb_true_r.
    split; [|done]. destruct s as [? [] ?]. by destruct broken.
  - destruct block as [|b block].
    + exists (dir (os s)). cbn. rewrite !app_nil_r, andb_false_r.
      split; [|done]. by destruct s as [? [] ?].
    + cbn [write_blocks before_empty has_empty]. mrun.
      set (s1 := {| self := _; os := _; bytecount := _ |}).
      destruct (IH s1 (content ++ b :: block)) as (d' & -> & Hname & Hother).
      { unfold s1. cbn. by rewrite read_append_eq, Hread. }
      exists d'. unfold s1. cbn. split; [|split].
      * by rewrite <- app_assoc.
      * by rewrite Hname, <- app_assoc.
      * intros g Hg. rewrite Hother by done. unfold s1. cbn.
        by rewrite read_append_ne.
Qed.

End GetterFacts.

(** X1. Whatever the server answers, [getter] sends exactly its one ranged
    request, leaves the object and every other file alone and only ever
    appends to its part file. When the request itself fails it raises and
    the directory is what it was (the part file is not even created).
    Otherwise the part file ends up holding what it held before followed by
    the blocks of the stream up to the first empty block, the sum of
    [bytecount] grows by exactly the number of bytes appended, and the call
    raises only when the stream breaks without an empty block before. *)
Theorem X1_getter_appends_what_the_stream_delivers net name c s :
  let r := getter net name c s in
  self r.2 = self s
  ∧ sent (os r.2) = sent (os s) ++ [Net.GET (url (self s)) c]
  ∧ stdout (os r.2) = stdout (os s)
  ∧ (∀ g, g ≠ name → Fs.read g (dir (os r.2)) = Fs.read g (dir (os s)))
  ∧ match Net.get net (url (self s)) c with
    | Net.GetFails =>
        r.1 = Raise ConnectionError
        ∧ dir (os r.2) = dir (os s)
        ∧ bytecount r.2 = bytecount s
    | Net.Stream blocks broken =>
        r.1 = (if broken && negb (has_empty blocks) then Raise ConnectionError
               else Ret tt)
        ∧ Fs.read name (dir (os r.2))
          = Some (default [] (Fs.read name (dir (os s)))
                  ++ concat (before_empty blocks))
        ∧ total (bytecount r.2)
          = total (bytecount s)
            + Z.of_nat (length (concat (before_empty blocks)))
    end.
Proof.
  cbv zeta. unfold getter. mrun.
  destruct (Net.get net (url (self s)) c) as [|blocks broken]; mrun.
  { by repeat split. }
  set (s1 := {| self := _; os := _; bytecount := _ |}).
  destruct (GetterFacts.write_blocks_delivered name blocks broken s1
              (default [] (Fs.read name (dir (os s)))))
    as (d' & -> & Hname & Hother).
  { unfold s1. cbn. by rewrite FsFacts.read_append_eq, app_nil_r. }
  unfold s1. cbn. split; [done|]. split; [done|]. split; [done|]. split.
  - intros g Hg. rewrite Hother by done. unfold s1. cbn.
    by rewrite FsFacts.read_append_ne.
  - split; [done|]. split; [done|].
    by rewrite GetterFacts.total_app, GetterFacts.total_lengths.
Qed.

(* ===================================================================== *)
(** ** What a whole download delivers *)
(* ===================================================================== *)

Module DownloadFacts.
Import FsFacts RunFacts.

Lemma getter_read net name c s :
  Fs.read name (dir (os (getter net name c s).2))
  = fetched net (url (self s)) (Some c) (Fs.read name (dir (os s))).
Proof.
  unfold getter, fetched, received. mrun.
  destruct (Net.get net (url (self s)) c) as [|blocks broken]; mrun; [done|].
  set (s1 := {| self := _; os := _; bytecount := _ |}).
  destruct (GetterFacts.write_blocks_delivered name blocks broken s1
              (default [] (Fs.read name (dir (os s)))))
    as (d' & -> & Hname & _).
  { unfold s1. cbn. by rewrite read_append_eq, app_nil_r. }
  done.
Qed.

Lemma for_each_cons_inv {A} (x : A) l (body : A → M unit) s s' :
  for_each (x :: l) body s = (Ret tt, s') →
  ∃ s1, body x s = (Ret tt, s1) ∧ for_each l body s1 = (Ret tt, s').
Proof.
  rewrite for_each_cons. destruct (body x s) as [[[]|c|e|] s1]; try done.
  intros Hrest. by exists s1.
Qed.

(** The part files after the loop of [fetch]. *)
Lemma fetch_loop_contents net size l :
  size ≠ 0 →
  ∀ i s s',
    for_each (Py.enumerate_from i l) (λ '(i, chunk),
      a ← get_self;
      let name := part_name (filename a) i in
      modify_self (set_files (files a ++ [name]));;
      match chunk with
      | None => mret tt
      | Some c => spawn size (getter net name c)
      end) s
    = (Ret tt, s') →
    ∀ k chunk,
      l !! k = Some chunk →
      Fs.read (part_name (filename (self s)) (i + k)) (dir (os s'))
      = fetched net (url (self s)) chunk
          (Fs.read (part_name (filename (self s)) (i + k)) (dir (os s))).
Proof.
  intros Hsize. induction l as [|chunk0 l IH]; intros i s s' Hrun k chunk Hk.
  { done. }
  cbn [Py.enumerate_from] in Hrun.
  apply for_each_cons_inv in Hrun as (s1 & Hstep & Hrest).
  set (name := part_name (filename (self s)) i).
  set (s0 := {| self := set_files (files (self s) ++ [name]) (self s);
                os := os s; bytecount := bytecount s |}).
  assert (self s1 = self s0
          ∧ Fs.read name (dir (os s1))
            = fetched net (url (self s)) chunk0 (Fs.read name (dir (os s)))
          ∧ ∀ g, g ≠ name → Fs.read g (dir (os s1)) = Fs.read g (dir (os s)))
    as (Hself & Hname & Hother).
  { revert Hstep. cbv beta iota.
    rewrite bind_run, get_self_run, bind_run, modify_self_run.
    fold name s0. destruct chunk0 as [c|].
    - unfold spawn. destruct (Z.eqb_spec size 0) as [|_]; [done|].
      intros [= <-].
      destruct (FetchFacts.getter_run net name c s0) as [(? & _ & _ & ?) _].
      split; [done|]. split; [|done]. apply (getter_read net name c s0).
    - intros [= <-]. by repeat split. }
  destruct (FetchFacts.fetch_loop_run net size l Hsize (S i) s1)
    as (s'' & Hrest' & _ & _ & _ & _ & Hframe).
  pose proof (eq_trans (eq_sym Hrest) Hrest') as [= <-].
  rewrite Hself in Hframe. cbn in Hframe.
  destruct k as [|k].
  - injection Hk as <-. rewrite Nat.add_0_r. fold name.
    rewrite Hframe; [done|].
    intros (j & Hj & Hin%elem_of_seq)%list_elem_of_fmap.
    apply NameFacts.part_name_inj in Hj. lia.
  - cbn in Hk. specialize (IH (S i) s1 s' Hrest k chunk Hk).
    rewrite Hself in IH. cbn in IH.
    replace (i + S k)%nat with (S (i + k))%nat by lia.
    rewrite IH, Hother; [done|].
    intros Hj. apply NameFacts.part_name_inj in Hj. lia.
Qed.

(** [fetch], with the part files it leaves. *)
Lemma fetch_contents net s s1 :
  (if content_length (self s) =? 0 then get_file_info net;; resume_check
   else mret tt) s = (Ret tt, s1) →
  0 < count (self s1) →
  let names :=
    part_name (filename (self s1)) <$> seq 0 (length (chunks (self s1))) in
  ∃ s2,
    fetch net s = (Ret tt, s2)
    ∧ self s2 = set_files (files (self s1) ++ names) (self s1)
    ∧ stdout (os s2) = stdout (os s1) ++ [""]
    ∧ sent (os s2)
      = sent (os s1) ++ requests_of (url (self s1)) (chunks (self s1))
    ∧ (∀ g, g ∉ names → Fs.read g (dir (os s2)) = Fs.read g (dir (os s1)))
    ∧ ∀ k chunk,
        chunks (self s1) !! k = Some chunk →
        Fs.read (part_name (filename (self s1)) k) (dir (os s2))
        = fetched net (url (self s1)) chunk
            (Fs.read (part_name (filename (self s1)) k) (dir (os s1))).
Proof.
  intros Hplan Hcount names.
  destruct (FetchFacts.fetch_loop_run net (count (self s1)) (chunks (self s1))
              ltac:(lia) 0
              {| self := self s1; os := os s1; bytecount := [] |})
    as (s' & Hrun & Hself & Hin & Hout & Hsent & Hread).
  pose proof (fetch_loop_contents net (count (self s1)) (chunks (self s1))
                ltac:(lia) 0 _ s' Hrun) as Hcontents.
  cbn [self os] in Hself, Hin, Hout, Hsent, Hread, Hcontents.
  eexists. split; [|split; [|split; [|split; [|split]]]].
  - unfold fetch.
    eapply bind_ret_eq; [apply get_self_run|].
    eapply bind_ret_eq; [exact Hplan|].
    eapply bind_ret_eq; [reflexivity|].
    eapply bind_ret_eq; [apply get_self_run|].
    cbv zeta. cbn [self].
    eapply bind_ret_eq.
    { unfold new_pool. by destruct (Z.ltb_spec (count (self s1)) 0); [lia|]. }
    eapply bind_ret_eq; [exact Hrun|].
    reflexivity.
  - done.
  - cbn. by rewrite Hout.
  - cbn. by rewrite Hsent.
  - done.
  - intros k chunk Hk. cbn. apply (Hcontents k chunk Hk).
Qed.

End DownloadFacts.

Module CoverFacts.

Lemma concat_snoc {A} (ls : list (list A)) l : concat (ls ++ [l]) = concat ls ++ l.
Proof. by rewrite concat_app; cbn; rewrite app_nil_r. Qed.

(** The inner segments of a plan, as served, make up a prefix of the
    resource. *)
Lemma inner_served data n m :
  1 <= n → (m <= Z.to_nat (n - 1))%nat →
  concat (Net.range_bytes data
            <$> (planned_chunk (Z.of_nat (length data)) n
                   <$> (Z.of_nat <$> seq 0 m)))
  = take (m * Z.to_nat (Z.of_nat (length data) / n)) data.
Proof.
  intros Hn. set (L := Z.of_nat (length data)).
  assert (0 <= L / n) as Hcs by (apply Z.div_pos; lia).
  induction m as [|m IH]; intros Hm; [done|].
  rewrite seq_S, !fmap_app, concat_app, IH by lia.
  cbn [fmap list_fmap concat Nat.add].
  rewrite app_nil_r, PlanFacts.planned_inner by lia.
  unfold Net.range_bytes.
  replace (Z.to_nat ((Z.of_nat m + 1) * (L / n) - 1 - Z.of_nat m * (L / n) + 1))
    with (Z.to_nat (L / n)) by lia.
  replace (Z.to_nat (Z.of_nat m * (L / n))) with (m * Z.to_nat (L / n))%nat by nia.
  rewrite take_take_drop. f_equal. lia.
Qed.

(** The segments of a plan, as a server that honours byte ranges sends
    them, make up the resource. *)
Lemma plan_served data n :
  1 <= n →
  concat (Net.range_bytes data <$> plan (Z.of_nat (length data)) n) = data.
Proof.
  intros Hn. set (L := Z.of_nat (length data)).
  destruct (SegmentFacts.chunk_size_bounds L n ltac:(lia) Hn) as [Hcs Hle].
  unfold plan, Py.xrange.
  replace (Z.to_nat n) with (S (Z.to_nat (n - 1))) by lia.
  rewrite seq_S, !fmap_app, concat_app.
  pose proof (inner_served data n (Z.to_nat (n - 1)) Hn ltac:(lia)) as Hinner.
  fold L in Hinner. rewrite Hinner.
  cbn [fmap list_fmap concat Nat.add]. rewrite app_nil_r.
  replace (Z.of_nat (Z.to_nat (n - 1))) with (n - 1) by lia.
  rewrite PlanFacts.planned_last. unfold Net.range_bytes.
  replace (Z.to_nat ((n - 1) * (L / n)))
    with (Z.to_nat (n - 1) * Z.to_nat (L / n))%nat by nia.
  rewrite (take_ge (drop _ _)); [by rewrite take_drop|].
  rewrite length_drop. nia.
Qed.

(** With at least one byte per segment, every planned range starts
    inside the resource and is not empty. *)
Lemma planned_satisfiable L n i :
  1 <= n → n <= L → 0 <= i < n →
  0 <= (planned_chunk L n i).1 <= (planned_chunk L n i).2
  ∧ (planned_chunk L n i).1 < L.
Proof.
  intros Hn HL Hi.
  assert (1 <= L / n) as Hcs by (apply Z.div_le_lower_bound; lia).
  pose proof (Z.mul_div_le L n ltac:(lia)) as Hle.
  unfold planned_chunk. cbn [fst snd].
  destruct (Z.eqb_spec i (n - 1)) as [->|Hne]; nia.
Qed.

End CoverFacts.

Module ServeFacts.

Lemma blocks_of_concat fuel bs data :
  (0 < bs)%nat → (length data <= fuel)%nat →
  concat (Net.blocks_of fuel bs data) = data.
Proof.
  intros Hbs. revert data. induction fuel as [|fuel IH]; intros data Hlen.
  - destruct data; [done|simpl in Hlen; lia].
  - destruct data as [|b data]; [done|].
    cbn [Net.blocks_of concat]. rewrite IH; [apply take_drop|].
    rewrite length_drop. simpl in *. lia.
Qed.

Lemma blocks_of_nonempty fuel bs data :
  (0 < bs)%nat → Forall (λ b, b ≠ []) (Net.blocks_of fuel bs data).
Proof.
  intros Hbs. revert data. induction fuel as [|fuel IH]; intros data.
  - destruct data; constructor.
  - destruct data as [|b data]; [constructor|].
    cbn [Net.blocks_of]. constructor; [|apply IH].
    destruct bs; [lia|done].
Qed.

Lemma before_empty_nonempty blocks :
  Forall (λ b : list byte, b ≠ []) blocks → before_empty blocks = blocks.
Proof.
  induction 1 as [|b blocks Hb _ IH]; [done|].
  destruct b; [done|]. cbn. by rewrite IH.
Qed.

(** The example server answers ranged requests with the bytes of the
    range. *)
Lemma serving_serves data u : serves (Net.serving data) u data.
Proof.
  split; [done|]. intros c _ _. unfold received. cbn.
  rewrite before_empty_nonempty by (apply blocks_of_nonempty; lia).
  by rewrite blocks_of_concat by lia.
Qed.

End ServeFacts.

(** X2. The segments that [get_file_info] records for a resource of
    [length data] bytes and a count [n >= 1], requested from a server that
    answers a byte range with the bytes of the range, come back as the
    whole resource: the bodies of the [n] ranges, in segment order,
    concatenate to [data], for the last range too, whose recorded end is
    the content length. *)
Theorem X2_planned_ranges_cover_the_resource net u n w data :
  Net.head net u = Net.HeadOk (Net.Value (Z.of_nat (length data))) →
  1 <= n →
  ∃ s' segments,
    get_file_info net (start u n w) = (Ret tt, s')
    ∧ chunks (self s') = Some <$> segments
    ∧ length segments = Z.to_nat n
    ∧ concat (Net.range_bytes data <$> segments) = data.
Proof.
  intros Hhead Hn.
  destruct (PlanFacts.get_file_info_run net (start u n w)
              (Net.Value (Z.of_nat (length data))))
    as (k & name & _ & ->); [done|done|unfold start; simpl; lia|].
  eexists. exists (plan (Z.of_nat (length data)) n).
  split; [done|]. split; [done|].
  split; [apply PlanFacts.plan_length|by apply CoverFacts.plan_served].
Qed.

(** X3. A download into a directory in which no file matches the part
    pattern of the output name and no part file of the plan exists, from a
    server that answers every satisfiable byte range with the bytes of the
    range: for a count [n] with [1 <= n <= L], so that every segment has at
    least one byte, and an output name under which a file can be created,
    the run returns normally, the output file holds exactly the resource,
    no part file is left, every other file is what it was, and one ranged
    request per planned segment has been sent. *)
Theorem X3_fresh_download_writes_the_resource net u n w data k name :
  serves net u data →
  1 <= n →
  n <= Z.of_nat (length data) →
  first_free (dir w) (Py.basename u) k name →
  Fs.plain name = true →
  Fs.glob (name +:+ ".part*") (dir w) = Some [] →
  (∀ i, (i < Z.to_nat n)%nat →
        Fs.isfile (part_name (Some name) i) (dir w) = false) →
  ∃ s',
    main net u n w = (Ret tt, s')
    ∧ filename (self s') = Some name
    ∧ Fs.read name (dir (os s')) = Some data
    ∧ (∀ i, (i < Z.to_nat n)%nat →
            Fs.isfile (part_name (Some name) i) (dir (os s')) = false)
    ∧ (∀ g, g ≠ name → g ∉ part_names name n →
            Fs.read g (dir (os s')) = Fs.read g (dir w))
    ∧ sent (os s')
      = sent w ++ Net.HEAD u :: (Net.GET u <$> plan (Z.of_nat (length data)) n).
Proof.
  intros [Hhead Hserves] Hn HnL Hff Hplain Hglob Hfresh.
  set (L := Z.of_nat (length data)) in *.
  destruct (PlanFacts.get_file_info_run net (start u n w) (Net.Value L))
    as (k' & name' & Hff' & Hinfo); [done|done|unfold start; simpl; lia|].
  destruct (ResumeFacts.first_free_unique _ _ _ _ _ _ Hff Hff') as [<- <-].
  set (s1 := {| self := planned (self (start u n w)) (length_of (Net.Value L)) name;
                os := sending (Net.HEAD (url (self (start u n w))))
                        (os (start u n w));
                bytecount := bytecount (start u n w) |}) in *.
  assert (resume_check s1 = (Ret tt, s1)) as Hresume.
  { apply FetchFacts.resume_check_fresh; [done|]. unfold s1, start. simpl. lia. }
  destruct (DownloadFacts.fetch_contents net (start u n w) s1)
    as (s2 & Hfetch & Hself & _ & Hsent & Hframe & Hparts).
  { change (content_length (self (start u n w)) =? 0) with true.
    cbv iota. by rewrite RunFacts.bind_run, Hinfo. }
  { unfold s1, start. simpl. lia. }
  unfold s1, start, planned, sending in Hself, Hsent, Hframe, Hparts.
  cbn [self os dir sent count init chunk_size length_of files filename url
       chunks app] in Hself, Hsent, Hframe, Hparts.
  rewrite length_fmap, PlanFacts.plan_length in Hself, Hframe.
  fold (part_names name n) in Hself, Hframe.
  destruct (StitchFacts.stitch_run s2 name (Net.range_bytes data <$> plan L n))
    as (d' & Hstitch & Hout & Hgone & Hother).
  - by rewrite Hself.
  - done.
  - rewrite Hself. cbn. unfold part_names.
    destruct (Z.to_nat n) eqn:E; [lia|done].
  - rewrite Hself. cbn. apply NameFacts.part_names_NoDup.
  - rewrite Hself. cbn. intros Hin.
    by destruct (NameFacts.part_names_fresh _ _ _ _ Hin).
  - rewrite Hself. cbn. intros Hin.
    by destruct (NameFacts.part_names_fresh _ _ _ _ Hin).
  - rewrite Hself. cbn. unfold part_names.
    apply Forall2_fmap, Forall2_same_length_lookup.
    split; [by rewrite length_seq, PlanFacts.plan_length|].
    intros i j c Hj Hc. apply lookup_seq in Hj as [-> Hi]. cbn.
    rewrite (Hparts i (Some c)) by by rewrite list_lookup_fmap, Hc.
    rewrite <- (Nat2Z.id i) in Hc at 1.
    rewrite PlanFacts.plan_lookup in Hc by lia. injection Hc as <-.
    destruct (CoverFacts.planned_satisfiable L n (Z.of_nat i)) as [Hrange Hin];
      [lia..|].
    unfold fetched. rewrite Hserves by done.
    specialize (Hfresh i Hi). unfold Fs.isfile in Hfresh.
    by destruct (Fs.read _ (dir w)).
  - exists (with_dir d' s2). split; [|split; [|split; [|split; [|split]]]].
    + change (main net u n w) with ((fetch net;; stitch) (start u n w)).
      by rewrite RunFacts.bind_run, Hfetch.
    + cbn. by rewrite Hself.
    + cbn. by rewrite Hout, CoverFacts.plan_served.
    + intros i Hi. cbn. unfold Fs.isfile. rewrite Hgone; [done|].
      rewrite Hself. cbn. unfold part_names.
      apply list_elem_of_fmap. exists i. split; [done|].
      apply elem_of_seq. lia.
    + intros g Hname Hg. cbn. rewrite Hother, Hframe; try done.
      by rewrite Hself.
    + cbn. rewrite Hsent, <- app_assoc. do 2 f_equal.
      unfold requests_of. f_equal.
      generalize (plan L n). intros l. induction l as [|c l IH]; [done|].
      cbn. by rewrite IH.
Qed.

(* ===================================================================== *)
(** ** Resuming partial part files *)
(* ===================================================================== *)

Module ResumeRunFacts.
Import FsFacts RunFacts.

(** One turn of the loop of [resume_check] on a part file it accepts. *)
Lemma resume_step_accepts globs sizes new_chunks i f s data c :
  Fs.read f (dir (os s)) = Some data →
  chunks (self s) !! i = Some (Some c) →
  ¬ mismatch (chunk_size (self s)) c data →
  resume_step globs (sizes, new_chunks) (i, f) s
  = (Ret (sizes ++ [Z.of_nat (length data)],
          new_chunks
          ++ [resumed (chunk_size (self s)) i c (Z.of_nat (length data))]),
     {| self := set_startcount
                  (startcount (self s) ++ [Z.of_nat (length data)]) (self s);
        os := os s; bytecount := bytecount s |}).
Proof.
  intros Hread Hchunk Hok. unfold resume_step, getsize, chunk_at, resumed.
  mrun. rewrite Hread. mrun.
  destruct (Z.eqb_spec (Z.of_nat (length data)) (chunk_size (self s)))
    as [Heq|Hne]; mrun; [done|].
  rewrite Hchunk.
  destruct (negb _ && _) eqn:Hbranch; mrun; [done|].
  by destruct Hok.
Qed.

(** The loop of [resume_check] over part files it accepts. *)
Lemma resume_loop_accepts globs0 globs :
  ∀ j sizes new_chunks s datas,
    Forall2 (λ f d, Fs.read f (dir (os s)) = Some d) globs datas →
    (∀ k d, datas !! k = Some d →
            ∃ c, chunks (self s) !! (j + k)%nat = Some (Some c)
                 ∧ ¬ mismatch (chunk_size (self s)) c d) →
    ∃ new,
      for_fold (Py.enumerate_from j globs) (resume_step globs0)
        (sizes, new_chunks) s
      = (Ret (sizes ++ ((λ d, Z.of_nat (length d)) <$> datas),
              new_chunks ++ new),
         {| self := set_startcount
                      (startcount (self s)
                       ++ ((λ d, Z.of_nat (length d)) <$> datas)) (self s);
            os := os s; bytecount := bytecount s |})
      ∧ length new = length globs
      ∧ ∀ k d c,
          datas !! k = Some d →
          chunks (self s) !! (j + k)%nat = Some (Some c) →
          new !! k
          = Some (resumed (chunk_size (self s)) (j + k) c (Z.of_nat (length d))).
Proof.
  induction globs as [|f globs IH]; intros j sizes new_chunks s datas Hall Hok.
  - apply Forall2_nil_inv_l in Hall as ->. exists [].
    cbn. rewrite !app_nil_r. split; [by destruct s as [[] ? ?]|]. by split.
  - apply Forall2_cons_inv_l in Hall as (d & datas' & Hd & Hall & ->).
    destruct (Hok 0%nat d eq_refl) as (c & Hc & Hacc).
    rewrite Nat.add_0_r in Hc.
    cbn [Py.enumerate_from]. rewrite ResumeFacts.for_fold_cons.
    rewrite (resume_step_accepts globs0 sizes new_chunks j f s d c) by done.
    set (s1 := {| self := _; os := _; bytecount := _ |}).
    destruct (IH (S j) (sizes ++ [Z.of_nat (length d)])
                (new_chunks
                 ++ [resumed (chunk_size (self s)) j c (Z.of_nat (length d))])
                s1 datas')
      as (new & -> & Hlen & Hnew).
    { done. }
    { intros k d' Hk. destruct (Hok (S k) d' Hk) as (c' & Hc' & Hacc').
      exists c'. split; [|done]. unfold s1. cbn.
      by rewrite <- Hc', Nat.add_succ_r. }
    exists (resumed (chunk_size (self s)) j c (Z.of_nat (length d)) :: new).
    split; [|split].
    + unfold s1. cbn. by rewrite <- !app_assoc.
    + cbn. by rewrite Hlen.
    + intros [|k] d' c' Hk Hc'.
      * injection Hk as <-. rewrite Nat.add_0_r in Hc' |- *.
        cbn. congruence.
      * cbn in Hk |- *. replace (j + S k)%nat with (S j + k)%nat in * by lia.
        by apply (Hnew k d' c').
Qed.

(** [resume_check] on part files it accepts: every one gets its entry of the
    new plan and its size in [startcount]. *)
Lemma resume_check_accepts s name globs datas :
  filename (self s) = Some name →
  Fs.glob (name +:+ ".part*") (dir (os s)) = Some globs →
  Z.of_nat (length globs) = count (self s) →
  Forall2 (λ f d, Fs.read f (dir (os s)) = Some d) globs datas →
  (∀ k d, datas !! k = Some d →
          ∃ c, chunks (self s) !! k = Some (Some c)
               ∧ ¬ mismatch (chunk_size (self s)) c d) →
  ∃ s',
    resume_check s = (Ret tt, s')
    ∧ same_names s s'
    ∧ length (chunks (self s')) = length globs
    ∧ startcount (self s')
      = startcount (self s) ++ ((λ d, Z.of_nat (length d)) <$> datas)
    ∧ ∀ k d c,
        datas !! k = Some d →
        chunks (self s) !! k = Some (Some c) →
        chunks (self s') !! k
        = Some (resumed (chunk_size (self s)) k c (Z.of_nat (length d))).
Proof.
  intros Hname Hglob Hlen Hall Hok. unfold resume_check, glob_glob. mrun.
  rewrite Hname. change (str_of (Some name)) with name. rewrite Hglob. mrun.
  rewrite Hlen, Z.eqb_refl. unfold Py.enumerate.
  destruct (resume_loop_accepts globs globs 0 [] [] s datas Hall Hok)
    as (new & -> & Hnewlen & Hnew).
  mrun. eexists. split; [done|]. cbn. split; [by repeat split|].
  split; [done|]. split; [done|]. exact Hnew.
Qed.

End ResumeRunFacts.

Module ResumeDataFacts.

Section Divisible.

Variable data : list byte.
Variable n : Z.
Let L := Z.of_nat (length data).
Let cs := L / n.
Hypothesis Hn : 1 <= n.
Hypothesis Hmod : L `mod` n = 0.

Lemma exact_chunks : L = n * cs ∧ 0 <= cs.
Proof.
  unfold cs. pose proof (Z.div_mod L n ltac:(lia)).
  split; [lia|]. apply Z.div_pos; lia.
Qed.

(** With a count that divides the length every segment, as served, is the
    slice of [chunk_size] bytes at its start offset. *)
Lemma segment_bytes i :
  0 <= i < n →
  Net.range_bytes data (planned_chunk L n i)
  = take (Z.to_nat cs) (drop (Z.to_nat (i * cs)) data).
Proof.
  intros Hi. destruct exact_chunks as [HL Hcs].
  destruct (decide (i = n - 1)) as [->|Hne].
  - rewrite PlanFacts.planned_last. unfold Net.range_bytes. fold cs.
    rewrite !take_ge; [done|rewrite length_drop; nia..].
  - rewrite PlanFacts.planned_inner by lia. unfold Net.range_bytes. fold cs.
    f_equal. lia.
Qed.

Lemma segment_length i :
  0 <= i < n →
  length (Net.range_bytes data (planned_chunk L n i)) = Z.to_nat cs.
Proof.
  intros Hi. destruct exact_chunks as [HL Hcs].
  rewrite segment_bytes by done. rewrite length_take, length_drop. nia.
Qed.

(** A part file that holds a prefix of its segment, once the entry that
    [resume_check] wrote for it has been fetched, holds the segment. *)
Lemma resumed_part net u i p :
  (∀ c, 0 <= c.1 <= c.2 → c.1 < L →
        received net u c = Some (Net.range_bytes data c)) →
  (i < Z.to_nat n)%nat →
  p `prefix_of` Net.range_bytes data (planned_chunk L n (Z.of_nat i)) →
  fetched net u
    (resumed cs i (planned_chunk L n (Z.of_nat i)) (Z.of_nat (length p)))
    (Some p)
  = Some (Net.range_bytes data (planned_chunk L n (Z.of_nat i))).
Proof.
  intros Hserves Hi Hprefix. destruct exact_chunks as [HL Hcs].
  pose proof (segment_length (Z.of_nat i) ltac:(lia)) as Hlen.
  pose proof (prefix_length _ _ Hprefix) as Hle.
  destruct Hprefix as [rest Hrest].
  unfold resumed, fetched.
  destruct (Z.eqb_spec (Z.of_nat (length p)) cs) as [Heq|Hne].
  - rewrite Hrest in Hlen. rewrite length_app in Hlen.
    destruct rest; [by rewrite Hrest, app_nil_r|simpl in Hlen; lia].
  - rewrite Hserves.
    2,3: unfold planned_chunk; cbn [fst snd]; fold cs;
      destruct (Z.of_nat i =? n - 1); nia.
    rewrite Hrest. cbn [default]. do 2 f_equal.
    rewrite <- (drop_app_length p rest), <- Hrest.
    rewrite segment_bytes by lia.
    unfold Net.range_bytes, planned_chunk. cbn [fst snd]. fold cs.
    rewrite skipn_firstn_comm, drop_drop. f_equal; [lia|f_equal; lia].
Qed.

(** [resume_check] accepts such a part file, unless it is the first of
    several and one byte short of the chunk size. *)
Lemma prefix_accepted i p :
  (i < Z.to_nat n)%nat →
  p `prefix_of` Net.range_bytes data (planned_chunk L n (Z.of_nat i)) →
  (2 <= n → i = 0%nat → Z.of_nat (length p) ≠ cs - 1) →
  ¬ mismatch cs (planned_chunk L n (Z.of_nat i)) p.
Proof.
  intros Hi Hprefix Hfirst [Hne Hbranch]. destruct exact_chunks as [HL Hcs].
  pose proof (segment_length (Z.of_nat i) ltac:(lia)) as Hlen.
  pose proof (prefix_length _ _ Hprefix) as Hle.
  apply andb_false_iff in Hbranch as [Hend%negb_false_iff%Z.eqb_eq|Hlt%Z.ltb_ge];
    [|lia].
  destruct (decide (Z.of_nat i = n - 1)) as [Hlast|Hinner].
  - rewrite Hlast, PlanFacts.planned_last in Hend. cbn in Hend. nia.
  - rewrite PlanFacts.planned_inner in Hend by lia. cbn in Hend. fold cs in Hend.
    destruct i as [|i]; [apply Hfirst; [lia|done|lia]|nia].
Qed.

End Divisible.

End ResumeDataFacts.

(** X4. Resuming works when the count divides the content length. Let the
    server answer every satisfiable byte range with the bytes of the range,
    let the output name be one under which a file can be created, let
    [glob] list exactly the [n] part files, by index, each holding a prefix
    (possibly empty, possibly all) of the bytes of its segment, and, when
    there are several segments, let the first part file not be exactly one
    byte short of the chunk size. Then [resume_check] accepts every part
    file, the run fetches only what is missing, returns normally with the
    output file holding exactly the resource, records the sizes found in
    [startcount], removes the part files and leaves every other file as it
    was. *)
Theorem X4_resume_completes_the_resource net u n w data k name parts :
  serves net u data →
  1 <= n →
  Z.of_nat (length data) `mod` n = 0 →
  first_free (dir w) (Py.basename u) k name →
  Fs.plain name = true →
  Fs.glob (name +:+ ".part*") (dir w) = Some (part_names name n) →
  Forall2 (λ i p,
      Fs.read (part_name (Some name) i) (dir w) = Some p
      ∧ p `prefix_of`
          Net.range_bytes data
            (planned_chunk (Z.of_nat (length data)) n (Z.of_nat i)))
    (seq 0 (Z.to_nat n)) parts →
  (2 <= n → ∀ p, parts !! 0%nat = Some p →
     Z.of_nat (length p) ≠ Z.of_nat (length data) / n - 1) →
  ∃ s',
    main net u n w = (Ret tt, s')
    ∧ Fs.read name (dir (os s')) = Some data
    ∧ startcount (self s') = (λ p, Z.of_nat (length p)) <$> parts
    ∧ (∀ i, (i < Z.to_nat n)%nat →
            Fs.isfile (part_name (Some name) i) (dir (os s')) = false)
    ∧ ∀ g, g ≠ name → g ∉ part_names name n →
           Fs.read g (dir (os s')) = Fs.read g (dir w).
Proof.
  intros [Hhead Hserves] Hn Hmod Hff Hplain Hglob Hparts Hfirst.
  set (L := Z.of_nat (length data)) in *.
  assert (length parts = Z.to_nat n) as Hnparts
    by by rewrite <- (Forall2_length _ _ _ Hparts), length_seq.
  destruct (PlanFacts.get_file_info_run net (start u n w) (Net.Value L))
    as (k' & name' & Hff' & Hinfo); [done|done|unfold start; simpl; lia|].
  destruct (ResumeFacts.first_free_unique _ _ _ _ _ _ Hff Hff') as [<- <-].
  set (s0 := {| self := planned (self (start u n w)) (length_of (Net.Value L)) name;
                os := sending (Net.HEAD (url (self (start u n w))))
                        (os (start u n w));
                bytecount := bytecount (start u n w) |}) in *.
  assert (∀ i, (i < Z.to_nat n)%nat →
               chunks (self s0) !! i
               = Some (Some (planned_chunk L n (Z.of_nat i)))) as Hchunks.
  { intros i Hi. unfold s0, start, planned. cbn.
    rewrite list_lookup_fmap. rewrite <- (Nat2Z.id i) at 1.
    by rewrite PlanFacts.plan_lookup by lia. }
  destruct (ResumeRunFacts.resume_check_accepts s0 name (part_names name n)
              parts)
    as (s1 & Hresume & Hkeep & Hlen & Hsc & Hnew).
  { done. }
  { done. }
  { unfold s0, start, sending, planned. cbn [self os dir count init]. cbv zeta.
    rewrite SegmentFacts.part_names_length. lia. }
  { unfold s0, start, sending, planned. cbn [self os dir]. cbv zeta.
    unfold part_names. apply Forall2_fmap_l.
    eapply Forall2_impl; [exact Hparts|]. by intros i p [? _]. }
  { intros i p Hp.
    assert (i < Z.to_nat n)%nat as Hi
      by (rewrite <- Hnparts; by eapply lookup_lt_Some).
    exists (planned_chunk L n (Z.of_nat i)). split; [by apply Hchunks|].
    assert (seq 0 (Z.to_nat n) !! i = Some i) as Hseq by by apply lookup_seq.
    pose proof (Forall2_lookup_lr _ _ _ i i p Hparts Hseq Hp) as [_ Hprefix].
    unfold s0, start, planned. cbn [self chunk_size count init length_of].
    apply (ResumeDataFacts.prefix_accepted data n Hn Hmod i p Hi Hprefix).
    intros Hn2 ->. by apply Hfirst. }
  destruct Hkeep as (Hfs & Hname & Hurl & Hcount & Hdir & Hsent).
  unfold s0, start, sending, planned
    in Hlen, Hsc, Hnew, Hfs, Hname, Hurl, Hcount, Hdir, Hsent.
  cbn [self os dir sent count init chunk_size length_of files filename url
       startcount app]
    in Hlen, Hsc, Hnew, Hfs, Hname, Hurl, Hcount, Hdir, Hsent.
  rewrite SegmentFacts.part_names_length in Hlen.
  destruct (DownloadFacts.fetch_contents net (start u n w) s1)
    as (s2 & Hfetch & Hself & _ & _ & Hframe & Hfetched).
  { change (content_length (self (start u n w)) =? 0) with true.
    cbv iota. by rewrite RunFacts.bind_run, Hinfo. }
  { lia. }
  rewrite Hfs, Hname, Hurl, Hlen in *. cbn [app] in Hself.
  fold (part_names name n) in Hself, Hframe.
  destruct (StitchFacts.stitch_run s2 name (Net.range_bytes data <$> plan L n))
    as (d' & Hstitch & Hout & Hgone & Hother).
  - by rewrite Hself.
  - done.
  - rewrite Hself. cbn. unfold part_names.
    destruct (Z.to_nat n) eqn:E; [lia|done].
  - rewrite Hself. cbn. apply NameFacts.part_names_NoDup.
  - rewrite Hself. cbn. intros Hin.
    by destruct (NameFacts.part_names_fresh _ _ _ _ Hin).
  - rewrite Hself. cbn. intros Hin.
    by destruct (NameFacts.part_names_fresh _ _ _ _ Hin).
  - rewrite Hself. cbn. unfold part_names.
    apply Forall2_fmap, Forall2_same_length_lookup.
    split; [by rewrite length_seq, PlanFacts.plan_length|].
    intros i j c Hj Hc. apply lookup_seq in Hj as [-> Hi]. cbn.
    rewrite <- (Nat2Z.id i) in Hc at 1.
    rewrite PlanFacts.plan_lookup in Hc by lia. injection Hc as <-.
    destruct (lookup_lt_is_Some_2 parts i) as [p Hp]; [lia|].
    assert (seq 0 (Z.to_nat n) !! i = Some i) as Hseq by by apply lookup_seq.
    pose proof (Forall2_lookup_lr _ _ _ i i p Hparts Hseq Hp) as [Hread Hprefix].
    rewrite (Hfetched i _ (Hnew i p _ Hp (Hchunks i Hi))).
    rewrite Hdir, Hread.
    by apply (ResumeDataFacts.resumed_part data n Hn Hmod net u i p).
  - exists (with_dir d' s2). split; [|split; [|split; [|split]]].
    + change (main net u n w) with ((fetch net;; stitch) (start u n w)).
      by rewrite RunFacts.bind_run, Hfetch.
    + cbn. by rewrite Hout, CoverFacts.plan_served.
    + cbn. by rewrite Hself.
    + intros i Hi. cbn. unfold Fs.isfile. rewrite Hgone; [done|].
      rewrite Hself. cbn. unfold part_names.
      apply list_elem_of_fmap. exists i. split; [done|].
      apply elem_of_seq. lia.
    + intros g Hg Hnotin. cbn. rewrite Hother, Hframe, Hdir; try done.
      by rewrite Hself.
Qed.

(* ===================================================================== *)
(** ** Runs that end early *)
(* ===================================================================== *)

(** X5. When the metadata request fails, or its [Content-Length] is not a
    number, the run ends with the exception ([ConnectionError] or
    [ValueError]) right after the request: the object is as [Axel(url,
    count)] made it (no plan, no file name), nothing has been printed, no
    file has been touched and no ranged request has been sent. *)
Theorem X5_failed_metadata_request_stops_the_run net u n w e :
  (Net.head net u = Net.HeadFails ∧ e = ConnectionError)
  ∨ (Net.head net u = Net.HeadOk Net.Malformed ∧ e = ValueError) →
  main net u n w
  = (Raise e,
     {| self := init u n; os := sending (Net.HEAD u) w; bytecount := [] |}).
Proof.
  intros [[Hhead ->]|[Hhead ->]];
    unfold main, fetch_n_stitch, fetch, get_file_info, init, sending; mrun;
    change (0 =? 0) with true; mrun;
    by rewrite Hhead.
Qed.

(** X6. A count of zero makes the planner divide by zero: after a
    well-formed metadata response the run ends with [ZeroDivisionError]; the
    content length has been stored, but there is no plan and no file name,
    no file has been touched and no ranged request has been sent. *)
Theorem X6_zero_count_divides_by_zero net u w h :
  Net.head net u = Net.HeadOk h →
  h ≠ Net.Malformed →
  main net u 0 w
  = (Raise ZeroDivisionError,
     {| self := set_content_length (length_of h) (init u 0);
        os := sending (Net.HEAD u) w; bytecount := [] |}).
Proof.
  intros Hhead Hh.
  unfold main, fetch_n_stitch, fetch, get_file_info, init, sending. mrun.
  change (0 =? 0) with true. mrun. rewrite Hhead.
  by destruct h.
Qed.

(** X7. A part file that is larger than the chunk size, wherever the
    listing has it, stops the run before any fetch: when the number of
    files that [glob] lists for the part pattern equals the count and one
    of them holds more than [L / n] bytes,
    the run ends with [sys.exit(1)], the plan is still the planner's, no
    file has been touched and no ranged request has been sent. *)
Theorem X7_oversized_part_file_aborts net u n w L k name globs i f data :
  Net.head net u = Net.HeadOk (Net.Value L) →
  1 <= n →
  first_free (dir w) (Py.basename u) k name →
  Fs.glob (name +:+ ".part*") (dir w) = Some globs →
  Z.of_nat (length globs) = n →
  globs !! i = Some f →
  Fs.read f (dir w) = Some data →
  L / n < Z.of_nat (length data) →
  ∃ s',
    main net u n w = (Exit 1, s')
    ∧ chunks (self s') = Some <$> plan L n
    ∧ dir (os s') = dir w
    ∧ sent (os s') = sent w ++ [Net.HEAD u].
Proof.
  intros Hhead Hn Hff Hglob Hlen Hi Hread Hsize.
  destruct (PlanFacts.get_file_info_run net (start u n w) (Net.Value L))
    as (k' & name' & Hff' & Hinfo); [done|done|unfold start; simpl; lia|].
  destruct (ResumeFacts.first_free_unique _ _ _ _ _ _ Hff Hff') as [<- <-].
  set (s1 := {| self := planned (self (start u n w)) (length_of (Net.Value L)) name;
                os := sending (Net.HEAD (url (self (start u n w))))
                        (os (start u n w));
                bytecount := bytecount (start u n w) |}) in *.
  assert (i < Z.to_nat n)%nat as Hin
    by (apply lookup_lt_Some in Hi; lia).
  destruct (ResumeFacts.resume_check_mismatch s1 name globs i f data
              (planned_chunk L n (Z.of_nat i)))
    as (s' & Hexit & Hdir & Hsent & Hch & _); subst s1;
    unfold start, sending, planned in *;
    cbn [self os bytecount dir sent filename chunks chunk_size count
         init length_of app] in *.
  - done.
  - done.
  - done.
  - intros j Hj. exists (planned_chunk L n (Z.of_nat j)).
    rewrite list_lookup_fmap.
    rewrite <- (Nat2Z.id j) at 1. by rewrite PlanFacts.plan_lookup by lia.
  - done.
  - done.
  - rewrite list_lookup_fmap.
    rewrite <- (Nat2Z.id i) at 1. by rewrite PlanFacts.plan_lookup by lia.
  - split; [lia|]. apply andb_false_iff. right. apply Z.ltb_ge. lia.
  - exists s'. split.
    + unfold main. by eapply ResumeFacts.fetch_n_stitch_exit.
    + by rewrite Hch, Hdir, Hsent.
Qed.

(* ===================================================================== *)
(** ** Stitching when a part file is missing *)
(* ===================================================================== *)

Module MissingPartFacts.
Import FsFacts RunFacts.

Lemma for_each_app {A} (l1 l2 : list A) (body : A → M unit) s s1 :
  for_each l1 body s = (Ret tt, s1) →
  for_each (l1 ++ l2) body s = for_each l2 body s1.
Proof.
  revert s. induction l1 as [|x l1 IH]; intros s.
  - by intros [= ->].
  - cbn [app]. rewrite !for_each_cons.
    destruct (body x s) as [[[]|c|e|] s']; try done. apply IH.
Qed.

Lemma input_of_missing f s :
  f ≠ "-" → Fs.read f (dir (os s)) = None →
  input_of f s = (Raise IOError, s).
Proof.
  intros Hf Hread. unfold input_of.
  destruct (String.eqb_spec f "-") as [->|_]; [done|].
  mrun. by rewrite Hread.
Qed.

(** [stitch] on a list of part files whose first missing one is [f]. *)
Lemma stitch_missing s out pre f post contents :
  filename (self s) = Some out →
  Fs.plain out = true →
  files (self s) = pre ++ f :: post →
  out ∉ pre → "-" ∉ pre → f ≠ "-" → f ≠ out →
  Forall2 (λ g c, Fs.read g (dir (os s)) = Some c) pre contents →
  Fs.read f (dir (os s)) = None →
  ∃ d',
    stitch s = (Raise IOError, with_dir d' s)
    ∧ Fs.read out d' = Some (concat contents)
    ∧ ∀ g, g ≠ out → Fs.read g d' = Fs.read g (dir (os s)).
Proof.
  intros Hname Hplain Hfiles Hout Hdash Hfd Hfo Hall Hmiss.
  unfold stitch.
  rewrite bind_run, get_self_run, bind_run, (the_filename_run s out) by done.
  rewrite bind_run, (StitchFacts.open_w_plain out s) by done.
  rewrite bind_run. rewrite Hfiles.
  assert (match pre ++ f :: post with [] => ["-"] | g :: fs => g :: fs end
          = pre ++ f :: post) as -> by by destruct pre.
  destruct (StitchFacts.copy_files out pre contents
              (with_dir (Fs.write out [] (dir (os s))) s) [])
    as (d1 & Hcopy & Hout1 & Hother1);
    [done|done| |by cbn; rewrite read_write_eq|].
  { apply Forall2_same_length_lookup. split; [by eapply Forall2_length|].
    intros i g c Hg Hc. cbn. rewrite read_write_ne.
    - exact (Forall2_lookup_lr _ _ _ i g c Hall Hg Hc).
    - intros ->. apply Hout. by eapply list_elem_of_lookup_2. }
  erewrite for_each_app by exact Hcopy.
  rewrite for_each_cons, bind_run, input_of_missing; [|done|].
  - exists d1. split; [done|]. split; [done|].
    intros g Hg. rewrite Hother1 by done. cbn. by rewrite read_write_ne.
  - cbn. rewrite Hother1 by done. cbn. by rewrite read_write_ne.
Qed.

End MissingPartFacts.

(** X8. When a part file named in [files] is missing, and the output name
    is one under which a file can be created in the working directory,
    [stitch] has already opened the output file and copied the part files
    listed before the missing one: it ends with [IOError], the output file
    holds the concatenation of those part files only, and no part file has
    been deleted (every file but the output is what it was). *)
Theorem X8_stitch_stops_at_a_missing_part s out pre f post contents :
  filename (self s) = Some out →
  Fs.plain out = true →
  files (self s) = pre ++ f :: post →
  out ∉ pre → "-" ∉ pre → f ≠ "-" → f ≠ out →
  Forall2 (λ g c, Fs.read g (dir (os s)) = Some c) pre contents →
  Fs.read f (dir (os s)) = None →
  ∃ s',
    stitch s = (Raise IOError, s')
    ∧ self s' = self s
    ∧ sent (os s') = sent (os s)
    ∧ Fs.read out (dir (os s')) = Some (concat contents)
    ∧ ∀ g, g ≠ out → Fs.read g (dir (os s')) = Fs.read g (dir (os s)).
Proof.
  intros Hname Hplain Hfiles Hout Hdash Hfd Hfo Hall Hmiss.
  destruct (MissingPartFacts.stitch_missing s out pre f post contents)
    as (d' & Hrun & Hread & Hother); [done..|].
  by exists (with_dir d' s).
Qed.

(** X9. A fresh download (no file matches the part pattern of the output
    name, no part file of the plan exists, and the output name is one under
    which a file can be created) in which the ranged request for segment
    [i] is refused, while those for the segments before it are answered:
    every ranged request is still sent, and the run
    ends with the [IOError] of [stitch], which finds no part file for
    segment [i]. The output file is left holding what was received for the
    segments before [i] only, and the part files of the answered segments
    are left behind with what was received for them. *)
Theorem X9_refused_range_leaves_a_truncated_output net u n w L k name i :
  Net.head net u = Net.HeadOk (Net.Value L) →
  1 <= n →
  first_free (dir w) (Py.basename u) k name →
  Fs.plain name = true →
  Fs.glob (name +:+ ".part*") (dir w) = Some [] →
  (∀ j, (j < Z.to_nat n)%nat →
        Fs.isfile (part_name (Some name) j) (dir w) = false) →
  (i < Z.to_nat n)%nat →
  Net.get net u (planned_chunk L n (Z.of_nat i)) = Net.GetFails →
  (∀ j, (j < i)%nat →
        Net.get net u (planned_chunk L n (Z.of_nat j)) ≠ Net.GetFails) →
  ∃ s',
    main net u n w = (Raise IOError, s')
    ∧ filename (self s') = Some name
    ∧ Fs.read name (dir (os s'))
      = Some (concat ((λ j, default []
                              (received net u (planned_chunk L n (Z.of_nat j))))
                      <$> seq 0 i))
    ∧ (∀ j, (j < Z.to_nat n)%nat →
            Fs.read (part_name (Some name) j) (dir (os s'))
            = received net u (planned_chunk L n (Z.of_nat j)))
    ∧ (∀ g, g ≠ name → g ∉ part_names name n →
            Fs.read g (dir (os s')) = Fs.read g (dir w))
    ∧ sent (os s') = sent w ++ Net.HEAD u :: (Net.GET u <$> plan L n).
Proof.
  intros Hhead Hn Hff Hplain Hglob Hfresh Hi Hfail Hbefore.
  destruct (PlanFacts.get_file_info_run net (start u n w) (Net.Value L))
    as (k' & name' & Hff' & Hinfo); [done|done|unfold start; simpl; lia|].
  destruct (ResumeFacts.first_free_unique _ _ _ _ _ _ Hff Hff') as [<- <-].
  set (s1 := {| self := planned (self (start u n w)) (length_of (Net.Value L)) name;
                os := sending (Net.HEAD (url (self (start u n w))))
                        (os (start u n w));
                bytecount := bytecount (start u n w) |}) in *.
  assert (resume_check s1 = (Ret tt, s1)) as Hresume.
  { apply FetchFacts.resume_check_fresh; [done|]. unfold s1, start. simpl. lia. }
  destruct (DownloadFacts.fetch_contents net (start u n w) s1)
    as (s2 & Hfetch & Hself & _ & Hsent & Hframe & Hparts).
  { change (content_length (self (start u n w)) =? 0) with true.
    cbv iota. by rewrite RunFacts.bind_run, Hinfo. }
  { unfold s1, start. simpl. lia. }
  unfold s1, start, planned, sending in Hself, Hsent, Hframe, Hparts.
  cbn [self os dir sent count init chunk_size length_of files filename url
       chunks app] in Hself, Hsent, Hframe, Hparts.
  rewrite length_fmap, PlanFacts.plan_length in Hself, Hframe.
  fold (part_names name n) in Hself, Hframe.
  assert (∀ j, (j < Z.to_nat n)%nat →
            Fs.read (part_name (Some name) j) (dir (os s2))
            = received net u (planned_chunk L n (Z.of_nat j))) as Hleft.
  { intros j Hj.
    rewrite (Hparts j (Some (planned_chunk L n (Z.of_nat j)))).
    - unfold fetched. specialize (Hfresh j Hj). unfold Fs.isfile in Hfresh.
      destruct (Fs.read _ (dir w)); [done|].
      by destruct (received net u _).
    - rewrite list_lookup_fmap. rewrite <- (Nat2Z.id j) at 1.
      by rewrite PlanFacts.plan_lookup by lia. }
  assert (part_names name n
          = (part_name (Some name) <$> seq 0 i)
            ++ part_name (Some name) i
               :: (part_name (Some name) <$> seq (S i) (Z.to_nat n - S i)))
    as Hsplit.
  { unfold part_names.
    replace (Z.to_nat n) with (i + S (Z.to_nat n - S i))%nat at 1 by lia.
    by rewrite seq_app, fmap_app. }
  destruct (MissingPartFacts.stitch_missing s2 name
              (part_name (Some name) <$> seq 0 i) (part_name (Some name) i)
              (part_name (Some name) <$> seq (S i) (Z.to_nat n - S i))
              ((λ j, default []
                       (received net u (planned_chunk L n (Z.of_nat j))))
               <$> seq 0 i))
    as (d' & Hstitch & Hout & Hother).
  - by rewrite Hself.
  - done.
  - by rewrite Hself.
  - intros Hin. by destruct (NameFacts.part_names_fresh _ _ _ _ Hin).
  - intros Hin. by destruct (NameFacts.part_names_fresh _ _ _ _ Hin).
  - apply NameFacts.part_name_not_dash.
  - apply NameFacts.part_name_ne.
  - apply Forall2_fmap, Forall2_same_length_lookup. split; [done|].
    intros j j1 j2 Hj1 Hj2. apply lookup_seq in Hj1 as [-> Hj].
    apply lookup_seq in Hj2 as [-> _]. cbn.
    rewrite Hleft by lia. unfold received.
    specialize (Hbefore j Hj).
    by destruct (Net.get net u (planned_chunk L n (Z.of_nat j))).
  - rewrite Hleft by done. unfold received. by rewrite Hfail.
  - exists (with_dir d' s2). split; [|split; [|split; [|split; [|split]]]].
    + change (main net u n w) with ((fetch net;; stitch) (start u n w)).
      by rewrite RunFacts.bind_run, Hfetch.
    + cbn. by rewrite Hself.
    + done.
    + intros j Hj. cbn. rewrite Hother by apply NameFacts.part_name_ne.
      by apply Hleft.
    + intros g Hname Hg. cbn. by rewrite Hother, Hframe.
    + cbn. rewrite Hsent, <- app_assoc. do 2 f_equal.
      unfold requests_of. f_equal.
      generalize (plan L n). intros l. induction l as [|c l IH]; [done|].
      cbn. by rewrite IH.
Qed.

(* ===================================================================== *)
(** ** What the reconciler accepts *)
(* ===================================================================== *)

Module ReconcileFacts.

Lemma planned_entry (l : list (option (Z * Z))) segs datas k (d : list byte) :
  l = Some <$> segs → length segs = length datas →
  datas !! k = Some d →
  ∃ c, segs !! k = Some c ∧ l !! k = Some (Some c).
Proof.
  intros -> Hlen Hk. apply lookup_lt_Some in Hk as Hlt. rewrite <- Hlen in Hlt.
  destruct (lookup_lt_is_Some_2 segs k Hlt) as [c Hc].
  exists c. split; [done|]. by rewrite list_lookup_fmap, Hc.
Qed.

End ReconcileFacts.

(** X10. The reconciler, when the number of files that [glob] lists for
    the part pattern equals the count and every segment of the plan is
    still a range. If the size of
    every listed file is the chunk size, or is below it and differs from
    the end offset of the segment at the file's place in the listing, then
    [resume_check] returns: the sizes are appended to [startcount] in
    listing order, and the segment at place [k] becomes [None] for a size
    equal to the chunk size and the range from [start + size] to
    [(k + 1) * chunk_size - 1] otherwise. If one listed file fails that
    test, [resume_check] ends with [sys.exit(1)] and the plan is what it
    was. Either way no file is touched and no request is sent. *)
Theorem X10_reconciler_accepts_unless_a_size_is_off s name globs datas segs :
  filename (self s) = Some name →
  Fs.glob (name +:+ ".part*") (dir (os s)) = Some globs →
  Z.of_nat (length globs) = count (self s) →
  Forall2 (λ f d, Fs.read f (dir (os s)) = Some d) globs datas →
  chunks (self s) = Some <$> segs →
  length segs = length datas →
  ((∀ k d c, datas !! k = Some d → segs !! k = Some c →
             ¬ mismatch (chunk_size (self s)) c d) →
   ∃ s',
     resume_check s = (Ret tt, s')
     ∧ dir (os s') = dir (os s)
     ∧ sent (os s') = sent (os s)
     ∧ startcount (self s')
       = startcount (self s) ++ ((λ d, Z.of_nat (length d)) <$> datas)
     ∧ length (chunks (self s')) = length segs
     ∧ ∀ k d c,
         datas !! k = Some d → segs !! k = Some c →
         chunks (self s') !! k
         = Some (resumed (chunk_size (self s)) k c (Z.of_nat (length d))))
  ∧ ((∃ k d c, datas !! k = Some d ∧ segs !! k = Some c
               ∧ mismatch (chunk_size (self s)) c d) →
     ∃ s',
       resume_check s = (Exit 1, s')
       ∧ dir (os s') = dir (os s)
       ∧ sent (os s') = sent (os s)
       ∧ chunks (self s') = chunks (self s)).
Proof.
  intros Hname Hglob Hlen Hall Hchunks Hsegs. split.
  - intros Hok.
    destruct (ResumeRunFacts.resume_check_accepts s name globs datas)
      as (s' & Hrun & Hkeep & Hlen' & Hstart & Hnew); [done|done|done|done| |].
    { intros k d Hk.
      destruct (ReconcileFacts.planned_entry _ segs datas k d Hchunks Hsegs Hk)
        as (c & Hc & Hentry).
      exists c. split; [done|]. by apply (Hok k d c). }
    destruct Hkeep as (_ & _ & _ & _ & Hdir & Hsent).
    exists s'. split; [done|]. split; [done|]. split; [done|].
    split; [done|]. split.
    + rewrite Hlen', Hsegs. exact (Forall2_length _ _ _ Hall).
    + intros k d c Hk Hc. apply (Hnew k d c Hk).
      by rewrite Hchunks, list_lookup_fmap, Hc.
  - intros (k & d & c & Hk & Hc & Hmis).
    destruct (Forall2_lookup_r _ _ _ k d Hall Hk) as (f & Hf & Hread).
    destruct (ResumeFacts.resume_check_mismatch s name globs k f d c)
      as (s' & Hrun & Hdir & Hsent & Hch & _); try done.
    + intros j Hj.
      destruct (lookup_lt_is_Some_2 segs j) as [c' Hc'].
      { rewrite Hsegs, <- (Forall2_length _ _ _ Hall). done. }
      exists c'. by rewrite Hchunks, list_lookup_fmap, Hc'.
    + by rewrite Hchunks, list_lookup_fmap, Hc.
    + by exists s'.
Qed.

(* ===================================================================== *)
(** ** The start banner: [print_start] *)
(* ===================================================================== *)

Module StartFacts.
Import RunFacts.

Lemma glob_contents pattern d globs :
  Fs.glob pattern d = Some globs →
  ∃ datas, Forall2 (λ f c, Fs.read f d = Some c) globs datas.
Proof.
  intros Hglob.
  assert (∀ l, Forall (λ f, is_Some (Fs.read f d)) l →
               ∃ datas, Forall2 (λ f c, Fs.read f d = Some c) l datas) as Hall.
  { induction 1 as [|f l [c Hc] _ [datas IH]]; [by exists []|].
    exists (c :: datas). by constructor. }
  apply Hall, Forall_forall. intros f Hf. by eapply ResumeFacts.glob_read.
Qed.

Lemma print_start_run s name :
  filename (self s) = Some name →
  print_start s
  = (Ret tt,
     printing ["Initializing download: " +:+ url (self s);
               "File size: " +:+ Py.str (content_length (self s)) +:+ " bytes";
               "Output file: " +:+ name;
               (if bool_decide (startcount (self s) = [])
                then "Starting download" else "Resuming download") +:+ Py.nl]
       s).
Proof.
  intros Hname. unfold print_start, printing. mrun. rewrite Hname.
  change (str_of (Some name)) with name.
  destruct (decide (startcount (self s) = [])) as [Hnil|Hcons].
  - rewrite bool_decide_false by naive_solver. rewrite bool_decide_true by done.
    mrun. by rewrite <- !app_assoc.
  - rewrite bool_decide_true by done. rewrite bool_decide_false by done.
    mrun. by rewrite <- !app_assoc.
Qed.

(** The state in which the planning of a run returns: the plan has one
    entry per segment, nothing but the metadata request has been sent, no
    file has been touched, and [startcount] is empty exactly when no part
    file of the output name was found. *)
Lemma planning_returns net u n w s1 :
  1 <= n →
  (get_file_info net;; resume_check) (start u n w) = (Ret tt, s1) →
  ∃ name globs,
    filename (self s1) = Some name
    ∧ url (self s1) = u
    ∧ count (self s1) = n
    ∧ files (self s1) = []
    ∧ dir (os s1) = dir w
    ∧ sent (os s1) = sent w ++ [Net.HEAD u]
    ∧ Fs.glob (name +:+ ".part*") (dir w) = Some globs
    ∧ length (chunks (self s1)) = Z.to_nat n
    ∧ (startcount (self s1) = [] ↔ globs = []).
Proof.
  intros Hn Hplan.
  assert (∃ s0, get_file_info net (start u n w) = (Ret tt, s0)
                ∧ resume_check s0 = (Ret tt, s1)) as (s0 & Hinfo & Hresume).
  { rewrite bind_run in Hplan.
    destruct (get_file_info net (start u n w)) as [[[]|c|e|] s0]; try done.
    by exists s0. }
  destruct (KeepFacts.get_file_info_returns _ _ _ Hinfo) as (h & Hhead & Hh & Hc).
  destruct (PlanFacts.get_file_info_run net (start u n w) h Hhead Hh Hc)
    as (k & name & _ & Hinfo').
  rewrite Hinfo in Hinfo'. injection Hinfo' as ->.
  match type of Hresume with
  | resume_check ?s = _ =>
      pose proof (KeepFacts.resume_check_keeps s) as Hkeep; set (s0 := s) in *
  end.
  rewrite Hresume in Hkeep.
  destruct Hkeep as (Hfiles & Hname & Hurl & Hcount & Hdir & Hsent).
  assert (chunks (self s0) = Some <$> plan (length_of h) n) as Hchunks
    by reflexivity.
  exists name.
  destruct (Fs.glob (name +:+ ".part*") (dir (os s0))) as [globs|] eqn:Hglob.
  2: { revert Hresume. unfold resume_check, glob_glob. mrun.
       change (str_of (filename (self s0))) with name. by rewrite Hglob. }
  exists globs. do 6 (split; [done|]). split; [exact Hglob|].
  destruct globs as [|f0 globs].
  - rewrite (FetchFacts.resume_check_fresh s0) in Hresume; [|done|].
    + injection Hresume as <-.
      split; [by rewrite Hchunks, length_fmap, PlanFacts.plan_length|done].
    + unfold s0, start. simpl. lia.
  - destruct (decide (Z.of_nat (length (f0 :: globs)) = n)) as [Hlen|Hlen].
    + destruct (glob_contents _ _ _ Hglob) as [datas Hall].
      destruct (ResumeRunFacts.resume_check_accepts s0 name (f0 :: globs) datas)
        as (s' & Hrun & _ & Hlen' & Hstart & _).
      * done.
      * done.
      * done.
      * done.
      * intros i d Hi.
        destruct (Forall2_lookup_r _ _ _ i d Hall Hi) as (f & Hf & Hread).
        assert (i < Z.to_nat n)%nat as Hin.
        { apply lookup_lt_Some in Hf. lia. }
        exists (planned_chunk (length_of h) n (Z.of_nat i)).
        assert (chunks (self s0) !! i
                = Some (Some (planned_chunk (length_of h) n (Z.of_nat i))))
          as Hchunk.
        { rewrite Hchunks, list_lookup_fmap. rewrite <- (Nat2Z.id i) at 1.
          by rewrite PlanFacts.plan_lookup by lia. }
        split; [done|]. intros Hmis.
        destruct (ResumeFacts.resume_check_mismatch s0 name (f0 :: globs) i f d
                    (planned_chunk (length_of h) n (Z.of_nat i)))
          as (s' & Hexit & _); try done.
        -- intros j Hj.
           exists (planned_chunk (length_of h) n (Z.of_nat j)).
           rewrite Hchunks, list_lookup_fmap. rewrite <- (Nat2Z.id j) at 1.
           by rewrite PlanFacts.plan_lookup by lia.
        -- by rewrite Hexit in Hresume.
      * rewrite Hrun in Hresume. injection Hresume as <-.
        split; [rewrite Hlen'; lia|].
        split; [|done]. intros Hnil. rewrite Hstart in Hnil.
        apply Forall2_length in Hall.
        destruct datas; [done|]. by destruct (startcount (self s0)).
    + rewrite (ResumeFacts.resume_check_count_mismatch s0 name (f0 :: globs))
        in Hresume; done.
Qed.

End StartFacts.

(** X11. The banner of [print_start], printed once the planning of a run
    with count [n >= 1] has returned: it names the URL, the content length
    and the output file, and its last line is [Starting download] when
    [glob] listed no file for the part pattern of the output name and
    [Resuming download] when it listed files (which were accepted). Nothing but standard output
    changes. *)
Theorem X11_banner_tells_a_resume_from_a_start net u n w s1 :
  1 <= n →
  (get_file_info net;; resume_check) (start u n w) = (Ret tt, s1) →
  ∃ name,
    filename (self s1) = Some name
    ∧ print_start s1
      = (Ret tt,
         printing
           ["Initializing download: " +:+ u;
            "File size: " +:+ Py.str (content_length (self s1)) +:+ " bytes";
            "Output file: " +:+ name;
            (if bool_decide (Fs.glob (name +:+ ".part*") (dir w) = Some [])
             then "Starting download" else "Resuming download") +:+ Py.nl]
           s1).
Proof.
  intros Hn Hplan.
  destruct (StartFacts.planning_returns net u n w s1 Hn Hplan)
    as (name & globs & Hname & Hurl & _ & _ & _ & _ & Hglob & _ & Hiff).
  exists name. split; [done|].
  rewrite (StartFacts.print_start_run s1 name Hname), Hurl, Hglob.
  do 5 f_equal.
  destruct (decide (startcount (self s1) = [])) as [Hnil|Hcons].
  - rewrite !bool_decide_true; [done| |done]. f_equal. by apply Hiff.
  - rewrite !bool_decide_false; [done| |done].
    intros [= Hg]. by apply Hcons, Hiff.
Qed.

(* ===================================================================== *)
(** ** The run after the fetches *)
(* ===================================================================== *)

Module AfterFetchFacts.
Import RunFacts.

(** The run up to the Stitcher: whatever the server answers to the ranged
    requests, [fetch] returns with the part files named by index and each
    part file holding what its fetch left in it. *)
Lemma fetch_returns net u n w s1 out :
  1 <= n →
  (get_file_info net;; resume_check) (start u n w) = (Ret tt, s1) →
  filename (self s1) = Some out →
  ∃ s2,
    fetch net (start u n w) = (Ret tt, s2)
    ∧ main net u n w = stitch s2
    ∧ self s2 = set_files (part_names out n) (self s1)
    ∧ sent (os s2) = sent (os s1) ++ requests_of u (chunks (self s1))
    ∧ (∀ g, g ∉ part_names out n →
            Fs.read g (dir (os s2)) = Fs.read g (dir (os s1)))
    ∧ ∀ k chunk,
        chunks (self s1) !! k = Some chunk →
        Fs.read (part_name (Some out) k) (dir (os s2))
        = fetched net u chunk (Fs.read (part_name (Some out) k) (dir (os s1))).
Proof.
  intros Hn Hplan Hout.
  destruct (StartFacts.planning_returns net u n w s1 Hn Hplan)
    as (name & globs & Hname & Hurl & Hcount & Hfiles & _ & _ & _ & Hlen & _).
  rewrite Hout in Hname. injection Hname as <-.
  destruct (DownloadFacts.fetch_contents net (start u n w) s1)
    as (s2 & Hfetch & Hself & _ & Hsent & Hframe & Hparts).
  { change (content_length (self (start u n w)) =? 0) with true.
    cbv iota. exact Hplan. }
  { lia. }
  rewrite Hfiles, Hout, Hurl, Hlen in *. cbn [app] in Hself.
  fold (part_names out n) in Hself, Hframe.
  exists s2. split; [done|]. split; [|done].
  change (main net u n w) with ((fetch net;; stitch) (start u n w)).
  by rewrite bind_run, Hfetch.
Qed.

End AfterFetchFacts.

(** C2 (as the code has it). A segment fetch that fails ends its own task
    only. For a count [n >= 1] and an output name under which a file can be
    created, once the planning (metadata request and reconciliation) has
    returned, [fetch] returns normally whatever the server answered to the
    ranged requests, all of which have been sent, and each part file holds
    what it held before followed by what its fetch received. The run then
    is the run of the Stitcher on these part files. When all of them are
    there, the run returns normally, the output file holds their contents
    concatenated by index, and they are deleted. When one is missing (its
    request failed before the file was opened), the run ends with the
    [IOError] of the Stitcher, the output file holds the contents of the
    part files before the missing one, and no part file is deleted. *)
Theorem C2_stitcher_runs_after_failed_fetch net u n w s1 out :
  1 <= n →
  (get_file_info net;; resume_check) (start u n w) = (Ret tt, s1) →
  filename (self s1) = Some out →
  Fs.plain out = true →
  ∃ s2,
    fetch net (start u n w) = (Ret tt, s2)
    ∧ sent (os s2) = sent (os s1) ++ requests_of u (chunks (self s1))
    ∧ files (self s2) = part_names out n
    ∧ (∀ k chunk,
         chunks (self s1) !! k = Some chunk →
         Fs.read (part_name (Some out) k) (dir (os s2))
         = fetched net u chunk
             (Fs.read (part_name (Some out) k) (dir (os s1))))
    ∧ (∀ contents,
         Forall2 (λ f c, Fs.read f (dir (os s2)) = Some c)
           (part_names out n) contents →
         ∃ s',
           main net u n w = (Ret tt, s')
           ∧ Fs.read out (dir (os s')) = Some (concat contents)
           ∧ ∀ f, f ∈ part_names out n → Fs.isfile f (dir (os s')) = false)
    ∧ (∀ pre f post contents,
         part_names out n = pre ++ f :: post →
         Forall2 (λ g c, Fs.read g (dir (os s2)) = Some c) pre contents →
         Fs.read f (dir (os s2)) = None →
         ∃ s',
           main net u n w = (Raise IOError, s')
           ∧ Fs.read out (dir (os s')) = Some (concat contents)
           ∧ ∀ g, g ≠ out → Fs.read g (dir (os s')) = Fs.read g (dir (os s2))).
Proof.
  intros Hn Hplan Hout Hplain.
  destruct (AfterFetchFacts.fetch_returns net u n w s1 out Hn Hplan Hout)
    as (s2 & Hfetch & Hmain & Hself & Hsent & _ & Hparts).
  assert (files (self s2) = part_names out n) as Hfiles by by rewrite Hself.
  assert (filename (self s2) = Some out) as Hname by by rewrite Hself.
  assert (∀ g, g ∈ part_names out n → g ≠ out ∧ g ≠ "-") as Hfresh
    by (intros g Hg; by eapply NameFacts.part_names_fresh).
  exists s2. do 4 (split; [done|]). split.
  - intros contents Hall.
    destruct (StitchFacts.stitch_run s2 out contents)
      as (d' & Hstitch & Hread & Hgone & _).
    + done.
    + done.
    + rewrite Hfiles. unfold part_names.
      destruct (Z.to_nat n) eqn:E; [lia|done].
    + rewrite Hfiles. apply NameFacts.part_names_NoDup.
    + rewrite Hfiles. intros Hin. by destruct (Hfresh _ Hin).
    + rewrite Hfiles. intros Hin. by destruct (Hfresh _ Hin).
    + by rewrite Hfiles.
    + exists (with_dir d' s2). rewrite Hmain. split; [done|]. split; [done|].
      intros f Hf. unfold Fs.isfile. cbn. rewrite Hgone; [done|].
      by rewrite Hfiles.
  - intros pre f post contents Hsplit Hall Hmiss.
    assert (f ∈ part_names out n) as Hf
      by (rewrite Hsplit; apply elem_of_app; right; left).
    destruct (MissingPartFacts.stitch_missing s2 out pre f post contents)
      as (d' & Hstitch & Hread & Hother).
    + done.
    + done.
    + by rewrite Hfiles.
    + intros Hin. destruct (Hfresh out); [|done].
      rewrite Hsplit. apply elem_of_app. by left.
    + intros Hin. destruct (Hfresh "-") as [_ ?]; [|done].
      rewrite Hsplit. apply elem_of_app. by left.
    + by destruct (Hfresh f Hf).
    + by destruct (Hfresh f Hf).
    + done.
    + done.
    + exists (with_dir d' s2). by rewrite Hmain.
Qed.

(** X12. An output name that cannot be opened: the empty name, which
    [os.path.basename] gives for a URL that ends with a slash, or [.] or
    [..]. For a count [n >= 1] the run still plans, sends every ranged
    request and writes the part files; it then ends with the [IOError] of
    [open] in [stitch]: no output file is created and no part file is
    deleted. *)
Theorem X12_unopenable_output_name_fails_after_the_fetches net u n w s1 out :
  1 <= n →
  (get_file_info net;; resume_check) (start u n w) = (Ret tt, s1) →
  filename (self s1) = Some out →
  out = "" ∨ out = "." ∨ out = ".." →
  ∃ s2,
    fetch net (start u n w) = (Ret tt, s2)
    ∧ main net u n w = (Raise IOError, s2)
    ∧ sent (os s2) = sent (os s1) ++ requests_of u (chunks (self s1))
    ∧ (∀ g, g ∉ part_names out n →
            Fs.read g (dir (os s2)) = Fs.read g (dir (os s1)))
    ∧ ∀ k chunk,
        chunks (self s1) !! k = Some chunk →
        Fs.read (part_name (Some out) k) (dir (os s2))
        = fetched net u chunk (Fs.read (part_name (Some out) k) (dir (os s1))).
Proof.
  intros Hn Hplan Hout Hbad.
  destruct (AfterFetchFacts.fetch_returns net u n w s1 out Hn Hplan Hout)
    as (s2 & Hfetch & Hmain & Hself & Hsent & Hframe & Hparts).
  exists s2. split; [done|]. split; [|done].
  rewrite Hmain. unfold stitch.
  rewrite RunFacts.bind_run, RunFacts.get_self_run, RunFacts.bind_run.
  rewrite (RunFacts.the_filename_run s2 out) by by rewrite Hself.
  rewrite RunFacts.bind_run. unfold open_w.
  by destruct Hbad as [-> | [-> | ->]].
Qed.

(* ===================================================================== *)
(** ** The further theorems at concrete inputs *)
(* ===================================================================== *)

(** [ten] planned in three segments: the three ranges, as served, make up
    the ten bytes. *)
Lemma X2_ten_bytes_in_three_ranges :
  (Net.head (Net.serving ten) "http://h/f.bin"
   = Net.HeadOk (Net.Value (Z.of_nat (length ten)))
   ∧ 1 <= 3)
  ∧ ∃ s' segments,
      get_file_info (Net.serving ten) (start "http://h/f.bin" 3 (in_dir []))
      = (Ret tt, s')
      ∧ chunks (self s') = Some <$> segments
      ∧ length segments = Z.to_nat 3
      ∧ concat (Net.range_bytes ten <$> segments) = ten.
Proof.
  split; [split; [reflexivity|lia]|].
  apply (X2_planned_ranges_cover_the_resource (Net.serving ten)
           "http://h/f.bin" 3 (in_dir []) ten); [reflexivity|lia].
Defined.

(** [ten] downloaded in three segments into an empty directory. *)
Lemma X3_ten_bytes_into_an_empty_directory :
  (serves (Net.serving ten) "http://h/f.bin" ten
   ∧ 1 <= 3
   ∧ 3 <= Z.of_nat (length ten)
   ∧ first_free (dir (in_dir [])) (Py.basename "http://h/f.bin") 0 "f.bin"
   ∧ Fs.plain "f.bin" = true
   ∧ Fs.glob ("f.bin" +:+ ".part*") (dir (in_dir [])) = Some []
   ∧ (∀ i, (i < Z.to_nat 3)%nat →
           Fs.isfile (part_name (Some "f.bin") i) (dir (in_dir [])) = false))
  ∧ ∃ s',
      main (Net.serving ten) "http://h/f.bin" 3 (in_dir []) = (Ret tt, s')
      ∧ Fs.read "f.bin" (dir (os s')) = Some ten
      ∧ sent (os s')
        = [Net.HEAD "http://h/f.bin"; Net.GET "http://h/f.bin" (0, 2);
           Net.GET "http://h/f.bin" (3, 5); Net.GET "http://h/f.bin" (6, 10)].
Proof.
  assert (first_free (dir (in_dir [])) (Py.basename "http://h/f.bin") 0 "f.bin")
    as Hff by (apply (first_free_at_once [] "f.bin"); reflexivity).
  assert (∀ i, (i < Z.to_nat 3)%nat →
               Fs.isfile (part_name (Some "f.bin") i) (dir (in_dir [])) = false)
    as Hfresh by (intros i _; reflexivity).
  split.
  { split; [apply ServeFacts.serving_serves|]. split; [lia|].
    split; [vm_compute; discriminate|].
    split; [exact Hff|]. split; [reflexivity|].
    split; [reflexivity|exact Hfresh]. }
  destruct (X3_fresh_download_writes_the_resource (Net.serving ten)
              "http://h/f.bin" 3 (in_dir []) ten 0 "f.bin")
    as (s' & Hmain & _ & Hread & _ & _ & Hsent);
    [apply ServeFacts.serving_serves|lia|vm_compute; discriminate|exact Hff
    |reflexivity|reflexivity|exact Hfresh|].
  exists s'. split; [exact Hmain|]. split; [exact Hread|exact Hsent].
Defined.

(** [ten] in two segments, resumed from the first segment in full and two
    bytes of the second. *)
Lemma X4_ten_bytes_resumed_in_two :
  (serves (Net.serving ten) "http://h/f.bin" ten
   ∧ 1 <= 2
   ∧ Z.of_nat (length ten) `mod` 2 = 0
   ∧ first_free (dir (in_dir listed_by_index)) (Py.basename "http://h/f.bin")
       0 "f.bin"
   ∧ Fs.plain "f.bin" = true
   ∧ Fs.glob ("f.bin" +:+ ".part*") (dir (in_dir listed_by_index))
     = Some (part_names "f.bin" 2)
   ∧ Forall2 (λ i p,
         Fs.read (part_name (Some "f.bin") i) (dir (in_dir listed_by_index))
         = Some p
         ∧ p `prefix_of`
             Net.range_bytes ten
               (planned_chunk (Z.of_nat (length ten)) 2 (Z.of_nat i)))
       (seq 0 (Z.to_nat 2)) [[x30; x31; x32; x33; x34]; [x35; x36]]
   ∧ (2 <= 2 → ∀ p,
        [[x30; x31; x32; x33; x34]; [x35; x36]] !! 0%nat = Some p →
        Z.of_nat (length p) ≠ Z.of_nat (length ten) / 2 - 1))
  ∧ ∃ s',
      main (Net.serving ten) "http://h/f.bin" 2 (in_dir listed_by_index)
      = (Ret tt, s')
      ∧ Fs.read "f.bin" (dir (os s')) = Some ten
      ∧ startcount (self s') = [5; 2].
Proof.
  assert (first_free (dir (in_dir listed_by_index))
            (Py.basename "http://h/f.bin") 0 "f.bin")
    as Hff by (apply (first_free_at_once listed_by_index "f.bin"); reflexivity).
  assert (Forall2 (λ i p,
              Fs.read (part_name (Some "f.bin") i) (dir (in_dir listed_by_index))
              = Some p
              ∧ p `prefix_of`
                  Net.range_bytes ten
                    (planned_chunk (Z.of_nat (length ten)) 2 (Z.of_nat i)))
            (seq 0 (Z.to_nat 2)) [[x30; x31; x32; x33; x34]; [x35; x36]])
    as Hparts.
  { repeat constructor.
    - by exists [].
    - by exists [x37; x38; x39]. }
  assert (2 <= 2 → ∀ p,
            [[x30; x31; x32; x33; x34]; [x35; x36]] !! 0%nat = Some p →
            Z.of_nat (length p) ≠ Z.of_nat (length ten) / 2 - 1) as Hfirst.
  { intros _ p [= <-]. vm_compute. discriminate. }
  split.
  { split; [apply ServeFacts.serving_serves|]. split; [lia|].
    split; [reflexivity|]. split; [exact Hff|]. split; [reflexivity|].
    split; [reflexivity|]. split; [exact Hparts|exact Hfirst]. }
  destruct (X4_resume_completes_the_resource (Net.serving ten)
              "http://h/f.bin" 2 (in_dir listed_by_index) ten 0 "f.bin"
              [[x30; x31; x32; x33; x34]; [x35; x36]])
    as (s' & Hmain & Hread & Hstart & _);
    [apply ServeFacts.serving_serves|lia|reflexivity|exact Hff|reflexivity
    |reflexivity|exact Hparts|exact Hfirst|].
  exists s'. split; [exact Hmain|]. split; [exact Hread|exact Hstart].
Defined.

(** A server that cannot be reached: the run ends at the metadata
    request. *)
Lemma X5_unreachable_server :
  ((Net.head unreachable "http://h/f.bin" = Net.HeadFails
    ∧ ConnectionError = ConnectionError)
   ∨ (Net.head unreachable "http://h/f.bin" = Net.HeadOk Net.Malformed
      ∧ ConnectionError = ValueError))
  ∧ main unreachable "http://h/f.bin" 3 (in_dir [])
    = (Raise ConnectionError,
       {| self := init "http://h/f.bin" 3;
          os := sending (Net.HEAD "http://h/f.bin") (in_dir []);
          bytecount := [] |}).
Proof.
  split; [left; split; reflexivity|].
  apply (X5_failed_metadata_request_stops_the_run unreachable "http://h/f.bin"
           3 (in_dir []) ConnectionError).
  left. split; reflexivity.
Defined.

(** [ten] with a count of zero. *)
Lemma X6_ten_bytes_in_zero_segments :
  (Net.head (Net.serving ten) "http://h/f.bin" = Net.HeadOk (Net.Value 10)
   ∧ Net.Value 10 ≠ Net.Malformed)
  ∧ main (Net.serving ten) "http://h/f.bin" 0 (in_dir [])
    = (Raise ZeroDivisionError,
       {| self := set_content_length (length_of (Net.Value 10))
                    (init "http://h/f.bin" 0);
          os := sending (Net.HEAD "http://h/f.bin") (in_dir []);
          bytecount := [] |}).
Proof.
  split; [split; [reflexivity|discriminate]|].
  apply (X6_zero_count_divides_by_zero (Net.serving ten) "http://h/f.bin"
           (in_dir []) (Net.Value 10)); [reflexivity|discriminate].
Defined.

(** [ten] in three segments with part files of 3, 3 and 4 bytes: the last
    one is larger than the chunk size 3. *)
Lemma X7_four_bytes_for_a_chunk_of_three :
  (Net.head (Net.serving ten) "http://h/f.bin" = Net.HeadOk (Net.Value 10)
   ∧ 1 <= 3
   ∧ first_free (dir (in_dir full_parts)) (Py.basename "http://h/f.bin")
       0 "f.bin"
   ∧ Fs.glob ("f.bin" +:+ ".part*") (dir (in_dir full_parts))
     = Some ["f.bin.part000"; "f.bin.part001"; "f.bin.part002"]
   ∧ Z.of_nat (length ["f.bin.part000"; "f.bin.part001"; "f.bin.part002"]) = 3
   ∧ ["f.bin.part000"; "f.bin.part001"; "f.bin.part002"] !! 2%nat
     = Some "f.bin.part002"
   ∧ Fs.read "f.bin.part002" (dir (in_dir full_parts))
     = Some [x36; x37; x38; x39]
   ∧ 10 / 3 < Z.of_nat (length [x36; x37; x38; x39]))
  ∧ ∃ s',
      main (Net.serving ten) "http://h/f.bin" 3 (in_dir full_parts)
      = (Exit 1, s')
      ∧ chunks (self s') = Some <$> plan 10 3
      ∧ dir (os s') = dir (in_dir full_parts)
      ∧ sent (os s') = sent (in_dir full_parts) ++ [Net.HEAD "http://h/f.bin"].
Proof.
  assert (first_free (dir (in_dir full_parts)) (Py.basename "http://h/f.bin")
            0 "f.bin")
    as Hff by (apply (first_free_at_once full_parts "f.bin"); reflexivity).
  split.
  { split; [reflexivity|]. split; [lia|]. split; [exact Hff|].
    split; [reflexivity|]. split; [reflexivity|]. split; [reflexivity|].
    split; [reflexivity|]. vm_compute. reflexivity. }
  apply (X7_oversized_part_file_aborts (Net.serving ten) "http://h/f.bin" 3
           (in_dir full_parts) 10 0 "f.bin"
           ["f.bin.part000"; "f.bin.part001"; "f.bin.part002"]
           2 "f.bin.part002" [x36; x37; x38; x39]);
    [reflexivity|lia|exact Hff|reflexivity|reflexivity|reflexivity|reflexivity
    |vm_compute; reflexivity].
Defined.

(** Three part files to stitch, the second missing: the output holds the
    first part only, and the third part is still there. *)
Lemma X8_stitch_without_the_second_part :
  (filename (self lacking_a_part) = Some "out.bin"
   ∧ Fs.plain "out.bin" = true
   ∧ files (self lacking_a_part)
     = ["out.bin.part000"] ++ "out.bin.part001" :: ["out.bin.part002"]
   ∧ ("out.bin" ∉ ["out.bin.part000"])
   ∧ ("-" ∉ ["out.bin.part000"])
   ∧ "out.bin.part001" ≠ "-"
   ∧ "out.bin.part001" ≠ "out.bin"
   ∧ Forall2 (λ g c, Fs.read g (dir (os lacking_a_part)) = Some c)
       ["out.bin.part000"] [[x30; x31; x32; x33; x34]]
   ∧ Fs.read "out.bin.part001" (dir (os lacking_a_part)) = None)
  ∧ ∃ s',
      stitch lacking_a_part = (Raise IOError, s')
      ∧ Fs.read "out.bin" (dir (os s')) = Some [x30; x31; x32; x33; x34]
      ∧ Fs.read "out.bin.part000" (dir (os s')) = Some [x30; x31; x32; x33; x34]
      ∧ Fs.read "out.bin.part002" (dir (os s')) = Some [x78; x79; x7a].
Proof.
  assert ("out.bin" ∉ ["out.bin.part000"]) as Hout by compute_done.
  assert ("-" ∉ ["out.bin.part000"]) as Hdash by compute_done.
  assert (Forall2 (λ g c, Fs.read g (dir (os lacking_a_part)) = Some c)
            ["out.bin.part000"] [[x30; x31; x32; x33; x34]]) as Hall
    by (repeat constructor).
  split.
  { split; [reflexivity|]. split; [reflexivity|]. split; [reflexivity|].
    split; [exact Hout|].
    split; [exact Hdash|]. split; [discriminate|]. split; [discriminate|].
    split; [exact Hall|reflexivity]. }
  destruct (X8_stitch_stops_at_a_missing_part lacking_a_part "out.bin"
              ["out.bin.part000"] "out.bin.part001" ["out.bin.part002"]
              [[x30; x31; x32; x33; x34]])
    as (s' & Hrun & _ & _ & Hread & Hother);
    [reflexivity|reflexivity|reflexivity|exact Hout|exact Hdash|discriminate
    |discriminate|exact Hall|reflexivity|].
  exists s'. split; [exact Hrun|]. split; [exact Hread|].
  split; (rewrite Hother; [reflexivity|discriminate]).
Defined.

(** [ten] in two segments from a server that refuses the second range: the
    output holds the first five bytes. *)
Lemma X9_second_range_refused :
  (Net.head refusing "http://h/f.bin" = Net.HeadOk (Net.Value 10)
   ∧ 1 <= 2
   ∧ first_free (dir (in_dir [])) (Py.basename "http://h/f.bin") 0 "f.bin"
   ∧ Fs.plain "f.bin" = true
   ∧ Fs.glob ("f.bin" +:+ ".part*") (dir (in_dir [])) = Some []
   ∧ (∀ j, (j < Z.to_nat 2)%nat →
           Fs.isfile (part_name (Some "f.bin") j) (dir (in_dir [])) = false)
   ∧ (1 < Z.to_nat 2)%nat
   ∧ Net.get refusing "http://h/f.bin" (planned_chunk 10 2 (Z.of_nat 1))
     = Net.GetFails
   ∧ (∀ j, (j < 1)%nat →
           Net.get refusing "http://h/f.bin" (planned_chunk 10 2 (Z.of_nat j))
           ≠ Net.GetFails))
  ∧ ∃ s',
      main refusing "http://h/f.bin" 2 (in_dir []) = (Raise IOError, s')
      ∧ Fs.read "f.bin" (dir (os s')) = Some [x30; x31; x32; x33; x34]
      ∧ Fs.read "f.bin.part000" (dir (os s')) = Some [x30; x31; x32; x33; x34]
      ∧ Fs.read "f.bin.part001" (dir (os s')) = None
      ∧ sent (os s')
        = [Net.HEAD "http://h/f.bin"; Net.GET "http://h/f.bin" (0, 4);
           Net.GET "http://h/f.bin" (5, 10)].
Proof.
  assert (first_free (dir (in_dir [])) (Py.basename "http://h/f.bin") 0 "f.bin")
    as Hff by (apply (first_free_at_once [] "f.bin"); reflexivity).
  assert (∀ j, (j < Z.to_nat 2)%nat →
               Fs.isfile (part_name (Some "f.bin") j) (dir (in_dir [])) = false)
    as Hfresh by (intros j _; reflexivity).
  assert (1 < Z.to_nat 2)%nat as Hi by (vm_compute; lia).
  assert (∀ j, (j < 1)%nat →
               Net.get refusing "http://h/f.bin"
                 (planned_chunk 10 2 (Z.of_nat j))
               ≠ Net.GetFails) as Hbefore.
  { intros j Hj. replace j with 0%nat by lia. vm_compute. discriminate. }
  split.
  { split; [reflexivity|]. split; [lia|]. split; [exact Hff|].
    split; [reflexivity|].
    split; [reflexivity|]. split; [exact Hfresh|]. split; [exact Hi|].
    split; [reflexivity|exact Hbefore]. }
  destruct (X9_refused_range_leaves_a_truncated_output refusing
              "http://h/f.bin" 2 (in_dir []) 10 0 "f.bin" 1)
    as (s' & Hmain & _ & Hread & Hparts & _ & Hsent);
    [reflexivity|lia|exact Hff|reflexivity|reflexivity|exact Hfresh|exact Hi
    |reflexivity|exact Hbefore|].
  exists s'. split; [exact Hmain|]. split; [rewrite Hread; reflexivity|].
  split; [exact (Hparts 0%nat ltac:(vm_compute; lia))|].
  split; [exact (Hparts 1%nat Hi)|].
  exact Hsent.
Defined.

(** [ten] planned in two segments, with the first part file in full and
    two bytes of the second: both are accepted, the first segment is
    skipped and the second is resumed at offset 7. *)
Lemma X10_five_and_two_bytes_accepted :
  (filename (self planned_in_two) = Some "f.bin"
   ∧ Fs.glob ("f.bin" +:+ ".part*") (dir (os planned_in_two))
     = Some ["f.bin.part000"; "f.bin.part001"]
   ∧ Z.of_nat (length ["f.bin.part000"; "f.bin.part001"])
     = count (self planned_in_two)
   ∧ Forall2 (λ f d, Fs.read f (dir (os planned_in_two)) = Some d)
       ["f.bin.part000"; "f.bin.part001"]
       [[x30; x31; x32; x33; x34]; [x35; x36]]
   ∧ chunks (self planned_in_two) = Some <$> [(0, 4); (5, 10)]
   ∧ length [(0, 4); (5, 10)]
     = length [[x30; x31; x32; x33; x34]; [x35; x36]])
  ∧ ∃ s',
      resume_check planned_in_two = (Ret tt, s')
      ∧ startcount (self s') = [5; 2]
      ∧ chunks (self s') !! 0%nat = Some None
      ∧ chunks (self s') !! 1%nat = Some (Some (7, 9)).
Proof.
  assert (Forall2 (λ f d, Fs.read f (dir (os planned_in_two)) = Some d)
            ["f.bin.part000"; "f.bin.part001"]
            [[x30; x31; x32; x33; x34]; [x35; x36]]) as Hall
    by (repeat constructor).
  split.
  { split; [reflexivity|]. split; [reflexivity|]. split; [reflexivity|].
    split; [exact Hall|]. split; reflexivity. }
  destruct (X10_reconciler_accepts_unless_a_size_is_off planned_in_two "f.bin"
              ["f.bin.part000"; "f.bin.part001"]
              [[x30; x31; x32; x33; x34]; [x35; x36]] [(0, 4); (5, 10)])
    as [Haccept _];
    [reflexivity|reflexivity|reflexivity|exact Hall|reflexivity|reflexivity|].
  destruct Haccept as (s' & Hrun & _ & _ & Hstart & _ & Hnew).
  { intros [|[|k]] d c Hd Hc [Hne Hbr].
    - injection Hd as <-. injection Hc as <-. apply Hne. reflexivity.
    - injection Hd as <-. injection Hc as <-. vm_compute in Hbr.
      discriminate.
    - discriminate. }
  exists s'. split; [exact Hrun|]. split; [exact Hstart|].
  split.
  - exact (Hnew 0%nat _ _ eq_refl eq_refl).
  - exact (Hnew 1%nat _ _ eq_refl eq_refl).
Defined.

(** [ten] in two segments, with part files found: the banner says
    [Resuming download]. *)
Lemma X11_banner_of_a_resumed_run :
  (1 <= 2
   ∧ (get_file_info (Net.serving ten);; resume_check)
       (start "http://h/f.bin" 2 (in_dir listed_by_index))
     = (Ret tt,
        ((get_file_info (Net.serving ten);; resume_check)
           (start "http://h/f.bin" 2 (in_dir listed_by_index))).2))
  ∧ ∃ s2,
      print_start
        ((get_file_info (Net.serving ten);; resume_check)
           (start "http://h/f.bin" 2 (in_dir listed_by_index))).2
      = (Ret tt, s2)
      ∧ last (stdout (os s2)) = Some ("Resuming download" +:+ Py.nl).
Proof.
  assert ((get_file_info (Net.serving ten);; resume_check)
            (start "http://h/f.bin" 2 (in_dir listed_by_index))
          = (Ret tt,
             ((get_file_info (Net.serving ten);; resume_check)
                (start "http://h/f.bin" 2 (in_dir listed_by_index))).2))
    as Hplan by (vm_compute; reflexivity).
  split; [split; [lia|exact Hplan]|].
  destruct (X11_banner_tells_a_resume_from_a_start (Net.serving ten)
              "http://h/f.bin" 2 (in_dir listed_by_index) _ ltac:(lia) Hplan)
    as (name & Hname & Hrun).
  assert (name = "f.bin") as -> by (vm_compute in Hname; congruence).
  eexists. split; [exact Hrun|].
  unfold printing. cbn [os stdout]. rewrite last_app. reflexivity.
Defined.

(** A stream that breaks after one byte: [fetch] returns all the same, and
    the Stitcher writes the six bytes it finds and deletes both part
    files. *)
Lemma C2_stitcher_runs_on_breaking_stream :
  (1 <= 2
   ∧ (get_file_info breaking;; resume_check)
       (start "http://h/f.bin" 2 (in_dir []))
     = (Ret tt,
        ((get_file_info breaking;; resume_check)
           (start "http://h/f.bin" 2 (in_dir []))).2)
   ∧ filename
       (self ((get_file_info breaking;; resume_check)
                (start "http://h/f.bin" 2 (in_dir []))).2)
     = Some "f.bin"
   ∧ Fs.plain "f.bin" = true)
  ∧ Net.get breaking "http://h/f.bin" (5, 10) = Net.Stream [[x35]] true
  ∧ ∃ s',
      main breaking "http://h/f.bin" 2 (in_dir []) = (Ret tt, s')
      ∧ Fs.read "f.bin" (dir (os s')) = Some [x30; x31; x32; x33; x34; x35]
      ∧ Fs.isfile "f.bin.part000" (dir (os s')) = false
      ∧ Fs.isfile "f.bin.part001" (dir (os s')) = false.
Proof.
  assert ((get_file_info breaking;; resume_check)
            (start "http://h/f.bin" 2 (in_dir []))
          = (Ret tt,
             ((get_file_info breaking;; resume_check)
                (start "http://h/f.bin" 2 (in_dir []))).2)) as Hplan
    by (vm_compute; reflexivity).
  assert (filename
            (self ((get_file_info breaking;; resume_check)
                     (start "http://h/f.bin" 2 (in_dir []))).2)
          = Some "f.bin") as Hname
    by (vm_compute; reflexivity).
  split; [split; [lia|split; [exact Hplan|split; [exact Hname|reflexivity]]]|].
  split; [reflexivity|].
  destruct (C2_stitcher_runs_after_failed_fetch breaking "http://h/f.bin" 2
              (in_dir []) _ "f.bin" ltac:(lia) Hplan Hname eq_refl)
    as (s2 & Hfetch & _ & _ & _ & Hall & _).
  assert (s2 = (fetch breaking (start "http://h/f.bin" 2 (in_dir []))).2)
    as -> by (rewrite Hfetch; reflexivity).
  destruct (Hall [[x30; x31; x32; x33; x34]; [x35]])
    as (s' & Hmain & Hread & Hgone).
  { repeat constructor; vm_compute; reflexivity. }
  exists s'. split; [exact Hmain|]. split; [exact Hread|].
  split; apply Hgone; apply list_elem_of_In; simpl; tauto.
Defined.

(** A URL that ends with a slash: both segments are fetched, then the run
    ends at the [open] of [stitch]; the part files stay and no file with
    the empty name appears. *)
Lemma X12_url_ending_with_a_slash :
  (1 <= 2
   ∧ (get_file_info (Net.serving ten);; resume_check)
       (start "http://h/" 2 (in_dir []))
     = (Ret tt,
        ((get_file_info (Net.serving ten);; resume_check)
           (start "http://h/" 2 (in_dir []))).2)
   ∧ filename
       (self ((get_file_info (Net.serving ten);; resume_check)
                (start "http://h/" 2 (in_dir []))).2)
     = Some ""
   ∧ ("" = "" ∨ "" = "." ∨ "" = ".."))
  ∧ ∃ s2,
      main (Net.serving ten) "http://h/" 2 (in_dir []) = (Raise IOError, s2)
      ∧ Fs.read ".part000" (dir (os s2)) = Some [x30; x31; x32; x33; x34]
      ∧ Fs.read ".part001" (dir (os s2)) = Some [x35; x36; x37; x38; x39]
      ∧ Fs.isfile "" (dir (os s2)) = false.
Proof.
  assert ((get_file_info (Net.serving ten);; resume_check)
            (start "http://h/" 2 (in_dir []))
          = (Ret tt,
             ((get_file_info (Net.serving ten);; resume_check)
                (start "http://h/" 2 (in_dir []))).2)) as Hplan
    by (vm_compute; reflexivity).
  assert (filename
            (self ((get_file_info (Net.serving ten);; resume_check)
                     (start "http://h/" 2 (in_dir []))).2)
          = Some "") as Hname
    by (vm_compute; reflexivity).
  split; [split; [lia|split; [exact Hplan|split; [exact Hname|left; reflexivity]]]|].
  destruct (X12_unopenable_output_name_fails_after_the_fetches (Net.serving ten)
              "http://h/" 2 (in_dir []) _ "" ltac:(lia) Hplan Hname
              (or_introl eq_refl))
    as (s2 & Hfetch & Hmain & _).
  assert (s2 = (fetch (Net.serving ten) (start "http://h/" 2 (in_dir []))).2)
    as -> by (rewrite Hfetch; reflexivity).
  eexists. split; [exact Hmain|].
  repeat split; vm_compute; reflexivity.
Defined.
